(** * eth-service: transaction submission, receipt tracking, status query
      and the companion escrow contract

    Shallow embedding of
      - src/lib/ethereum.js                          (class Ethereum)
      - src/app/controllers/transaction.controller.js (class Transaction)
      - src/contract/escrow.sol                      (contract Escrow, both listings)

    The JavaScript code talks to a remote node through web3.  The node is a
    state machine of an arbitrary state type; every RPC call takes the node
    state and returns an answer (a value or a thrown error) and the next
    state.  The program itself is written in a small monad that threads the
    node state, collects the trace of the calls it makes and propagates
    thrown errors.

    Conventions.  The numbers the code computes with (transaction counts,
    attempt offsets, gas, elapsed milliseconds) are integers far inside the
    range that JavaScript numbers represent exactly; they are embedded as
    [Z].  A [null] answer of a lookup is [None].  web3 is used through the
    0.x interface of the file ([web3.eth.contract], [web3.toHex]), whose
    calls return their result or throw.  Definitions come first; the facts
    start at the section "Facts". *)

From Stdlib Require Import ZArith Lia.
From stdpp Require Import base gmap strings list.

Local Open Scope Z_scope.

(** ** JavaScript values and errors *)

(** The values that reach the dynamically typed parameters of the code. *)
Inductive JsVal :=
| JUndefined
| JNull
| JBool (b : bool)
| JNum (n : Z)
| JStr (s : string)
| JObj (tag : string).

(** An [Error] object: its constructor name and its [message]. *)
Record JsError := mkError { err_name : string; err_message : string }.

Definition Error (message : string) : JsError := mkError "Error" message.
Definition TypeError (message : string) : JsError := mkError "TypeError" message.
Definition ReferenceError (message : string) : JsError :=
  mkError "ReferenceError" message.

(** ** Data exchanged with the node *)

(** A transaction receipt; [status] is '0x1', '0x0' or missing (undefined)
    on nodes that do not report it. *)
Record Receipt := mkReceipt { r_status : JsVal; r_gasUsed : Z }.

(** The transaction object returned by [eth.getTransaction]. *)
Record TxRecord := mkTxRecord { t_gas : Z }.

(** The object literal [transaction] built in [makeTransaction]. *)
Record TxFields := mkTxFields {
  tx_nonce : Z;
  tx_gasPrice : Z;
  tx_gasLimit : Z;
  tx_to : JsVal;
  tx_data : string
}.

(** A signed, serialized transaction: the fields and the key that signed
    them (the wire encoding is injective and is kept structural here). *)
Record RawTx := mkRawTx { raw_fields : TxFields; raw_key : string }.

(** ** Traces and outcomes *)

Inductive LogMessage :=
| Tracking (txhash : string) (time : Z)
| Completed (txhash : string).

Inductive Event :=
| EstimateGas (data from : string) (to : JsVal)
| GetTransactionCount (from : string)
| GasPrice
| SendRawTransaction (raw : RawTx)
| GetTransactionReceipt (txhash : string)
| GetTransaction (txhash : string)
| Sleep (ms : Z)
| LogInfo (m : LogMessage)
| LogError (e : JsError).

(** What an [async] function ends with: a value, a thrown error, or (for
    the fuelled recursion only) exhausted fuel. *)
Inductive Result (A : Type) :=
| Ok (a : A)
| Throw (e : JsError)
| OutOfFuel.
Arguments Ok {A} a.
Arguments Throw {A} e.
Arguments OutOfFuel {A}.

(** What a call into web3 (or another library) comes back with. *)
Inductive Reply (A : Type) :=
| Value (a : A)
| Raised (e : JsError).
Arguments Value {A} a.
Arguments Raised {A} e.

(** The web3 calls the code uses, over a node state [N]; [elapse ms] is
    what happens to the node while the program sleeps for [ms]. *)
Record Web3 (N : Type) := mkWeb3 {
  eth_estimateGas : string → string → JsVal → N → Reply Z * N;
  eth_getTransactionCount : string → N → Reply Z * N;
  eth_gasPrice : N → Reply Z * N;
  eth_sendRawTransaction : RawTx → N → Reply string * N;
  eth_getTransactionReceipt : string → N → Reply (option Receipt) * N;
  eth_getTransaction : string → N → Reply (option TxRecord) * N;
  elapse : Z → N → N
}.
Arguments eth_estimateGas {N}.
Arguments eth_getTransactionCount {N}.
Arguments eth_gasPrice {N}.
Arguments eth_sendRawTransaction {N}.
Arguments eth_getTransactionReceipt {N}.
Arguments eth_getTransaction {N}.
Arguments elapse {N}.

(** ** The monad *)

Definition M (N A : Type) : Type := N → Result A * N * list Event.

Definition ret {N A} (a : A) : M N A := λ n, (Ok a, n, []).
Definition throw {N A} (e : JsError) : M N A := λ n, (Throw e, n, []).
Definition out_of_fuel {N A} : M N A := λ n, (OutOfFuel, n, []).

Definition bind {N A B} (m : M N A) (k : A → M N B) : M N B :=
  λ n,
    match m n with
    | (Ok a, n1, t1) =>
        match k a n1 with
        | (r, n2, t2) => (r, n2, t1 ++ t2)
        end
    | (Throw e, n1, t1) => (Throw e, n1, t1)
    | (OutOfFuel, n1, t1) => (OutOfFuel, n1, t1)
    end.

(** [try { m } catch (error) { handler error }] *)
Definition try_catch {N A} (m : M N A) (handler : JsError → M N A) : M N A :=
  λ n,
    match m n with
    | (Throw e, n1, t1) =>
        match handler e n1 with
        | (r, n2, t2) => (r, n2, t1 ++ t2)
        end
    | other => other
    end.

(** One RPC call: record it, then let the node answer. *)
Definition rpc {N A} (ev : Event) (call : N → Reply A * N) : M N A :=
  λ n,
    match call n with
    | (Value a, n1) => (Ok a, n1, [ev])
    | (Raised e, n1) => (Throw e, n1, [ev])
    end.

Definition emit {N} (ev : Event) : M N unit := λ n, (Ok tt, n, [ev]).

Notation "'await' x ':=' m 'in' k" := (bind m (λ x, k))
  (at level 10, x name, m at level 100, k at level 200, only parsing).
Notation "'exec' m 'in' k" := (bind m (λ _, k))
  (at level 10, m at level 100, k at level 200, only parsing).

Definition outcome {A N} (x : Result A * N * list Event) : Result A := x.1.1.
Definition final {A N} (x : Result A * N * list Event) : N := x.1.2.
Definition trace {A N} (x : Result A * N * list Event) : list Event := x.2.

(** ** Identifier resolution

    An identifier is looked up through the chain of scopes that encloses
    the place where it is read, innermost first; an identifier bound in
    none of them raises a ReferenceError. *)

Fixpoint scope_lookup (chain : list (gmap string JsVal)) (x : string)
    : option JsVal :=
  match chain with
  | [] => None
  | frame :: outer =>
      match frame !! x with
      | Some v => Some v
      | None => scope_lookup outer x
      end
  end.

Definition read_var {N} (chain : list (gmap string JsVal)) (x : string)
    : M N JsVal :=
  match scope_lookup chain x with
  | Some v => ret v
  | None => throw (ReferenceError (x +:+ " is not defined"))
  end.

(** The top-level bindings of ethereum.js (its eight [const]s and the
    class) and the names the CommonJS wrapper gives every module. *)
Definition module_frame : gmap string JsVal :=
  list_to_map
    (map (λ x, (x, JObj x))
       ["fs"; "_"; "path"; "Web3"; "solc"; "config"; "Transaction"; "logger";
        "Ethereum"; "exports"; "require"; "module"; "__filename"; "__dirname"]).

(** The globals the file uses.  Neither Node nor any file of the service
    defines a global called gasLimit. *)
Definition global_frame : gmap string JsVal :=
  list_to_map
    (map (λ x, (x, JObj x)) ["Promise"; "Buffer"; "Error"; "JSON"; "setTimeout"]).

(** ** src/lib/ethereum.js *)

Section Ethereum.
Context {N : Type}.
Variable web3 : Web3 N.

(** [config.gasLimit]: a number when the configuration sets it. *)
Variable config_gasLimit : option Z.

(** ethereumjs-tx ([new Transaction], [sign], [serialize]) and
    [new Buffer(privatekey, 'hex')]: the error they raise on these
    fields and this key, if any. *)
Variable signing_error : TxFields → string → option JsError.

(** [logger.info] and [logger.error] only write a line. *)
Definition logger_info (m : LogMessage) : M N unit := emit (LogInfo m).
Definition logger_error (e : JsError) : M N unit := emit (LogError e).

Definition sign (transaction : TxFields) (privatekey : string) : M N RawTx :=
  match signing_error transaction privatekey with
  | Some e => throw e
  | None => ret (mkRawTx transaction privatekey)
  end.

(** The scopes around the [catch] block of [makeTransaction]: the catch
    parameter, the function's parameters, the module, the globals.  The
    [const]s of the [try] block ([gasLimit], [nonce], [gasprice],
    [transaction], ...) are local to that block and are not among them. *)
Definition catch_scopes (error : JsError) (data from privatekey : string)
    (to : JsVal) (attempt : Z) : list (gmap string JsVal) :=
  [ {[ "error" := JObj (err_name error) ]};
    list_to_map
      [("data", JStr data); ("from", JStr from); ("privatekey", JStr privatekey);
       ("to", to); ("attempt", JNum attempt)];
    module_frame;
    global_frame ].

(** [config.gasLimit || this.web3.eth.estimateGas({data, from, to})],
    ethereum.js:75; a configured limit of 0 counts as none. *)
Definition gasLimit_or_estimate (data from : string) (to : JsVal) : M N Z :=
  match config_gasLimit with
  | Some g =>
      if g =? 0
      then rpc (EstimateGas data from to) (eth_estimateGas web3 data from to)
      else ret g
  | None => rpc (EstimateGas data from to) (eth_estimateGas web3 data from to)
  end.

(** The [try] block of [makeTransaction], ethereum.js:74-94.  The two
    elements of the array given to [Promise.all] are evaluated from left
    to right. *)
Definition makeTransaction_try (data from privatekey : string) (to : JsVal)
    (attempt : Z) : M N string :=
  await gasLimit := gasLimit_or_estimate data from to in
  await nonce := rpc (GetTransactionCount from)
                   (eth_getTransactionCount web3 from) in
  await gasprice := rpc GasPrice (eth_gasPrice web3) in
  let transaction :=
    {| tx_nonce := nonce + attempt;
       tx_gasPrice := gasprice;
       tx_gasLimit := gasLimit;
       tx_to := to;
       tx_data := data |} in
  await rawTransaction := sign transaction privatekey in
  await txhash := rpc (SendRawTransaction rawTransaction)
                    (eth_sendRawTransaction web3 rawTransaction) in
  ret txhash.

(** The [catch] block of [makeTransaction], ethereum.js:95-108.  [self] is
    [this.makeTransaction]; the six arguments of the call are evaluated
    from left to right before the call and handed over in the order in
    which they are written. *)
Definition makeTransaction_catch (self : list JsVal → M N string)
    (data from privatekey : string) (to : JsVal) (attempt : Z)
    (error : JsError) : M N string :=
  exec logger_error error in
  if (attempt <? 3) && String.eqb (err_message error) "nonce too low" then
    let scopes := catch_scopes error data from privatekey to attempt in
    await a_data := read_var scopes "data" in
    await a_from := read_var scopes "from" in
    await a_privatekey := read_var scopes "privatekey" in
    await a_gasLimit := read_var scopes "gasLimit" in
    await a_to := read_var scopes "to" in
    self [a_data; a_from; a_privatekey; a_gasLimit; a_to; JNum (attempt + 1)]
  else throw error.

(** [makeTransaction(data, from, privatekey, to, attempt = 0)],
    ethereum.js:73-109. *)
Definition makeTransaction (self : list JsVal → M N string)
    (data from privatekey : string) (to : JsVal) (attempt : Z) : M N string :=
  try_catch (makeTransaction_try data from privatekey to attempt)
    (makeTransaction_catch self data from privatekey to attempt).

(** [getTransactionReceipt(txhash)], ethereum.js:111-113. *)
Definition getTransactionReceipt (txhash : string) : M N (option Receipt) :=
  rpc (GetTransactionReceipt txhash) (eth_getTransactionReceipt web3 txhash).

(** [_timeout(ms)], ethereum.js:140-142: the node lives on for [ms]. *)
Definition _timeout (ms : Z) : M N unit :=
  λ n, (Ok tt, elapse web3 ms n, [Sleep ms]).

(** [waitForTransactionReceipt(txhash, time = 0)], ethereum.js:115-134.
    The function calls itself after every sleep; [fuel] bounds the depth
    of that recursion. *)
Fixpoint waitForTransactionReceipt_fuel (fuel : nat) (txhash : string)
    (time : Z) : M N Receipt :=
  match fuel with
  | O => out_of_fuel
  | S fuel' =>
      exec logger_info (Tracking txhash time) in
      await receipt := getTransactionReceipt txhash in
      if time >? 3600000 then
        throw (Error "It's 1 hour and not mined since")
      else
        exec
          (if (time >? 60000) && (time <=? 70000) then
             await transactionData :=
               rpc (GetTransaction txhash) (eth_getTransaction web3 txhash) in
             match transactionData with
             | None => throw (Error "Not reached to blockchain nodes")
             | Some _ => ret tt
             end
           else ret tt) in
        match receipt with
        | None =>
            exec _timeout 5000 in
            waitForTransactionReceipt_fuel fuel' txhash (time + 5000)
        | Some r =>
            exec logger_info (Completed txhash) in
            ret r
        end
  end.

(** The number of calls a run entered at [time] can make at most: one
    per elapsed value up to and including the first one above one hour. *)
Definition polls_left (time : Z) : nat :=
  if time >? 3600000 then 1%nat
  else (Z.to_nat ((3600000 - time) / 5000) + 2)%nat.

Definition waitForTransactionReceipt (txhash : string) (time : Z) : M N Receipt :=
  waitForTransactionReceipt_fuel (polls_left time) txhash time.

End Ethereum.

(** The members of the object that ethereum.js exports: the fields set by
    the constructor and the methods of the class. *)
Definition Ethereum_members : list string :=
  ["web3"; "contracts"; "contracts_folder";
   "constructor"; "loadContracts"; "loadContract"; "deployContract";
   "callContractFunction"; "makeTransaction"; "getTransactionReceipt";
   "waitForTransactionReceipt"; "toAscii"; "_timeout";
   "_createDeployableContract"].

(** The two members the controller asks the exported object for; a member
    the object does not have reads as [undefined]. *)
Record EthereumModule (N : Type) := mkModule {
  member_getTransactionReceipt : option (string → M N (option Receipt));
  member_getTransaction : option (string → M N (option TxRecord))
}.
Arguments mkModule {N}.
Arguments member_getTransactionReceipt {N}.
Arguments member_getTransaction {N}.

(** [module.exports = new Ethereum()]: the class defines
    [getTransactionReceipt]; it defines no [getTransaction]. *)
Definition Ethereum {N} (web3 : Web3 N) : EthereumModule N :=
  {| member_getTransactionReceipt := Some (getTransactionReceipt web3);
     member_getTransaction := None |}.

(** ** src/app/controllers/transaction.controller.js *)

Record StatusBody := mkStatus {
  sb_status : string;
  sb_message : string;
  sb_possibleReason : option string
}.

Module status.
Definition NOT_REACHED : StatusBody :=
  mkStatus "NOT_REACHED" "Transaction does not reached to blockchain nodes!" None.
Definition PENDING : StatusBody :=
  mkStatus "PENDING" "Trasaction is in Pending State" None.
Definition REVERTED : StatusBody :=
  mkStatus "FAILED" "Transaction Failed" (Some "REVERTED").
Definition OUTOFGAS : StatusBody :=
  mkStatus "FAILED" "Transaction Failed" (Some "Out of Gas").
Definition SUCCESS : StatusBody :=
  mkStatus "SUCCESS" "Transaction Completed Successfully!" None.
End status.

(** Which method of the Responder the handler ends with, and on what. *)
Inductive Response :=
| Responder_success (body : StatusBody)
| Responder_operationFailed (err : JsError).

(** [x == '0x0'] for a value [x] (abstract equality with a string). *)
Definition loose_eq_0x0 (x : JsVal) : bool :=
  match x with
  | JStr s => String.eqb s "0x0"
  | JNum n => n =? 0
  | JBool b => negb b
  | JUndefined | JNull | JObj _ => false
  end.

(** [Ethereum.name(arg)] *)
Definition call_member {N A} (name : string) (member : option (string → M N A))
    (arg : string) : M N A :=
  match member with
  | Some method => method arg
  | None => throw (TypeError ("Ethereum." +:+ name +:+ " is not a function"))
  end.

(** [Transaction.getTransactionStatus(req, res)], controller:30-51, on
    [req.params.txhash]. *)
Definition getTransactionStatus {N} (Ethereum : EthereumModule N)
    (txhash : string) : M N Response :=
  try_catch
    (await reciept := call_member "getTransactionReceipt"
                        (member_getTransactionReceipt Ethereum) txhash in
     match reciept with
     | None =>
         await transaction := call_member "getTransaction"
                                (member_getTransaction Ethereum) txhash in
         match transaction with
         | None => ret (Responder_success status.NOT_REACHED)
         | Some _ => ret (Responder_success status.PENDING)
         end
     | Some reciept =>
         if loose_eq_0x0 (r_status reciept) then
           await transaction := call_member "getTransaction"
                                  (member_getTransaction Ethereum) txhash in
           match transaction with
           | None => throw (TypeError "Cannot read property 'gas' of null")
           | Some transaction =>
               if r_gasUsed reciept =? t_gas transaction
               then ret (Responder_success status.OUTOFGAS)
               else ret (Responder_success status.REVERTED)
           end
         else ret (Responder_success status.SUCCESS)
     end)
    (λ err, ret (Responder_operationFailed err)).
(** ** Reading traces *)

(** The elapsed values at which an event of a given kind happened: every
    cycle of the tracker first logs its [time], so the calls that follow
    belong to that elapsed value. *)
Fixpoint calls_from (pick : Event → bool) (now : Z) (tr : list Event) : list Z :=
  match tr with
  | [] => []
  | LogInfo (Tracking _ t) :: tr' => calls_from pick t tr'
  | ev :: tr' =>
      if pick ev then now :: calls_from pick now tr' else calls_from pick now tr'
  end.

Definition is_probe (ev : Event) : bool :=
  match ev with GetTransaction _ => true | _ => false end.
Definition is_poll (ev : Event) : bool :=
  match ev with GetTransactionReceipt _ => true | _ => false end.

(** Elapsed values of the propagation probes and of the receipt queries. *)
Definition probe_times (tr : list Event) : list Z := calls_from is_probe 0 tr.
Definition poll_times (tr : list Event) : list Z := calls_from is_poll 0 tr.

(** [ticks time k]: the first [k] elapsed values of a run entered at [time]. *)
Fixpoint ticks (time : Z) (k : nat) : list Z :=
  match k with
  | O => []
  | S k' => time :: ticks (time + 5000) k'
  end.

Definition in_window (time : Z) : bool := (time >? 60000) && (time <=? 70000).

Definition timeout_error : JsError := Error "It's 1 hour and not mined since".
Definition not_reached_error : JsError := Error "Not reached to blockchain nodes".

(** The two reads that precede signing. *)
Definition is_fetch (ev : Event) : bool :=
  match ev with GetTransactionCount _ | GasPrice => true | _ => false end.

(** The transactions submitted to the node, in order. *)
Definition sent (tr : list Event) : list RawTx :=
  omap (λ ev, match ev with SendRawTransaction raw => Some raw | _ => None end) tr.


(** ** Vocabulary for the statements about the tracker *)

Section TrackerVocabulary.
Context {N : Type}.
Variable web3 : Web3 N.

(** What the end of a cycle does with the [receipt] it fetched. *)
Definition settle (fuel : nat) (txhash : string) (time : Z)
    (receipt : option Receipt) (n : N) (pre : list Event)
    : Result Receipt * N * list Event :=
  match receipt with
  | Some r => (Ok r, n, pre ++ [LogInfo (Completed txhash)])
  | None =>
      match waitForTransactionReceipt_fuel web3 fuel txhash (time + 5000)
              (elapse web3 5000 n) with
      | (r, n', tr) => (r, n', pre ++ Sleep 5000 :: tr)
      end
  end.

(** The answers of the node that a run can end with. *)
Definition reported (txhash : string) (r : Receipt) : Prop :=
  ∃ n1 n2, eth_getTransactionReceipt web3 txhash n1 = (Value (Some r), n2).

Definition raised_by_node (txhash : string) (e : JsError) : Prop :=
  ∃ n1 n2, eth_getTransactionReceipt web3 txhash n1 = (Raised e, n2)
           ∨ eth_getTransaction web3 txhash n1 = (Raised e, n2).

Definition ends_well (txhash : string) (res : Result Receipt) : Prop :=
  match res with
  | Ok r => reported txhash r
  | Throw e => e = timeout_error ∨ e = not_reached_error ∨ raised_by_node txhash e
  | OutOfFuel => False
  end.

End TrackerVocabulary.

(** ** The decision table of the specification

    Follows the words of the specification (section 4.4), for comparison
    with the controller: the outcome for a receipt (or none) and a
    transaction record (or none), where the status '0x0' is failure.  The
    rows for a failed receipt need the transaction's gas limit. *)
Definition classify_spec (receipt : option Receipt) (tx : option TxRecord)
    : option StatusBody :=
  match receipt, tx with
  | None, None => Some status.NOT_REACHED
  | None, Some _ => Some status.PENDING
  | Some r, tx =>
      if loose_eq_0x0 (r_status r) then
        match tx with
        | Some t =>
            if r_gasUsed r =? t_gas t then Some status.OUTOFGAS
            else Some status.REVERTED
        | None => None
        end
      else Some status.SUCCESS
  end.

(** The error that calling the missing method raises. *)
Definition no_getTransaction : JsError :=
  TypeError "Ethereum.getTransaction is not a function".

(** ** src/lib/ethereum.js: deployment *)

(** An entry of [this.contracts], as [loadContract] stores it: the
    bytecode and the web3 contract object (kept as its interface text). *)
Record LoadedContract := mkLoaded { lc_bytecode : string; lc_interface : string }.

(** An argument handed to the ABI encoder: a value, or a JavaScript array
    of values passed as one argument. *)
Inductive Arg :=
| Plain (v : JsVal)
| Packed (vs : list JsVal).

Section Deployment.
Context {N : Type}.
Variable web3 : Web3 N.
Variable config_gasLimit : option Z.
Variable signing_error : TxFields → string → option JsError.

(** [this.contracts]: the own properties of the object. *)
Variable contracts : gmap string LoadedContract.

(** The property names a plain object inherits from its prototype
    ([this.contracts] starts as [{}]); reading one of them finds a value
    that is not a loaded contract. *)
Variable inherited : list string.

(** [contract.new.getData(...args, {data})] of web3: the encoded
    deployment data, or the error it raises. *)
Variable new_getData : LoadedContract → list Arg → string → Reply string.

(** A call into a library that does not reach the node. *)
Definition library {A} (r : Reply A) : M N A :=
  match r with
  | Value a => ret a
  | Raised e => throw e
  end.

(** [_createDeployableContract(type, ...args)], ethereum.js:144-152. *)
Definition _createDeployableContract (type : string) (args : list Arg)
    : M N string :=
  match contracts !! type with
  | Some c => library (new_getData c args ("0x" +:+ lc_bytecode c))
  | None =>
      if bool_decide (type ∈ inherited)
      then throw (TypeError "Cannot read property 'new' of undefined")
      else throw (Error "No Such Contract Found")
  end.

(** [deployContract(type, from, privatekey, gasLimit, ...args)],
    ethereum.js:47-56.  The rest parameter [args] is handed on as one
    array; [makeTransaction] is called with four arguments, so that
    [gasLimit] arrives as its parameter [to] and [attempt] is 0;
    [waitForTransactionReceipt] is entered with [time] 0. *)
Definition deployContract (self : list JsVal → M N string)
    (type from privatekey : string) (gasLimit : JsVal) (args : list JsVal)
    : M N Receipt :=
  await contracttodeploy := _createDeployableContract type [Packed args] in
  await txHash := makeTransaction web3 config_gasLimit signing_error self
                    contracttodeploy from privatekey gasLimit 0 in
  waitForTransactionReceipt web3 txHash 0.

End Deployment.

(** ** More readings of a trace *)

(** The milliseconds a run has slept in total. *)
Definition slept (tr : list Event) : Z :=
  foldr (λ ev acc, match ev with Sleep ms => ms + acc | _ => acc end) 0 tr.

(** The calls that reach the node, in order. *)
Definition is_node_call (ev : Event) : bool :=
  match ev with
  | Sleep _ | LogInfo _ | LogError _ => false
  | _ => true
  end.
(** ** src/contract/escrow.sol

    The file holds two listings of the contract.  Both are embedded: the
    first (lines 1-329, written with modifiers) as [Escrow.First], the
    second (lines 330-579, written with [require]s) as [Escrow.Second].

    A call runs on the contract's storage, the state of the rest of the
    chain (the token contract) and the log; it ends by returning or by
    reverting, and a reverted call leaves no trace.  A call out of the
    contract hands control to the token contract, which may call back
    into the contract before it answers. *)

Module Escrow.

Definition address := Z.

Inductive JobState :=
| Absent | Created | Assigned | Completed | Arbitration | Paid | Unacceptable.

#[global] Instance JobState_eq_dec : EqDecision JobState.
Proof. solve_decision. Defined.

Inductive Outcome (A : Type) :=
| Returns (a : A)
| Reverts (reason : string).
Arguments Returns {A} a.
Arguments Reverts {A} reason.

(** [SafeMath.add]: 256-bit addition, [assert]ing that it did not wrap. *)
Definition SafeMath_add (a b : Z) : Outcome Z :=
  let c := (a + b) mod 2 ^ 256 in
  if c >=? a then Returns c else Reverts "assert".

(** The storage layout differs between the listings only in the [Job]
    struct, and the log only in its events. *)
Record Storage (Job : Type) := mkStorage {
  admins : list address;
  nonce : Z;
  token : address;
  payoutPeriod : Z;
  jobDetails : gmap Z Job
}.
Arguments mkStorage {Job}.
Arguments admins {Job}.
Arguments nonce {Job}.
Arguments token {Job}.
Arguments payoutPeriod {Job}.
Arguments jobDetails {Job}.

Record World (Job Ev T : Type) := mkWorld {
  storage : Storage Job;
  chain : T;
  logs : list Ev
}.
Arguments mkWorld {Job Ev T}.
Arguments storage {Job Ev T}.
Arguments chain {Job Ev T}.
Arguments logs {Job Ev T}.

Definition Exec (Job Ev T A : Type) : Type :=
  World Job Ev T → Outcome (A * World Job Ev T).

Section Exec.
Context {Job Ev T : Type}.

Definition pure {A} (a : A) : Exec Job Ev T A := λ w, Returns (a, w).

Definition andthen {A B} (m : Exec Job Ev T A) (k : A → Exec Job Ev T B)
    : Exec Job Ev T B :=
  λ w, match m w with
       | Returns (a, w') => k a w'
       | Reverts reason => Reverts reason
       end.

Definition require (cond : bool) (message : string) : Exec Job Ev T unit :=
  λ w, if cond then Returns (tt, w) else Reverts message.

Definition lift {A} (o : Outcome A) : Exec Job Ev T A :=
  λ w, match o with Returns a => Returns (a, w) | Reverts r => Reverts r end.

(** Reading storage. *)
Definition sload {A} (f : Storage Job → A) : Exec Job Ev T A :=
  λ w, Returns (f (storage w), w).

Definition emit_event (ev : Ev) : Exec Job Ev T unit :=
  λ w, Returns (tt, mkWorld (storage w) (chain w) (logs w ++ [ev])).

(** What the two calls out of the contract do to the world, the token
    contract being the first argument: [ERC20(token).transfer(_to, _value)]
    and [ERC20(token).transferFrom(_from, _to, _value)]. *)
Record Outside := mkOutside {
  transfer_of : address → address → Z → Exec Job Ev T bool;
  transferFrom_of : address → address → address → Z → Exec Job Ev T bool
}.

(** [ERC20(token).transfer(_to, _value)]: the token is read from the
    storage when the call is made. *)
Definition ERC20_transfer (outside : Outside) (_to : address) (_value : Z)
    : Exec Job Ev T bool :=
  λ w, transfer_of outside (token (storage w)) _to _value w.

(** A frame at the bottom of the call stack: every call out fails. *)
Definition no_calls : Outside :=
  mkOutside (λ _ _ _ _, Reverts "call depth") (λ _ _ _ _ _, Reverts "call depth").

End Exec.
Arguments Outside : clear implicits.

Notation "'var' x ':=' m 'in' k" := (andthen m (λ x, k))
  (at level 10, x name, m at level 100, k at level 200, only parsing).
Notation "'stmt' m 'in' k" := (andthen m (λ _, k))
  (at level 10, m at level 100, k at level 200, only parsing).

(** *** The token contract

    The token is code of its own: called, it may change its state, call
    back into the contract (as any sender, directly or through other
    contracts) any number of times, looking at the public state of the
    contract in between, and in the end answers or reverts.  A call back
    that reverts leaves no trace but the state the token had set before
    it. *)
Inductive Script (W T Call : Type) : Type :=
| Answer (ok : bool) (chain' : T)
| Fail
| Reenter (chain' : T) (sender : address) (call : Call)
    (k : bool → W → Script W T Call).
Arguments Answer {W T Call} ok chain'.
Arguments Fail {W T Call}.
Arguments Reenter {W T Call} chain' sender call k.

(** The two functions of the interface [ERC20] that the contract calls:
    token, caller, then the arguments, on the world of the call. *)
Record ERC20 (W T Call : Type) := mkERC20 {
  transfer : address → address → address → Z → W → Script W T Call;
  transferFrom : address → address → address → address → Z → W → Script W T Call
}.
Arguments mkERC20 {W T Call}.
Arguments transfer {W T Call}.
Arguments transferFrom {W T Call}.


Section CallOut.
Context {Job Ev T Call : Type}.
(** How the contract runs a call made back into it. *)
Variable callback : address → Call → Exec Job Ev T unit.

Fixpoint call_out (script : Script (World Job Ev T) T Call) (w : World Job Ev T)
    : Outcome (bool * World Job Ev T) :=
  match script with
  | Answer ok chain' => Returns (ok, mkWorld (storage w) chain' (logs w))
  | Fail => Reverts "call reverted"
  | Reenter chain' sender call k =>
      let entered := mkWorld (storage w) chain' (logs w) in
      match callback sender call entered with
      | Returns (_, w') => call_out (k true w') w'
      | Reverts _ => call_out (k false entered) entered
      end
  end.

(** The calls out of a frame of the contract at [this] whose calls back
    are run by [callback]. *)
Definition through (erc20 : ERC20 (World Job Ev T) T Call) (this : address)
    : Outside Job Ev T :=
  mkOutside
    (λ token _to _value w, call_out (transfer erc20 token this _to _value w) w)
    (λ token _from _to _value w,
       call_out (transferFrom erc20 token this _from _to _value w) w).

End CallOut.

(** *** First listing (escrow.sol:121-329) *)

Module First.

Record Job := mkJob {
  description : string;
  vodiant : address;
  vodeer : address;
  vodiantTokensStaked : Z;
  payoutStartTime : Z;
  arbitrationTime : Z;
  arbiter : address;
  vodiantDissatisfied : bool;
  status : JobState
}.

(** A slot of the mapping that was never written reads as zeros. *)
Definition zero_job : Job := mkJob "" 0 0 0 0 0 0 false Absent.

Definition job (s : Storage Job) (_nonce : Z) : Job :=
  default zero_job (jobDetails s !! _nonce).

(** The events of the contract and of [Governable]. *)
Inductive Ev :=
| AdminAdded (newAdmin compositor : address)
| AdminRemoved (admin eliminator : address)
| TokenSet (_token : address)
| PayoutPeriodSet (_payoutPeriod : Z)
| JobAdded (_nonce : Z) (_vodiant : address) (_tokensStaked : Z)
| JobAssigned (_nonce : Z) (_vodiant _vodeer : address) (_vodiantTokens : Z)
| WorkSubmitted (_nonce : Z) (_vodeer : address)
| VodiantDissatisfied (_nonce : Z) (_vodiant : address)
| DisputeRaised (_nonce : Z) (_vodeer : address)
| ArbiterAssigned (_nonce : Z) (_arbiter : address)
| VodeerPaid (_nonce : Z) (_vodeer : address) (_tokens : Z)
| PayoutClaimed (beneficiary : address) (tokens : Z) (isVodiant : bool)
| TokensRefunded (_nonce : Z) (_vodiant _vodeer : address) (_vodiantTokens : Z).

Section Calls.
Context {T : Type}.
(** The calls out of the frame, and [msg.sender]. *)
Variable outside : Outside Job Ev T.
Variable msg_sender : address.

(** [modifier checkStatus(_nonce, state)], escrow.sol:155-158. *)
Definition checkStatus (_nonce : Z) (state : JobState)
    (body : Exec Job Ev T unit) : Exec Job Ev T unit :=
  var current := sload (λ s, status (job s _nonce)) in
  stmt require (bool_decide (current = state)) "Job is at a different stage" in
  body.

(** [modifier isArbiter(_nonce)], escrow.sol:160-163. *)
Definition isArbiter (_nonce : Z) (body : Exec Job Ev T unit)
    : Exec Job Ev T unit :=
  var who := sload (λ s, arbiter (job s _nonce)) in
  stmt require (who =? msg_sender) "Not the arbiter for this job" in
  body.

(** [modifier hasTransferred(beneficiary, tokens)], escrow.sol:180-183:
    the body first, the transfer after it. *)
Definition hasTransferred (beneficiary : Exec Job Ev T address)
    (tokens : Exec Job Ev T Z) (body : Exec Job Ev T unit)
    : Exec Job Ev T unit :=
  var beneficiary := beneficiary in
  var tokens := tokens in
  stmt body in
  var ok := ERC20_transfer outside beneficiary tokens in
  require ok "Insufficient funds in contract".

(** [positiveVerdict(_nonce)], escrow.sol:302-314.  Its first statement is
    the expression [jobDetails[_nonce].status == JobState.Paid], whose
    value is dropped. *)
Definition positiveVerdict (_nonce : Z) : Exec Job Ev T unit :=
  isArbiter _nonce
    (checkStatus _nonce Arbitration
       (hasTransferred (sload (λ s, vodeer (job s _nonce)))
          (sload (λ s, vodiantTokensStaked (job s _nonce)))
          (var _compared := sload (λ s, bool_decide (status (job s _nonce) = Paid)) in
           var vodeer := sload (λ s, vodeer (job s _nonce)) in
           var tokens := sload (λ s, vodiantTokensStaked (job s _nonce)) in
           emit_event (VodeerPaid _nonce vodeer tokens)))).

(** [negativeVerdict(_nonce)], escrow.sol:316-328. *)
Definition negativeVerdict (_nonce : Z) : Exec Job Ev T unit :=
  isArbiter _nonce
    (checkStatus _nonce Arbitration
       (hasTransferred (sload (λ s, vodiant (job s _nonce)))
          (sload (λ s, vodiantTokensStaked (job s _nonce)))
          (var _compared :=
             sload (λ s, bool_decide (status (job s _nonce) = Unacceptable)) in
           var vodiant := sload (λ s, vodiant (job s _nonce)) in
           var vodiantTokens := sload (λ s, vodiantTokensStaked (job s _nonce)) in
           var vodeer := sload (λ s, vodeer (job s _nonce)) in
           emit_event (TokensRefunded _nonce vodiant vodeer vodiantTokens)))).

End Calls.
End First.

(** *** Second listing (escrow.sol:450-579) *)

Module Second.

Record Job := mkJob {
  description : string;
  vodiant : address;
  vodeer : address;
  vodeerTokensStaked : Z;
  vodiantTokensStaked : Z;
  arbiter : address;
  vodiantDissatisfied : bool;
  status : JobState
}.

Definition zero_job : Job := mkJob "" 0 0 0 0 0 false Absent.

Definition job (s : Storage Job) (_nonce : Z) : Job :=
  default zero_job (jobDetails s !! _nonce).

(** The events of the contract and of [Governable]. *)
Inductive Ev :=
| AdminAdded (newAdmin compositor : address)
| AdminRemoved (admin eliminator : address)
| TokenSet (_token : address)
| JobAdded (_nonce : Z) (_vodiant : address) (_tokensStaked : Z)
| JobAssigned (_nonce : Z) (_vodiant : address) (_vodiantTokens : Z)
    (_vodeer : address) (_vodeerTokens : Z)
| WorkSubmitted (_nonce : Z) (_vodeer : address)
| VodiantDissatisfied (_nonce : Z) (_vodiant : address)
| DisputeRaised (_nonce : Z) (_vodeer : address)
| ArbiterAssigned (_nonce : Z) (_arbiter : address)
| VodeerPaid (_nonce : Z) (_vodeer : address) (_tokens : Z)
| TokensRefunded (_nonce : Z) (_vodiant : address) (_vodiantTokens : Z)
    (_vodeer : address) (_vodeerTokens : Z).

Section Calls.
Context {T : Type}.
Variable outside : Outside Job Ev T.
Variable msg_sender : address.

(** [positiveVerdict(_nonce)], escrow.sol:551-562. *)
Definition positiveVerdict (_nonce : Z) : Exec Job Ev T unit :=
  var current := sload (λ s, status (job s _nonce)) in
  stmt require (bool_decide (current = Arbitration)) "Job is at a different stage" in
  var who := sload (λ s, arbiter (job s _nonce)) in
  stmt require (who =? msg_sender) "Not the arbiter for this job" in
  var _compared := sload (λ s, bool_decide (status (job s _nonce) = Paid)) in
  var vodeer := sload (λ s, vodeer (job s _nonce)) in
  var vodeerTokens := sload (λ s, vodeerTokensStaked (job s _nonce)) in
  var vodiantTokens := sload (λ s, vodiantTokensStaked (job s _nonce)) in
  var tokens := lift (SafeMath_add vodeerTokens vodiantTokens) in
  var ok := ERC20_transfer outside vodeer tokens in
  stmt require ok "Insufficient funds in contract" in
  emit_event (VodeerPaid _nonce vodeer tokens).

(** [negativeVerdict(_nonce)], escrow.sol:564-578. *)
Definition negativeVerdict (_nonce : Z) : Exec Job Ev T unit :=
  var current := sload (λ s, status (job s _nonce)) in
  stmt require (bool_decide (current = Arbitration)) "Job is at a different stage" in
  var who := sload (λ s, arbiter (job s _nonce)) in
  stmt require (who =? msg_sender) "Not the arbiter for this job" in
  var _compared := sload (λ s, bool_decide (status (job s _nonce) = Unacceptable)) in
  var vodeer := sload (λ s, vodeer (job s _nonce)) in
  var vodeerTokens := sload (λ s, vodeerTokensStaked (job s _nonce)) in
  var vodiant := sload (λ s, vodiant (job s _nonce)) in
  var vodiantTokens := sload (λ s, vodiantTokensStaked (job s _nonce)) in
  var ok1 := ERC20_transfer outside vodeer vodeerTokens in
  stmt require ok1 "Insufficient funds in contract" in
  var ok2 := ERC20_transfer outside vodiant vodiantTokens in
  stmt require ok2 "Insufficient funds in contract" in
  emit_event (TokensRefunded _nonce vodiant vodiantTokens vodeer vodeerTokens).

End Calls.
End Second.

End Escrow.

(** ** src/contract/escrow.sol: the rest of the contract

    [SafeMath], [Governable] and the functions of [Escrow] besides the
    verdicts, on the storage, outcomes and execution monad of [Escrow]
    above; then a transaction as a whole, with the calls the token makes
    back into the contract. *)

Module Sol.
Import Escrow.

(** [SafeMath.mul], escrow.sol:13-20. *)
Definition SafeMath_mul (a b : Z) : Outcome Z :=
  if a =? 0 then Returns 0
  else
    let c := (a * b) mod 2 ^ 256 in
    if c / a =? b then Returns c else Reverts "assert".

(** [SafeMath.div], escrow.sol:25-30: division by zero reverts. *)
Definition SafeMath_div (a b : Z) : Outcome Z :=
  if b =? 0 then Reverts "division by zero" else Returns (a / b).

(** [SafeMath.sub], escrow.sol:35-38. *)
Definition SafeMath_sub (a b : Z) : Outcome Z :=
  if b <=? a then Returns (a - b) else Reverts "assert".

(** A 256-bit unsigned value. *)
Definition uint256 (x : Z) : Prop := 0 ≤ x < 2 ^ 256.

Section Storage.
Context {Job : Type}.

Definition set_admins (l : list address) (s : Storage Job) : Storage Job :=
  mkStorage l (nonce s) (token s) (payoutPeriod s) (jobDetails s).
Definition set_nonce (x : Z) (s : Storage Job) : Storage Job :=
  mkStorage (admins s) x (token s) (payoutPeriod s) (jobDetails s).
Definition set_token (x : address) (s : Storage Job) : Storage Job :=
  mkStorage (admins s) (nonce s) x (payoutPeriod s) (jobDetails s).
Definition set_payoutPeriod (x : Z) (s : Storage Job) : Storage Job :=
  mkStorage (admins s) (nonce s) (token s) x (jobDetails s).
Definition set_job (k : Z) (j : Job) (s : Storage Job) : Storage Job :=
  mkStorage (admins s) (nonce s) (token s) (payoutPeriod s)
    (<[k := j]> (jobDetails s)).

(** The storage of a contract that was just created. *)
Definition empty_storage : Storage Job := mkStorage [] 0 0 0 ∅.

End Storage.

Section Exec.
Context {Job Ev T : Type}.

(** Writing storage. *)
Definition sstore (f : Storage Job → Storage Job) : Exec Job Ev T unit :=
  λ w, Returns (tt, mkWorld (f (storage w)) (chain w) (logs w)).

(** [ERC20(token).transferFrom(_from, _to, _value)]: the token is read
    from the storage when the call is made. *)
Definition ERC20_transferFrom (outside : Outside Job Ev T) (_from _to : address)
    (_value : Z) : Exec Job Ev T bool :=
  λ w, transferFrom_of outside (token (storage w)) _from _to _value w.

End Exec.

End Sol.

(** *** Governable (escrow.sol:51-111) *)

Module Governable.
Import Escrow Sol.

(** The loop of [isAdmin]: [i] is the index of the head of [rest]; a later
    match overwrites an earlier one. *)
Fixpoint isAdmin_loop (rest : list address) (_addr : address) (i : Z)
    (found : bool) (pos : Z) : bool * Z :=
  match rest with
  | [] => (found, pos)
  | a :: rest' =>
      if _addr =? a then isAdmin_loop rest' _addr (i + 1) true i
      else isAdmin_loop rest' _addr (i + 1) found pos
  end.

(** [isAdmin(_addr)], escrow.sol:101-109. *)
Definition isAdmin (admins : list address) (_addr : address) : bool * Z :=
  isAdmin_loop admins _addr 0 false 0.

(** What [removeAdmin] does to the array once [pos] is known:
    escrow.sol:92-97. *)
Definition cut_out (admins : list address) (pos : Z) : list address :=
  let moved :=
    if pos <? Z.of_nat (length admins) - 1 then
      match last admins with
      | Some tail => <[Z.to_nat pos := tail]> admins
      | None => admins
      end
    else admins in
  take (length admins - 1) moved.

Section Calls.
Context {Job Ev T : Type}.
(** The two events of [Governable] in the log of the contract. *)
Variables AdminAdded AdminRemoved : address → address → Ev.
Variable msg_sender : address.

(** The constructor, escrow.sol:70-73: [admins.length = 1] and
    [admins[0] = msg.sender]. *)
Definition constructor : Exec Job Ev T unit :=
  stmt sstore (λ s, set_admins (resize 1 0 (admins s)) s) in
  sstore (λ s, set_admins (<[0%nat := msg_sender]> (admins s)) s).

(** [modifier onlyAdmins], escrow.sol:75-79. *)
Definition onlyAdmins {A} (body : Exec Job Ev T A) : Exec Job Ev T A :=
  var adminStatus := sload (λ s, (isAdmin (admins s) msg_sender).1) in
  stmt require adminStatus "Not an admin" in
  body.

(** [addAdmin(_admin)], escrow.sol:81-87. *)
Definition addAdmin (_admin : address) : Exec Job Ev T unit :=
  onlyAdmins
    (var adminStatus := sload (λ s, (isAdmin (admins s) _admin).1) in
     stmt require (negb adminStatus) "Already an admin" in
     var count := sload (λ s, length (admins s)) in
     stmt require (count <? 10)%nat "Admins limit reached" in
     stmt sstore (λ s, set_admins (admins s ++ [_admin]) s) in
     emit_event (AdminAdded _admin msg_sender)).

(** [removeAdmin(_admin)], escrow.sol:89-99. *)
Definition removeAdmin (_admin : address) : Exec Job Ev T unit :=
  onlyAdmins
    (var found := sload (λ s, isAdmin (admins s) _admin) in
     stmt require found.1 "Not an admin" in
     stmt sstore (λ s, set_admins (cut_out (admins s) found.2) s) in
     emit_event (AdminRemoved _admin msg_sender)).

End Calls.
End Governable.

(** *** The first listing in full (escrow.sol:121-329) *)

Module FirstListing.
Import Escrow Sol.

(** Assignments to the fields of a job. *)
Definition set_description (x : string) (j : First.Job) : First.Job :=
  First.mkJob x (First.vodiant j) (First.vodeer j) (First.vodiantTokensStaked j)
    (First.payoutStartTime j) (First.arbitrationTime j) (First.arbiter j)
    (First.vodiantDissatisfied j) (First.status j).
Definition set_vodiant (x : address) (j : First.Job) : First.Job :=
  First.mkJob (First.description j) x (First.vodeer j) (First.vodiantTokensStaked j)
    (First.payoutStartTime j) (First.arbitrationTime j) (First.arbiter j)
    (First.vodiantDissatisfied j) (First.status j).
Definition set_vodeer (x : address) (j : First.Job) : First.Job :=
  First.mkJob (First.description j) (First.vodiant j) x (First.vodiantTokensStaked j)
    (First.payoutStartTime j) (First.arbitrationTime j) (First.arbiter j)
    (First.vodiantDissatisfied j) (First.status j).
Definition set_vodiantTokensStaked (x : Z) (j : First.Job) : First.Job :=
  First.mkJob (First.description j) (First.vodiant j) (First.vodeer j) x
    (First.payoutStartTime j) (First.arbitrationTime j) (First.arbiter j)
    (First.vodiantDissatisfied j) (First.status j).
Definition set_payoutStartTime (x : Z) (j : First.Job) : First.Job :=
  First.mkJob (First.description j) (First.vodiant j) (First.vodeer j)
    (First.vodiantTokensStaked j) x (First.arbitrationTime j) (First.arbiter j)
    (First.vodiantDissatisfied j) (First.status j).
Definition set_arbitrationTime (x : Z) (j : First.Job) : First.Job :=
  First.mkJob (First.description j) (First.vodiant j) (First.vodeer j)
    (First.vodiantTokensStaked j) (First.payoutStartTime j) x (First.arbiter j)
    (First.vodiantDissatisfied j) (First.status j).
Definition set_arbiter (x : address) (j : First.Job) : First.Job :=
  First.mkJob (First.description j) (First.vodiant j) (First.vodeer j)
    (First.vodiantTokensStaked j) (First.payoutStartTime j) (First.arbitrationTime j)
    x (First.vodiantDissatisfied j) (First.status j).
Definition set_vodiantDissatisfied (x : bool) (j : First.Job) : First.Job :=
  First.mkJob (First.description j) (First.vodiant j) (First.vodeer j)
    (First.vodiantTokensStaked j) (First.payoutStartTime j) (First.arbitrationTime j)
    (First.arbiter j) x (First.status j).
Definition set_status (x : JobState) (j : First.Job) : First.Job :=
  First.mkJob (First.description j) (First.vodiant j) (First.vodeer j)
    (First.vodiantTokensStaked j) (First.payoutStartTime j) (First.arbitrationTime j)
    (First.arbiter j) (First.vodiantDissatisfied j) x.

Section Calls.
Context {T : Type}.
(** The calls out of the frame; [address(this)], [msg.sender] and [now]. *)
Variable outside : Outside First.Job First.Ev T.
Variables this msg_sender : address.
Variable now : Z.

(** [jobDetails[k].field = ...] *)
Definition assign (k : Z) (f : First.Job → First.Job) : Exec First.Job First.Ev T unit :=
  sstore (λ s, set_job k (f (First.job s k)) s).

(** The modifiers besides those of the verdicts, escrow.sol:165-195. *)
Definition isValidAddress {A} (_who : address)
    (body : Exec First.Job First.Ev T A) : Exec First.Job First.Ev T A :=
  stmt require (negb (_who =? 0)) "Invalid address" in
  body.

Definition isVodeer {A} (_nonce : Z)
    (body : Exec First.Job First.Ev T A) : Exec First.Job First.Ev T A :=
  var who := sload (λ s, First.vodeer (First.job s _nonce)) in
  stmt require (who =? msg_sender) "Not your job" in
  body.

Definition isVodiant {A} (_nonce : Z)
    (body : Exec First.Job First.Ev T A) : Exec First.Job First.Ev T A :=
  var who := sload (λ s, First.vodiant (First.job s _nonce)) in
  stmt require (who =? msg_sender) "Not your job" in
  body.

Definition isVodiantSatisfied {A} (_nonce : Z) (_required : bool)
    (body : Exec First.Job First.Ev T A) : Exec First.Job First.Ev T A :=
  let message :=
    if _required then "Vodiant satisfied" else "Request already submitted" in
  var flag := sload (λ s, First.vodiantDissatisfied (First.job s _nonce)) in
  stmt require (bool_decide (flag = _required)) message in
  body.

Definition onlyAdmins {A} (body : Exec First.Job First.Ev T A) : Exec First.Job First.Ev T A :=
  Governable.onlyAdmins msg_sender body.

(** [setToken(_token)], escrow.sol:202-205. *)
Definition setToken (_token : address) : Exec First.Job First.Ev T unit :=
  onlyAdmins
    (isValidAddress _token
       (stmt sstore (set_token _token) in
        emit_event (First.TokenSet _token))).

(** [setPayoutPeriod(_payoutPeriod)], escrow.sol:207-211. *)
Definition setPayoutPeriod (_payoutPeriod : Z) : Exec First.Job First.Ev T unit :=
  onlyAdmins
    (stmt require (_payoutPeriod >? 0) "0 value entered" in
     stmt sstore (set_payoutPeriod _payoutPeriod) in
     emit_event (First.PayoutPeriodSet _payoutPeriod)).

(** The constructor, escrow.sol:197-200, after the one of [Governable]. *)
Definition constructor (_token : address) (_payoutPeriod : Z)
    : Exec First.Job First.Ev T unit :=
  stmt Governable.constructor msg_sender in
  stmt setToken _token in
  setPayoutPeriod _payoutPeriod.

(** [addJob(_description, _tokens)], escrow.sol:213-225. *)
Definition addJob (_description : string) (_tokens : Z)
    : Exec First.Job First.Ev T unit :=
  var slot := sload nonce in
  stmt assign slot (set_description _description) in
  stmt assign slot (set_vodiant msg_sender) in
  stmt assign slot (set_vodiantTokensStaked _tokens) in
  stmt assign slot (set_status Created) in
  var current := sload nonce in
  stmt emit_event (First.JobAdded current msg_sender _tokens) in
  var next := lift (SafeMath_add current 1) in
  stmt sstore (set_nonce next) in
  var ok := ERC20_transferFrom outside msg_sender this _tokens in
  require ok "Token transfer failed".

(** [applyForJob(_nonce)], escrow.sol:227-239. *)
Definition applyForJob (_nonce : Z) : Exec First.Job First.Ev T unit :=
  First.checkStatus _nonce Created
    (stmt assign _nonce (set_vodeer msg_sender) in
     stmt assign _nonce (set_status Assigned) in
     var vodiant := sload (λ s, First.vodiant (First.job s _nonce)) in
     var tokens := sload (λ s, First.vodiantTokensStaked (First.job s _nonce)) in
     emit_event (First.JobAssigned _nonce vodiant msg_sender tokens)).

(** [submitWork(_nonce)], escrow.sol:241-250. *)
Definition submitWork (_nonce : Z) : Exec First.Job First.Ev T unit :=
  isVodeer _nonce
    (First.checkStatus _nonce Assigned
       (stmt assign _nonce (set_status Completed) in
        stmt assign _nonce (set_payoutStartTime now) in
        emit_event (First.WorkSubmitted _nonce msg_sender))).

(** [dissatisfactoryWorkSubmitted(_nonce)], escrow.sol:252-264. *)
Definition dissatisfactoryWorkSubmitted (_nonce : Z) : Exec First.Job First.Ev T unit :=
  First.checkStatus _nonce Completed
    (isVodiant _nonce
       (isVodiantSatisfied _nonce false
          (var start := sload (λ s, First.payoutStartTime (First.job s _nonce)) in
           var waited := lift (SafeMath_sub now start) in
           var period := sload payoutPeriod in
           stmt require (waited <=? period) "Payout period has passed" in
           stmt assign _nonce (set_vodiantDissatisfied true) in
           stmt assign _nonce (set_status Arbitration) in
           stmt assign _nonce (set_arbitrationTime now) in
           emit_event (First.VodiantDissatisfied _nonce msg_sender)))).

(** [raiseDispute(_nonce, _arbiter)], escrow.sol:266-279. *)
Definition raiseDispute (_nonce : Z) (_arbiter : address)
    : Exec First.Job First.Ev T unit :=
  isVodeer _nonce
    (isValidAddress _arbiter
       (First.checkStatus _nonce Arbitration
          (isVodiantSatisfied _nonce true
             (var start := sload (λ s, First.arbitrationTime (First.job s _nonce)) in
              var waited := lift (SafeMath_sub now start) in
              var period := sload payoutPeriod in
              stmt require (waited <=? period) "Payout period has passed" in
              var current := sload (λ s, First.arbiter (First.job s _nonce)) in
              stmt require (current =? 0) "Arbiter already assigned" in
              stmt assign _nonce (set_arbiter _arbiter) in
              stmt emit_event (First.DisputeRaised _nonce msg_sender) in
              emit_event (First.ArbiterAssigned _nonce _arbiter))))).

(** [status == state && now.sub(since) > payoutPeriod]: the subtraction
    is made only when the status matches. *)
Definition overdue (_nonce : Z) (state : JobState) (since : First.Job → Z)
    : Exec First.Job First.Ev T bool :=
  var current := sload (λ s, First.status (First.job s _nonce)) in
  if bool_decide (current = state) then
    var start := sload (λ s, since (First.job s _nonce)) in
    var waited := lift (SafeMath_sub now start) in
    var period := sload payoutPeriod in
    pure (waited >? period)
  else pure false.

(** [claimPayout(_nonce)], escrow.sol:281-300. *)
Definition claimPayout (_nonce : Z) : Exec First.Job First.Ev T unit :=
  First.hasTransferred outside (pure msg_sender)
    (sload (λ s, First.vodiantTokensStaked (First.job s _nonce)))
    (var completed := overdue _nonce Completed First.payoutStartTime in
     stmt
       (if completed then
          var vodeer := sload (λ s, First.vodeer (First.job s _nonce)) in
          stmt require (msg_sender =? vodeer) "Only vodeer can claim this payout" in
          var tokens := sload (λ s, First.vodiantTokensStaked (First.job s _nonce)) in
          emit_event (First.PayoutClaimed msg_sender tokens false)
        else
          var disputed := overdue _nonce Arbitration First.arbitrationTime in
          if disputed then
            var vodiant := sload (λ s, First.vodiant (First.job s _nonce)) in
            stmt require (msg_sender =? vodiant) "Only vodiant can claim this payout" in
            var tokens :=
              sload (λ s, First.vodiantTokensStaked (First.job s _nonce)) in
            emit_event (First.PayoutClaimed msg_sender tokens true)
          else pure tt) in
     assign _nonce (set_status Paid)).

End Calls.

(** The transactions a user can send to the contract. *)
Inductive Call :=
| AddAdmin (_admin : address)
| RemoveAdmin (_admin : address)
| SetToken (_token : address)
| SetPayoutPeriod (_payoutPeriod : Z)
| AddJob (_description : string) (_tokens : Z)
| ApplyForJob (_nonce : Z)
| SubmitWork (_nonce : Z)
| DissatisfactoryWorkSubmitted (_nonce : Z)
| RaiseDispute (_nonce : Z) (_arbiter : address)
| ClaimPayout (_nonce : Z)
| PositiveVerdict (_nonce : Z)
| NegativeVerdict (_nonce : Z).

(** One frame of the contract running [call], its calls out given. *)
Definition perform {T} (outside : Outside First.Job First.Ev T)
    (this msg_sender : address) (now : Z) (call : Call)
    : Exec First.Job First.Ev T unit :=
  match call with
  | AddAdmin a => Governable.addAdmin First.AdminAdded msg_sender a
  | RemoveAdmin a => Governable.removeAdmin First.AdminRemoved msg_sender a
  | SetToken t => setToken msg_sender t
  | SetPayoutPeriod p => setPayoutPeriod msg_sender p
  | AddJob d t => addJob outside this msg_sender d t
  | ApplyForJob k => applyForJob msg_sender k
  | SubmitWork k => submitWork msg_sender now k
  | DissatisfactoryWorkSubmitted k => dissatisfactoryWorkSubmitted msg_sender now k
  | RaiseDispute k a => raiseDispute msg_sender now k a
  | ClaimPayout k => claimPayout outside msg_sender now k
  | PositiveVerdict k => First.positiveVerdict outside msg_sender k
  | NegativeVerdict k => First.negativeVerdict outside msg_sender k
  end.

(** A transaction, or a call back, with [depth] levels of the call stack
    left for calls out of the contract: the token is called through
    [erc20], and what it calls back runs one level further down.  [now]
    is the time of the block. *)
Fixpoint transact {T} (erc20 : ERC20 (World First.Job First.Ev T) T Call)
    (this : address) (now : Z) (depth : nat) (msg_sender : address) (call : Call)
    : Exec First.Job First.Ev T unit :=
  perform
    match depth with
    | O => no_calls
    | S deeper => through (transact erc20 this now deeper) erc20 this
    end
    this msg_sender now call.

(** The calls out of a frame with [depth] levels left. *)
Definition calls_at {T} (erc20 : ERC20 (World First.Job First.Ev T) T Call)
    (this : address) (now : Z) (depth : nat) : Outside First.Job First.Ev T :=
  match depth with
  | O => no_calls
  | S deeper => through (transact erc20 this now deeper) erc20 this
  end.

End FirstListing.

(** *** The second listing in full (escrow.sol:450-579) *)

Module SecondListing.
Import Escrow Sol.

(** Assignments to the fields of a job. *)
Definition set_description (x : string) (j : Second.Job) : Second.Job :=
  Second.mkJob x (Second.vodiant j) (Second.vodeer j) (Second.vodeerTokensStaked j)
    (Second.vodiantTokensStaked j) (Second.arbiter j)
    (Second.vodiantDissatisfied j) (Second.status j).
Definition set_vodiant (x : address) (j : Second.Job) : Second.Job :=
  Second.mkJob (Second.description j) x (Second.vodeer j)
    (Second.vodeerTokensStaked j) (Second.vodiantTokensStaked j) (Second.arbiter j)
    (Second.vodiantDissatisfied j) (Second.status j).
Definition set_vodeer (x : address) (j : Second.Job) : Second.Job :=
  Second.mkJob (Second.description j) (Second.vodiant j) x
    (Second.vodeerTokensStaked j) (Second.vodiantTokensStaked j) (Second.arbiter j)
    (Second.vodiantDissatisfied j) (Second.status j).
Definition set_vodeerTokensStaked (x : Z) (j : Second.Job) : Second.Job :=
  Second.mkJob (Second.description j) (Second.vodiant j) (Second.vodeer j) x
    (Second.vodiantTokensStaked j) (Second.arbiter j)
    (Second.vodiantDissatisfied j) (Second.status j).
Definition set_vodiantTokensStaked (x : Z) (j : Second.Job) : Second.Job :=
  Second.mkJob (Second.description j) (Second.vodiant j) (Second.vodeer j)
    (Second.vodeerTokensStaked j) x (Second.arbiter j)
    (Second.vodiantDissatisfied j) (Second.status j).
Definition set_arbiter (x : address) (j : Second.Job) : Second.Job :=
  Second.mkJob (Second.description j) (Second.vodiant j) (Second.vodeer j)
    (Second.vodeerTokensStaked j) (Second.vodiantTokensStaked j) x
    (Second.vodiantDissatisfied j) (Second.status j).
Definition set_vodiantDissatisfied (x : bool) (j : Second.Job) : Second.Job :=
  Second.mkJob (Second.description j) (Second.vodiant j) (Second.vodeer j)
    (Second.vodeerTokensStaked j) (Second.vodiantTokensStaked j) (Second.arbiter j)
    x (Second.status j).
Definition set_status (x : JobState) (j : Second.Job) : Second.Job :=
  Second.mkJob (Second.description j) (Second.vodiant j) (Second.vodeer j)
    (Second.vodeerTokensStaked j) (Second.vodiantTokensStaked j) (Second.arbiter j)
    (Second.vodiantDissatisfied j) x.

Section Calls.
Context {T : Type}.
Variable outside : Outside Second.Job Second.Ev T.
Variables this msg_sender : address.

Definition assign (k : Z) (f : Second.Job → Second.Job)
    : Exec Second.Job Second.Ev T unit :=
  sstore (λ s, set_job k (f (Second.job s k)) s).

(** [setToken(_token)], escrow.sol:484-488: open to every caller. *)
Definition setToken (_token : address) : Exec Second.Job Second.Ev T unit :=
  stmt require (negb (_token =? 0)) "Invalid address" in
  stmt sstore (set_token _token) in
  emit_event (Second.TokenSet _token).

(** The constructor, escrow.sol:480-482, after the one of [Governable]. *)
Definition constructor (_token : address) : Exec Second.Job Second.Ev T unit :=
  stmt Governable.constructor msg_sender in
  setToken _token.

(** [addJob(_description, _tokens)], escrow.sol:490-502. *)
Definition addJob (_description : string) (_tokens : Z)
    : Exec Second.Job Second.Ev T unit :=
  var slot := sload nonce in
  stmt assign slot (set_description _description) in
  stmt assign slot (set_vodiant msg_sender) in
  stmt assign slot (set_vodiantTokensStaked _tokens) in
  stmt assign slot (set_status Created) in
  var current := sload nonce in
  stmt emit_event (Second.JobAdded current msg_sender _tokens) in
  var next := lift (SafeMath_add current 1) in
  stmt sstore (set_nonce next) in
  var ok := ERC20_transferFrom outside msg_sender this _tokens in
  require ok "Token transfer failed".

(** [applyForJob(_nonce, _tokens)], escrow.sol:504-514. *)
Definition applyForJob (_nonce _tokens : Z) : Exec Second.Job Second.Ev T unit :=
  var current := sload (λ s, Second.status (Second.job s _nonce)) in
  stmt require (bool_decide (current = Created)) "Job not available" in
  stmt assign _nonce (set_vodeer msg_sender) in
  stmt assign _nonce (set_vodeerTokensStaked _tokens) in
  stmt assign _nonce (set_status Assigned) in
  var ok := ERC20_transferFrom outside msg_sender this _tokens in
  stmt require ok "Token transfer failed" in
  var vodiant := sload (λ s, Second.vodiant (Second.job s _nonce)) in
  var vodiantTokens := sload (λ s, Second.vodiantTokensStaked (Second.job s _nonce)) in
  emit_event (Second.JobAssigned _nonce vodiant vodiantTokens msg_sender _tokens).

(** [submitWork(_nonce)], escrow.sol:516-522. *)
Definition submitWork (_nonce : Z) : Exec Second.Job Second.Ev T unit :=
  var who := sload (λ s, Second.vodeer (Second.job s _nonce)) in
  stmt require (who =? msg_sender) "Not your job" in
  var current := sload (λ s, Second.status (Second.job s _nonce)) in
  stmt require (bool_decide (current = Assigned)) "Job already submitted" in
  stmt assign _nonce (set_status Completed) in
  emit_event (Second.WorkSubmitted _nonce msg_sender).

(** [dissatisfactoryWorkSubmitted(_nonce)], escrow.sol:524-531. *)
Definition dissatisfactoryWorkSubmitted (_nonce : Z) : Exec Second.Job Second.Ev T unit :=
  var who := sload (λ s, Second.vodiant (Second.job s _nonce)) in
  stmt require (who =? msg_sender) "Not your job" in
  var current := sload (λ s, Second.status (Second.job s _nonce)) in
  stmt require (bool_decide (current = Completed)) "Job is at a different stage" in
  var flag := sload (λ s, Second.vodiantDissatisfied (Second.job s _nonce)) in
  stmt require (negb flag) "Request already submitted" in
  stmt assign _nonce (set_vodiantDissatisfied true) in
  emit_event (Second.VodiantDissatisfied _nonce msg_sender).

(** [raiseDispute(_nonce)], escrow.sol:533-540. *)
Definition raiseDispute (_nonce : Z) : Exec Second.Job Second.Ev T unit :=
  var who := sload (λ s, Second.vodeer (Second.job s _nonce)) in
  stmt require (who =? msg_sender) "Not your job" in
  var current := sload (λ s, Second.status (Second.job s _nonce)) in
  stmt require (bool_decide (current = Completed)) "Job is at a different stage" in
  var flag := sload (λ s, Second.vodiantDissatisfied (Second.job s _nonce)) in
  stmt require flag "Vodiant satisfied" in
  stmt assign _nonce (set_status Arbitration) in
  emit_event (Second.DisputeRaised _nonce msg_sender).

(** [assignArbiter(_nonce, _arbiter)], escrow.sol:542-549. *)
Definition assignArbiter (_nonce : Z) (_arbiter : address)
    : Exec Second.Job Second.Ev T unit :=
  Governable.onlyAdmins msg_sender
    (var current := sload (λ s, Second.status (Second.job s _nonce)) in
     stmt require (bool_decide (current = Arbitration))
            "Job is at a different stage" in
     var assigned := sload (λ s, Second.arbiter (Second.job s _nonce)) in
     stmt require (assigned =? 0) "Arbiter already assigned" in
     stmt require (negb (_arbiter =? 0)) "Invalid address" in
     stmt assign _nonce (set_arbiter _arbiter) in
     emit_event (Second.ArbiterAssigned _nonce _arbiter)).

End Calls.

(** The transactions a user can send to the contract. *)
Inductive Call :=
| AddAdmin (_admin : address)
| RemoveAdmin (_admin : address)
| SetToken (_token : address)
| AddJob (_description : string) (_tokens : Z)
| ApplyForJob (_nonce _tokens : Z)
| SubmitWork (_nonce : Z)
| DissatisfactoryWorkSubmitted (_nonce : Z)
| RaiseDispute (_nonce : Z)
| AssignArbiter (_nonce : Z) (_arbiter : address)
| PositiveVerdict (_nonce : Z)
| NegativeVerdict (_nonce : Z).

(** One frame of the contract running [call], its calls out given. *)
Definition perform {T} (outside : Outside Second.Job Second.Ev T)
    (this msg_sender : address) (call : Call) : Exec Second.Job Second.Ev T unit :=
  match call with
  | AddAdmin a => Governable.addAdmin Second.AdminAdded msg_sender a
  | RemoveAdmin a => Governable.removeAdmin Second.AdminRemoved msg_sender a
  | SetToken t => setToken t
  | AddJob d t => addJob outside this msg_sender d t
  | ApplyForJob k t => applyForJob outside this msg_sender k t
  | SubmitWork k => submitWork msg_sender k
  | DissatisfactoryWorkSubmitted k => dissatisfactoryWorkSubmitted msg_sender k
  | RaiseDispute k => raiseDispute msg_sender k
  | AssignArbiter k a => assignArbiter msg_sender k a
  | PositiveVerdict k => Second.positiveVerdict outside msg_sender k
  | NegativeVerdict k => Second.negativeVerdict outside msg_sender k
  end.

(** A transaction, or a call back, with [depth] levels of the call stack
    left for calls out of the contract: the token is called through
    [erc20], and what it calls back runs one level further down. *)
Fixpoint transact {T} (erc20 : ERC20 (World Second.Job Second.Ev T) T Call)
    (this : address) (depth : nat) (msg_sender : address) (call : Call)
    : Exec Second.Job Second.Ev T unit :=
  perform
    match depth with
    | O => no_calls
    | S deeper => through (transact erc20 this deeper) erc20 this
    end
    this msg_sender call.

(** The calls out of a frame with [depth] levels left. *)
Definition calls_at {T} (erc20 : ERC20 (World Second.Job Second.Ev T) T Call)
    (this : address) (depth : nat) : Outside Second.Job Second.Ev T :=
  match depth with
  | O => no_calls
  | S deeper => through (transact erc20 this deeper) erc20 this
  end.

(** The worlds the deployed contract can be in: the one its constructor
    leaves, and every one a returning transaction leads to. *)
Inductive reachable {T} (erc20 : ERC20 (World Second.Job Second.Ev T) T Call)
    (this : address) : World Second.Job Second.Ev T → Prop :=
| deployed deployer _token chain0 w :
    constructor deployer _token (mkWorld empty_storage chain0 []) = Returns (tt, w) →
    reachable erc20 this w
| transacted w depth msg_sender call w' :
    reachable erc20 this w →
    transact erc20 this depth msg_sender call w = Returns (tt, w') →
    reachable erc20 this w'.

End SecondListing.

(** ** What holds of the contract's storage *)

Module SecondFacts.
Import Escrow Sol.

(** One returning transaction. *)
Definition step {T}
    (erc20 : ERC20 (World Second.Job Second.Ev T) T SecondListing.Call)
    (this : address) (w w' : World Second.Job Second.Ev T) : Prop :=
  ∃ depth msg_sender call,
    SecondListing.transact erc20 this depth msg_sender call w = Returns (tt, w').

(** The admins are pairwise different and at most ten; the job counter is
    a 256-bit value; no job is Paid or Unacceptable; and only the slots
    below the counter have been written. *)
Definition healthy (s : Storage Second.Job) : Prop :=
  NoDup (admins s)
  ∧ (length (admins s) ≤ 10)%nat
  ∧ uint256 (nonce s)
  ∧ ∀ k,
      Second.status (Second.job s k) ≠ Paid
      ∧ Second.status (Second.job s k) ≠ Unacceptable
      ∧ (¬ (0 ≤ k < nonce s) → Second.job s k = Second.zero_job).

(** What the statements of one frame do to the storage before the frame
    calls out or ends: they replace the admins (there was one to send the
    call), set the token, add a job at the counter, rewrite a written job
    (never out of Arbitration, never clearing vodiantDissatisfied, and
    setting it when the job is Completed with the flag unset), or write
    nothing. *)
Inductive effect (s : Storage Second.Job)
    : SecondListing.Call → Storage Second.Job → Prop :=
| effect_admins call l :
    (NoDup (admins s) → NoDup l) →
    (length (admins s) ≤ 10 → length l ≤ 10)%nat →
    admins s ≠ [] →
    effect s call (set_admins l s)
| effect_token call t : effect s call (set_token t s)
| effect_added d t j c :
    SafeMath_add (nonce s) 1 = Returns c → Second.status j = Created →
    effect s (SecondListing.AddJob d t) (set_nonce c (set_job (nonce s) j s))
| effect_job call k j :
    Second.status (Second.job s k) ≠ Absent →
    Second.status j ∈ [Assigned; Completed; Arbitration] →
    (Second.status (Second.job s k) = Arbitration → Second.status j = Arbitration) →
    (Second.vodiantDissatisfied (Second.job s k) = true →
     Second.vodiantDissatisfied j = true) →
    (Second.status (Second.job s k) = Completed →
     Second.vodiantDissatisfied (Second.job s k) = false →
     Second.vodiantDissatisfied j = true) →
    effect s call (set_job k j s)
| effect_none call : effect s call s.

End SecondFacts.

(** ** Nodes for the examples

    A simulated node: its clock (in ms, advanced by the sleeps of the
    tracker) and the number of raw transactions it has been sent.  What it
    answers is a function of these. *)

Record SimNode := mkSim { clock : Z; submissions : nat }.

Definition sim_web3 (count_at : nat → Z) (send_reply : nat → Reply string)
    (receipt_at : Z → option Receipt) (tx_at : Z → option TxRecord)
    : Web3 SimNode :=
  {| eth_estimateGas := λ _ _ _ n, (Value 21000, n);
     eth_getTransactionCount := λ _ n, (Value (count_at (submissions n)), n);
     eth_gasPrice := λ n, (Value 1000000000, n);
     eth_sendRawTransaction :=
       λ _ n, (send_reply (submissions n), mkSim (clock n) (S (submissions n)));
     eth_getTransactionReceipt := λ _ n, (Value (receipt_at (clock n)), n);
     eth_getTransaction := λ _ n, (Value (tx_at (clock n)), n);
     elapse := λ ms n, mkSim (clock n + ms) (submissions n) |}.

Definition boot : SimNode := mkSim 0 0.

Definition mined : Receipt := mkReceipt (JStr "0x1") 21000.
Definition known : TxRecord := mkTxRecord 21000.

(** Knows the transaction and never mines it. *)
Definition pending_node : Web3 SimNode :=
  sim_web3 (λ _, 5) (λ _, Value "0xh") (λ _, None) (λ _, Some known).

(** Mines the transaction just after the hour. *)
Definition late_node : Web3 SimNode :=
  sim_web3 (λ _, 5) (λ _, Value "0xh")
    (λ c, if c >? 3600000 then Some mined else None) (λ _, Some known).

(** Has the receipt at once, and reports no status in it. *)
Definition statusless_node : Web3 SimNode :=
  sim_web3 (λ _, 5) (λ _, Value "0xh")
    (λ _, Some (mkReceipt JUndefined 21000)) (λ _, Some known).

(** Has a receipt at once, but no record of the transaction. *)
Definition split_node : Web3 SimNode :=
  sim_web3 (λ _, 5) (λ _, Value "0xh") (λ _, Some mined) (λ _, None).

(** Answers every submission with "nonce too low"; the sender's
    transaction count grows by one with every submission it sees. *)
Definition colliding_node : Web3 SimNode :=
  sim_web3 (λ k, 5 + Z.of_nat k) (λ _, Raised (Error "nonce too low"))
    (λ _, None) (λ _, None).

(** Answers the first submission with "nonce too low" and accepts the
    next ones; the count grows in the same way. *)
Definition racing_node : Web3 SimNode :=
  sim_web3 (λ k, 5 + Z.of_nat k)
    (λ k, match k with O => Raised (Error "nonce too low") | S _ => Value "0xh" end)
    (λ _, None) (λ _, None).


(** Raises on every request for the transaction count. *)
Definition mute_node : Web3 SimNode :=
  {| eth_estimateGas := λ _ _ _ n, (Value 21000, n);
     eth_getTransactionCount :=
       λ _ n, (Raised (Error "Invalid JSON RPC response"), n);
     eth_gasPrice := λ n, (Value 1000000000, n);
     eth_sendRawTransaction :=
       λ _ n, (Value "0xh", mkSim (clock n) (S (submissions n)));
     eth_getTransactionReceipt := λ _ n, (Value None, n);
     eth_getTransaction := λ _ n, (Value None, n);
     elapse := λ ms n, mkSim (clock n + ms) (submissions n) |}.

(** Rejects every submission for another reason. *)
Definition broke_node : Web3 SimNode :=
  sim_web3 (λ _, 5) (λ _, Raised (Error "insufficient funds"))
    (λ _, None) (λ _, None).

(** A node with the given receipt and transaction record. *)
Definition fixed_node (receipt : option Receipt) (tx : option TxRecord)
    : Web3 SimNode :=
  sim_web3 (λ _, 5) (λ _, Value "0xh") (λ _, receipt) (λ _, tx).

(** No configured gas limit, and a signer that accepts everything. *)
Definition no_gasLimit : option Z := None.
Definition signs_all : TxFields → string → option JsError := λ _ _, None.

(** A recursive call that would succeed, were it ever made. *)
Definition willing {N} : list JsVal → M N string := λ _, ret "0xretried".

(** A token contract that makes every transfer it is asked for and never
    calls back: its state is the list of the payments made. *)
Definition paying_token {Job Ev Call}
    : Escrow.ERC20 (Escrow.World Job Ev (list (Z * Z))) (list (Z * Z)) Call :=
  Escrow.mkERC20
    (λ _ _ _to _value w, Escrow.Answer true (Escrow.chain w ++ [(_to, _value)]))
    (λ _ _ _ _to _value w, Escrow.Answer true (Escrow.chain w ++ [(_to, _value)])).


(** Job 7 in arbitration, with arbiter 30, vodiant 10 and vodeer 20. *)
Definition disputed_first : Escrow.Storage Escrow.First.Job :=
  Escrow.mkStorage [1] 8 99 3600
    {[ 7 := Escrow.First.mkJob "job" 10 20 300 1000 2000 30 true Escrow.Arbitration ]}.


(** The worlds before and after the arbiter's positive verdict on job 7,
    and after the negative verdict that follows it. *)
Definition before_first : Escrow.World Escrow.First.Job Escrow.First.Ev (list (Z * Z)) :=
  Escrow.mkWorld disputed_first [] [].
Definition after_first : Escrow.World Escrow.First.Job Escrow.First.Ev (list (Z * Z)) :=
  Escrow.mkWorld disputed_first [(20, 300)] [Escrow.First.VodeerPaid 7 20 300].

Definition judged_twice_first
    : Escrow.World Escrow.First.Job Escrow.First.Ev (list (Z * Z)) :=
  Escrow.mkWorld disputed_first [(20, 300); (10, 300)]
    [Escrow.First.VodeerPaid 7 20 300; Escrow.First.TokensRefunded 7 10 20 300].


(** ** More examples *)

(** Accepts the submission and has its receipt at once. *)
Definition ready_node : Web3 SimNode :=
  sim_web3 (λ _, 5) (λ _, Value "0xh") (λ _, Some mined) (λ _, Some known).

(** One loaded contract, two inherited property names, and an encoder
    that appends the arguments' count to the data. *)
Definition one_contract : gmap string LoadedContract :=
  {[ "escrow" := mkLoaded "6080" "[]" ]}.
Definition some_inherited : list string := ["constructor"; "toString"].
Definition toy_getData : LoadedContract → list Arg → string → Reply string :=
  λ _ args data, Value (data +:+ "00").

(** The second listing at address 5: as deployed by 1 with token 99, and
    after 10 has added a job staking 300. *)
Definition second_deployed
    : Escrow.World Escrow.Second.Job Escrow.Second.Ev (list (Z * Z)) :=
  Escrow.mkWorld (Escrow.mkStorage [1] 0 99 0 ∅) [] [Escrow.Second.TokenSet 99].
Definition second_with_job
    : Escrow.World Escrow.Second.Job Escrow.Second.Ev (list (Z * Z)) :=
  Escrow.mkWorld
    (Escrow.mkStorage [1] 1 99 0
       {[ 0 := Escrow.Second.mkJob "job" 10 0 0 300 0 false Escrow.Created ]})
    [(5, 300)] [Escrow.Second.TokenSet 99; Escrow.Second.JobAdded 0 10 300].

(** Job 0 of 10, done by 20, before and after 10 has declared the work
    dissatisfactory. *)
Definition second_completed
    : Escrow.World Escrow.Second.Job Escrow.Second.Ev (list (Z * Z)) :=
  Escrow.mkWorld
    (Escrow.mkStorage [1] 1 99 0
       {[ 0 := Escrow.Second.mkJob "job" 10 20 100 300 0 false Escrow.Completed ]})
    [] [].
Definition second_contested
    : Escrow.World Escrow.Second.Job Escrow.Second.Ev (list (Z * Z)) :=
  Escrow.mkWorld
    (Escrow.mkStorage [1] 1 99 0
       {[ 0 := Escrow.Second.mkJob "job" 10 20 100 300 0 true Escrow.Completed ]})
    [] [Escrow.Second.VodiantDissatisfied 0 10].

(** Three admins, and what is left when 3 has removed 1. *)
Definition three_admins
    : Escrow.World Escrow.Second.Job Escrow.Second.Ev (list (Z * Z)) :=
  Escrow.mkWorld (Escrow.mkStorage [1; 2; 3] 0 99 0 ∅) [] [].
Definition two_admins
    : Escrow.World Escrow.Second.Job Escrow.Second.Ev (list (Z * Z)) :=
  Escrow.mkWorld (Escrow.mkStorage [3; 2] 0 99 0 ∅) [] [Escrow.Second.AdminRemoved 1 3].

(** The first listing with job 3 of 10, staking 300, not yet taken; and
    after 77 has claimed its payout. *)
Definition first_open
    : Escrow.World Escrow.First.Job Escrow.First.Ev (list (Z * Z)) :=
  Escrow.mkWorld
    (Escrow.mkStorage [1] 4 99 3600
       {[ 3 := Escrow.First.mkJob "job" 10 0 300 0 0 0 false Escrow.Created ]})
    [] [].
Definition first_claimed
    : Escrow.World Escrow.First.Job Escrow.First.Ev (list (Z * Z)) :=
  Escrow.mkWorld
    (Escrow.mkStorage [1] 4 99 3600
       {[ 3 := Escrow.First.mkJob "job" 10 0 300 0 0 0 false Escrow.Paid ]})
    [(77, 300)] [].

(** Job 3 done by 20 at time 1000 and not contested; and after 20 has
    claimed its payout at a time past the payout period. *)
Definition first_done
    : Escrow.World Escrow.First.Job Escrow.First.Ev (list (Z * Z)) :=
  Escrow.mkWorld
    (Escrow.mkStorage [1] 4 99 3600
       {[ 3 := Escrow.First.mkJob "job" 10 20 300 1000 0 0 false Escrow.Completed ]})
    [] [].
Definition first_paid_out
    : Escrow.World Escrow.First.Job Escrow.First.Ev (list (Z * Z)) :=
  Escrow.mkWorld
    (Escrow.mkStorage [1] 4 99 3600
       {[ 3 := Escrow.First.mkJob "job" 10 20 300 1000 0 0 false Escrow.Paid ]})
    [(20, 300)] [Escrow.First.PayoutClaimed 20 300 false].

(** * Facts *)

(** ** The receipt tracker, cycle by cycle *)

Section Tracker.
Context {N : Type}.
Variable web3 : Web3 N.

(** One cycle of [waitForTransactionReceipt], case by case. *)
Lemma wait_cycle fuel txhash time n :
  waitForTransactionReceipt_fuel web3 (S fuel) txhash time n =
  let head := [LogInfo (Tracking txhash time); GetTransactionReceipt txhash] in
  match eth_getTransactionReceipt web3 txhash n with
  | (Raised e, n1) => (Throw e, n1, head)
  | (Value receipt, n1) =>
      if time >? 3600000 then (Throw timeout_error, n1, head)
      else if in_window time then
        match eth_getTransaction web3 txhash n1 with
        | (Raised e, n2) => (Throw e, n2, head ++ [GetTransaction txhash])
        | (Value None, n2) =>
            (Throw not_reached_error, n2, head ++ [GetTransaction txhash])
        | (Value (Some _), n2) =>
            settle web3 fuel txhash time receipt n2 (head ++ [GetTransaction txhash])
        end
      else settle web3 fuel txhash time receipt n1 head
  end.
Proof.
  cbn [waitForTransactionReceipt_fuel].
  unfold bind, logger_info, emit, getTransactionReceipt, rpc, in_window, settle.
  destruct (eth_getTransactionReceipt web3 txhash n) as [[receipt|e] n1]; [|done].
  destruct (time >? 3600000); [done|].
  destruct ((time >? 60000) && (time <=? 70000)).
  - destruct (eth_getTransaction web3 txhash n1) as [[[tx|]|e] n2]; try done.
    destruct receipt as [r|]; cbn; [done|].
    by destruct (waitForTransactionReceipt_fuel _ _ _ _ _) as [[? ?] ?].
  - destruct receipt as [r|]; cbn; [done|].
    by destruct (waitForTransactionReceipt_fuel _ _ _ _ _) as [[? ?] ?].
Qed.

Lemma polls_left_pos time : (1 ≤ polls_left time)%nat.
Proof. unfold polls_left. destruct (time >? 3600000); lia. Qed.

Lemma polls_left_next time :
  time ≤ 3600000 → polls_left time = S (polls_left (time + 5000)).
Proof.
  intros Hle. unfold polls_left.
  destruct (Z.gtb_spec time 3600000) as [|_]; [lia|].
  destruct (Z.gtb_spec (time + 5000) 3600000) as [Hgt|Hnext].
  - assert ((3600000 - time) / 5000 = 0) as -> by (apply Z.div_small; lia).
    reflexivity.
  - assert ((3600000 - time) / 5000 = (3600000 - (time + 5000)) / 5000 + 1) as ->.
    { replace (3600000 - time) with ((3600000 - (time + 5000)) + 1 * 5000) by lia.
      by rewrite Z.div_add. }
    assert (0 ≤ (3600000 - (time + 5000)) / 5000) by (apply Z.div_pos; lia).
    lia.
Qed.

Lemma wait_ends_well fuel txhash : ∀ time n,
  (polls_left time ≤ fuel)%nat →
  ends_well web3 txhash (outcome (waitForTransactionReceipt_fuel web3 fuel txhash time n)).
Proof.
  induction fuel as [|fuel IH]; intros time n Hfuel.
  { pose proof (polls_left_pos time). lia. }
  rewrite wait_cycle. cbv zeta.
  destruct (eth_getTransactionReceipt web3 txhash n) as [[receipt|e] n1] eqn:Hq.
  2: { cbn. right; right. exists n, n1. by left. }
  destruct (Z.gtb_spec time 3600000) as [Hgt|Hle]; [by left|].
  assert (∀ n2 pre, ends_well web3 txhash (outcome (settle web3 fuel txhash time receipt n2 pre)))
    as Hsettle.
  { intros n2 pre. unfold settle. destruct receipt as [r|].
    - cbn. by exists n, n1.
    - specialize (IH (time + 5000) (elapse web3 5000 n2)).
      destruct (waitForTransactionReceipt_fuel _ _ _ _ _) as [[res n'] tr].
      apply IH. rewrite (polls_left_next time) in Hfuel by done. lia. }
  destruct (in_window time); [|apply Hsettle].
  destruct (eth_getTransaction web3 txhash n1) as [[[tx|]|e] n2] eqn:Hp.
  - apply Hsettle.
  - cbn. right; by left.
  - cbn. right; right. exists n1, n2. by right.
Qed.

Lemma ticks_length time k : length (ticks time k) = k.
Proof. revert time. induction k as [|k IH]; intros time; cbn; [done|]. by rewrite IH. Qed.


(** Every cycle starts by logging its elapsed value, so what is read off
    the trace of a run does not depend on the elapsed value before it. *)
Lemma calls_from_run pick fuel txhash time n now now' :
  calls_from pick now (trace (waitForTransactionReceipt_fuel web3 fuel txhash time n))
  = calls_from pick now' (trace (waitForTransactionReceipt_fuel web3 fuel txhash time n)).
Proof.
  destruct fuel as [|fuel]; [done|].
  rewrite wait_cycle. cbv zeta.
  destruct (eth_getTransactionReceipt web3 txhash n) as [[receipt|e] n1]; [|done].
  destruct (time >? 3600000); [done|].
  assert (∀ n2 pre,
    calls_from pick now
      (trace (settle web3 fuel txhash time receipt n2 (LogInfo (Tracking txhash time) :: pre)))
    = calls_from pick now'
      (trace (settle web3 fuel txhash time receipt n2 (LogInfo (Tracking txhash time) :: pre))))
    as Hsettle.
  { intros n2 pre. unfold settle. destruct receipt as [r|]; [done|].
    by destruct (waitForTransactionReceipt_fuel _ _ _ _ _) as [[? ?] ?]. }
  destruct (in_window time); [|apply Hsettle].
  destruct (eth_getTransaction web3 txhash n1) as [[[tx|]|e] n2]; try done.
  apply Hsettle.
Qed.

(** The probes of a run happen at elapsed values of the window, in order,
    and stop where the run stops. *)
Lemma probes_in_window fuel txhash : ∀ time n now,
  calls_from is_probe now
    (trace (waitForTransactionReceipt_fuel web3 fuel txhash time n))
  `prefix_of` List.filter in_window (ticks time fuel).
Proof.
  induction fuel as [|fuel IH]; intros time n now; [apply prefix_nil|].
  rewrite wait_cycle. cbv zeta.
  destruct (eth_getTransactionReceipt web3 txhash n) as [[receipt|e] n1];
    [|apply prefix_nil].
  destruct (time >? 3600000); [apply prefix_nil|].
  cbn [ticks List.filter].
  destruct (in_window time).
  - destruct (eth_getTransaction web3 txhash n1) as [[[tx|]|e] n2];
      [|apply prefix_cons, prefix_nil..].
    unfold settle. destruct receipt as [r|].
    + apply prefix_cons, prefix_nil.
    + specialize (IH (time + 5000) (elapse web3 5000 n2) time).
      destruct (waitForTransactionReceipt_fuel _ _ _ _ _) as [[res n'] tr].
      cbn in *. by apply prefix_cons.
  - unfold settle. destruct receipt as [r|]; [apply prefix_nil|].
    specialize (IH (time + 5000) (elapse web3 5000 n1) time).
    destruct (waitForTransactionReceipt_fuel _ _ _ _ _) as [[res n'] tr].
    apply IH.
Qed.

(** What a call does with a receipt that the node returns: it is thrown
    away past the hour, returned as it is before the hour outside the
    window, and returned inside the window if the probe finds the
    transaction. *)
Lemma receipt_past_the_hour txhash time n r n1 :
  eth_getTransactionReceipt web3 txhash n = (Value (Some r), n1) →
  3600000 < time →
  waitForTransactionReceipt web3 txhash time n
  = (Throw timeout_error, n1,
     [LogInfo (Tracking txhash time); GetTransactionReceipt txhash]).
Proof.
  intros Hreceipt Hlate. unfold waitForTransactionReceipt.
  destruct (polls_left time) as [|fuel] eqn:Hfuel.
  { pose proof (polls_left_pos time). lia. }
  rewrite wait_cycle, Hreceipt. cbv zeta.
  destruct (Z.gtb_spec time 3600000); [done|lia].
Qed.

Lemma receipt_outside_the_window txhash time n r n1 :
  eth_getTransactionReceipt web3 txhash n = (Value (Some r), n1) →
  time ≤ 3600000 →
  in_window time = false →
  waitForTransactionReceipt web3 txhash time n
  = (Ok r, n1,
     [LogInfo (Tracking txhash time); GetTransactionReceipt txhash;
      LogInfo (Completed txhash)]).
Proof.
  intros Hreceipt Hearly Hout. unfold waitForTransactionReceipt.
  destruct (polls_left time) as [|fuel] eqn:Hfuel.
  { pose proof (polls_left_pos time). lia. }
  rewrite wait_cycle, Hreceipt, Hout. cbv zeta.
  destruct (Z.gtb_spec time 3600000); [lia|done].
Qed.

Lemma receipt_inside_the_window txhash time n r n1 probe n2 :
  eth_getTransactionReceipt web3 txhash n = (Value (Some r), n1) →
  in_window time = true →
  eth_getTransaction web3 txhash n1 = (probe, n2) →
  waitForTransactionReceipt web3 txhash time n
  = (match probe with
     | Value (Some _) => Ok r
     | Value None => Throw not_reached_error
     | Raised e => Throw e
     end,
     n2,
     [LogInfo (Tracking txhash time); GetTransactionReceipt txhash;
      GetTransaction txhash]
     ++ match probe with
        | Value (Some _) => [LogInfo (Completed txhash)]
        | _ => []
        end).
Proof.
  intros Hreceipt Hin Hprobe. unfold waitForTransactionReceipt.
  destruct (polls_left time) as [|fuel] eqn:Hfuel.
  { pose proof (polls_left_pos time). lia. }
  rewrite wait_cycle, Hreceipt, Hin, Hprobe. cbv zeta.
  assert ((time >? 3600000) = false) as ->.
  { unfold in_window in Hin. apply andb_prop in Hin as [_ Hle].
    destruct (Z.leb_spec time 70000); [|done].
    destruct (Z.gtb_spec time 3600000); [lia|done]. }
  by destruct probe as [[tx|]|e].
Qed.

(** A node that never has the receipt and always knows the transaction
    is polled until the first elapsed value above one hour, and probed at
    every poll inside the window. *)
Lemma wait_times_out txhash :
  (∀ n, ∃ n', eth_getTransactionReceipt web3 txhash n = (Value None, n')) →
  (∀ n, ∃ tx n', eth_getTransaction web3 txhash n = (Value (Some tx), n')) →
  ∀ fuel time n now,
    (polls_left time ≤ fuel)%nat →
    ∃ n' tr,
      waitForTransactionReceipt_fuel web3 fuel txhash time n
        = (Throw timeout_error, n', tr)
      ∧ calls_from is_poll now tr = ticks time (polls_left time)
      ∧ calls_from is_probe now tr
        = List.filter in_window (ticks time (polls_left time))
      ∧ last tr = Some (GetTransactionReceipt txhash).
Proof.
  intros Hreceipt Htx.
  induction fuel as [|fuel IH]; intros time n now Hfuel.
  { pose proof (polls_left_pos time). lia. }
  rewrite wait_cycle. cbv zeta.
  destruct (Hreceipt n) as [n1 ->].
  destruct (Z.gtb_spec time 3600000) as [Hgt|Hle].
  { exists n1. eexists. split; [done|].
    unfold polls_left. destruct (Z.gtb_spec time 3600000); [|lia].
    cbn. unfold in_window.
    destruct (Z.leb_spec time 70000); [lia|]. by rewrite andb_false_r. }
  rewrite (polls_left_next time) in * by done.
  destruct (IH (time + 5000) (elapse web3 5000 n1) time)
    as (n' & tr & Hrun & Hpolls & Hprobes & Hlast); [lia|].
  cbn [ticks List.filter].
  destruct (in_window time).
  - destruct (Htx n1) as (tx & n2 & ->). unfold settle.
    clear n' tr Hrun Hpolls Hprobes Hlast.
    destruct (IH (time + 5000) (elapse web3 5000 n2) time)
      as (n' & tr & -> & Hpolls & Hprobes & Hlast); [lia|].
    exists n'. eexists. split; [done|]. cbn.
    rewrite Hpolls, Hprobes, !last_cons, Hlast. done.
  - unfold settle. rewrite Hrun.
    exists n'. eexists. split; [done|]. cbn.
    rewrite Hpolls, Hprobes, !last_cons, Hlast. done.
Qed.

End Tracker.

(** ** The receipt tracker: claims *)

(** C5 (fails on the code).  A receipt that the node returns is not always
    returned to the caller: the two time checks come before the test of
    the receipt.  Entered at 3,605,000 ms on a node that has the receipt,
    the call throws the one-hour error; so does the whole run from 0 on a
    node that mines the transaction between the polls at 3,600,000 and
    3,605,000 ms; and at 65,000 ms a node that has the receipt and no
    record of the transaction makes the call throw the propagation
    error. *)
Theorem receipt_in_hand_is_dropped :
  eth_getTransactionReceipt late_node "0xh" (mkSim 3605000 0)
    = (Value (Some mined), mkSim 3605000 0)
  ∧ outcome (waitForTransactionReceipt late_node "0xh" 3605000 (mkSim 3605000 0))
    = Throw timeout_error
  ∧ outcome (waitForTransactionReceipt late_node "0xh" 0 boot) = Throw timeout_error
  ∧ final (waitForTransactionReceipt late_node "0xh" 0 boot) = mkSim 3605000 0
  ∧ eth_getTransactionReceipt split_node "0xh" (mkSim 65000 0)
    = (Value (Some mined), mkSim 65000 0)
  ∧ outcome (waitForTransactionReceipt split_node "0xh" 65000 (mkSim 65000 0))
    = Throw not_reached_error.
Proof. by vm_compute. Qed.

(** C6 as stated fails: on a node that knows the transaction and never
    mines it, the probe is made twice, at 65,000 and at 70,000 ms. *)
Lemma probe_is_made_twice :
  probe_times (trace (waitForTransactionReceipt pending_node "0xh" 0 boot))
    = [65000; 70000]
  ∧ ¬ ∃ t, probe_times (trace (waitForTransactionReceipt pending_node "0xh" 0 boot))
           = [t].
Proof.
  assert (probe_times (trace (waitForTransactionReceipt pending_node "0xh" 0 boot))
          = [65000; 70000]) as -> by (by vm_compute).
  split; [done|]. by intros [t ?].
Qed.

(** C6 (amended).  Polling every 5,000 ms from elapsed = 0, the probe is
    made only at polls whose elapsed value lies in the window
    60,001-70,000, that is at 65,000 and at 70,000 ms, in this order and
    at most once each: a run makes no probe, the one at 65,000, or both;
    no later cycle probes.  It makes both when the receipt stays absent
    and the node knows the transaction. *)
Theorem probe_only_in_window {N} (web3 : Web3 N) (txhash : string) (n : N) :
  let probes := probe_times (trace (waitForTransactionReceipt web3 txhash 0 n)) in
  (probes = [] ∨ probes = [65000] ∨ probes = [65000; 70000])
  ∧ ((∀ n, ∃ n', eth_getTransactionReceipt web3 txhash n = (Value None, n')) →
     (∀ n, ∃ tx n', eth_getTransaction web3 txhash n = (Value (Some tx), n')) →
     probes = [65000; 70000]).
Proof.
  intros probes. split.
  - assert (probes `prefix_of` [65000; 70000]) as [rest Hrest].
    { replace [65000; 70000] with (List.filter in_window (ticks 0 (polls_left 0)))
        by (by vm_compute).
      apply probes_in_window. }
    destruct probes as [|p1 [|p2 [|p3 more]]]; cbn in Hrest; simplify_eq; auto.
  - intros Hreceipt Htx. subst probes.
    destruct (wait_times_out web3 txhash Hreceipt Htx (polls_left 0) 0 n 0)
      as (n' & tr & Hrun & _ & Hprobes & _); [apply Nat.le_refl|].
    unfold waitForTransactionReceipt, probe_times. rewrite Hrun. cbn [trace snd].
    rewrite Hprobes. by vm_compute.
Qed.

(** A node on which both probes are made. *)
Lemma probe_only_in_window_witness :
  probe_times (trace (waitForTransactionReceipt pending_node "0xh" 0 boot))
  = [65000; 70000].
Proof.
  apply (proj2 (probe_only_in_window pending_node "0xh" boot)).
  - intros n. exists n. reflexivity.
  - intros n. exists known, n. reflexivity.
Defined.




(** C8 as stated fails: the receipt is returned as the node gave it, also
    when it has no status field. *)
Lemma receipt_without_status_is_returned :
  ∃ r, outcome (waitForTransactionReceipt statusless_node "0xh" 0 boot) = Ok r
       ∧ r_status r = JUndefined.
Proof. eexists. split; by vm_compute. Qed.

(** C8 (amended).  Every call of [waitForTransactionReceipt] ends, and it
    ends in one of these ways: it returns a receipt that the node
    answered to a receipt query, as it is (its status field is not looked
    at); or it throws the one-hour error, the propagation error, or an
    error that a query of the node raised. *)
Theorem wait_returns_the_reported_receipt {N} (web3 : Web3 N)
    (txhash : string) (time : Z) (n : N) :
  match outcome (waitForTransactionReceipt web3 txhash time n) with
  | Ok r => reported web3 txhash r
  | Throw e =>
      e = timeout_error ∨ e = not_reached_error ∨ raised_by_node web3 txhash e
  | OutOfFuel => False
  end.
Proof. by apply (wait_ends_well web3 (polls_left time) txhash time n). Qed.

(** ** The submitter *)

Section Submitter.
Context {N : Type}.
Variable web3 : Web3 N.
Variable config_gasLimit : option Z.
Variable signing_error : TxFields → string → option JsError.

(** No scope around the [catch] block binds [gasLimit]. *)
Lemma gasLimit_not_in_scope error data from privatekey to attempt :
  scope_lookup (catch_scopes error data from privatekey to attempt) "gasLimit"
  = None.
Proof. by vm_compute. Qed.

Lemma data_in_scope error data from privatekey to attempt :
  scope_lookup (catch_scopes error data from privatekey to attempt) "data"
  = Some (JStr data).
Proof. by vm_compute. Qed.

Lemma from_in_scope error data from privatekey to attempt :
  scope_lookup (catch_scopes error data from privatekey to attempt) "from"
  = Some (JStr from).
Proof. by vm_compute. Qed.

Lemma privatekey_in_scope error data from privatekey to attempt :
  scope_lookup (catch_scopes error data from privatekey to attempt) "privatekey"
  = Some (JStr privatekey).
Proof. by vm_compute. Qed.

(** The [catch] block always throws, and never calls [self]: when it
    decides to retry, reading [gasLimit] for the call raises a
    ReferenceError before the call is made. *)
Lemma catch_always_throws (self : list JsVal → M N string)
    data from privatekey to attempt error (n : N) :
  makeTransaction_catch self data from privatekey to attempt error n
  = (Throw (if (attempt <? 3) && String.eqb (err_message error) "nonce too low"
            then ReferenceError "gasLimit is not defined"
            else error),
     n, [LogError error]).
Proof.
  unfold makeTransaction_catch, bind, logger_error, emit, read_var.
  destruct ((attempt <? 3) && String.eqb (err_message error) "nonce too low");
    [|done].
  rewrite data_in_scope, from_in_scope, privatekey_in_scope, gasLimit_not_in_scope.
  done.
Qed.

Lemma makeTransaction_never_reenters self self' data from privatekey to attempt n :
  makeTransaction web3 config_gasLimit signing_error self
    data from privatekey to attempt n
  = makeTransaction web3 config_gasLimit signing_error self'
    data from privatekey to attempt n.
Proof.
  unfold makeTransaction, try_catch.
  destruct (makeTransaction_try _ _ _ _ _ _ _ _ _) as [[[h|e|] n1] tr];
    [done| |done].
  by rewrite !catch_always_throws.
Qed.

(** An error that is not a nonce collision, or that comes at attempt 3,
    is thrown on as it is. *)
Lemma other_errors_propagate self data from privatekey to attempt n e n1 tr :
  makeTransaction_try web3 config_gasLimit signing_error
    data from privatekey to attempt n = (Throw e, n1, tr) →
  (attempt <? 3) && String.eqb (err_message e) "nonce too low" = false →
  makeTransaction web3 config_gasLimit signing_error self
    data from privatekey to attempt n = (Throw e, n1, tr ++ [LogError e]).
Proof.
  intros Htry Hcond. unfold makeTransaction, try_catch.
  by rewrite Htry, catch_always_throws, Hcond.
Qed.

End Submitter.

(** ** The submitter: claims *)

(** A call that returns a hash has asked the node for the sender's
    transaction count and then for the gas price, once each, and the
    signed transaction behind the hash carries nonce = that count + the
    [attempt] of the call. *)
Lemma returned_hash_carries_fetched_count_plus_attempt {N} (web3 : Web3 N)
    (config_gasLimit : option Z)
    (signing_error : TxFields → string → option JsError)
    (self : list JsVal → M N string)
    (data from privatekey : string) (to : JsVal) (attempt : Z) (n : N)
    (txhash : string) :
  let run := makeTransaction web3 config_gasLimit signing_error self
               data from privatekey to attempt n in
  let limit := gasLimit_or_estimate web3 config_gasLimit data from to n in
  outcome run = Ok txhash →
  ∃ gasLimit count n2 gasprice n3,
    outcome limit = Ok gasLimit
    ∧ eth_getTransactionCount web3 from (final limit) = (Value count, n2)
    ∧ eth_gasPrice web3 n2 = (Value gasprice, n3)
    ∧ let raw := mkRawTx (mkTxFields (count + attempt) gasprice gasLimit to data)
                   privatekey in
      eth_sendRawTransaction web3 raw n3 = (Value txhash, final run)
      ∧ trace run
        = trace limit ++ [GetTransactionCount from; GasPrice; SendRawTransaction raw].
Proof.
  intros run limit. subst run.
  unfold makeTransaction, try_catch.
  destruct (makeTransaction_try _ _ _ _ _ _ _ _ _) as [[[h|e|] n'] tr] eqn:Htry;
    [|by rewrite catch_always_throws|done].
  intros [= ->]. revert Htry.
  unfold makeTransaction_try, bind. fold limit.
  destruct limit as [[[gasLimit|e|] n1] tr1]; [|done..].
  unfold rpc at 1.
  destruct (eth_getTransactionCount web3 from n1) as [[count|e] n2] eqn:Hcount;
    [|done].
  unfold rpc at 1.
  destruct (eth_gasPrice web3 n2) as [[gasprice|e] n3] eqn:Hprice; [|done].
  unfold sign. destruct (signing_error _ _); [done|].
  cbn [ret]. unfold rpc.
  destruct (eth_sendRawTransaction web3 _ n3) as [[h|e] n4] eqn:Hsend; [|done].
  intros [= -> -> <-].
  exists gasLimit, count, n2, gasprice, n3. cbn.
  repeat split; try done.
Qed.

(** C2 (fails on the code).  The node answers the first submission, which
    carries the fetched count 5 as its nonce, with "nonce too low", and
    would accept the next one.  No retry with the base nonce and the
    offset 1 is made: the call has fetched the count and the gas price
    once, has sent the one transaction with nonce 5, and ends with the
    ReferenceError of the [catch] block; no hash is returned. *)
Theorem collided_submission_is_not_resubmitted
    (self : list JsVal → M SimNode string) :
  let run := makeTransaction racing_node no_gasLimit signs_all self
               "0xdata" "0xfrom" "key" JNull 0 boot in
  outcome run = Throw (ReferenceError "gasLimit is not defined")
  ∧ List.filter is_fetch (trace run) = [GetTransactionCount "0xfrom"; GasPrice]
  ∧ map (λ raw, tx_nonce (raw_fields raw)) (sent (trace run)) = [5]
  ∧ submissions (final run) = 1%nat.
Proof. by vm_compute. Qed.

(** C3 (fails on the code).  On a node that answers every submission with
    "nonce too low", the submission is made once and never again; the call
    ends with the ReferenceError raised in the [catch] block, not with the
    node's error.  An error of another kind is thrown on as it is, after
    one submission. *)
Theorem nonce_collision_is_never_retried (self : list JsVal → M SimNode string) :
  let run := makeTransaction colliding_node no_gasLimit signs_all self
               "0xdata" "0xfrom" "key" JNull 0 boot in
  let other := makeTransaction broke_node no_gasLimit signs_all self
                 "0xdata" "0xfrom" "key" JNull 0 boot in
  outcome run = Throw (ReferenceError "gasLimit is not defined")
  ∧ length (sent (trace run)) = 1%nat
  ∧ submissions (final run) = 1%nat
  ∧ outcome other = Throw (Error "insufficient funds")
  ∧ length (sent (trace other)) = 1%nat.
Proof. by vm_compute. Qed.

(** ** The two reads before signing *)

Section Fetches.
Context {N : Type}.
Variable web3 : Web3 N.
Variable config_gasLimit : option Z.
Variable signing_error : TxFields → string → option JsError.

(** Resolving the gas limit asks neither for the count nor for the price. *)
Lemma gasLimit_fetches_nothing data from to (n : N) :
  List.filter is_fetch
    (trace (gasLimit_or_estimate web3 config_gasLimit data from to n)) = [].
Proof.
  unfold gasLimit_or_estimate, rpc, ret.
  destruct config_gasLimit as [g|]; [destruct (g =? 0)|];
    try (destruct (eth_estimateGas web3 data from to n) as [[?|?] ?]); done.
Qed.

(** The [try] block asks for the count first, and for the price only
    when the count has been answered. *)
Lemma try_block_fetches data from privatekey to attempt (n : N) :
  List.filter is_fetch
    (trace (makeTransaction_try web3 config_gasLimit signing_error
              data from privatekey to attempt n))
  `prefix_of` [GetTransactionCount from; GasPrice].
Proof.
  unfold makeTransaction_try, bind, rpc, sign, ret.
  pose proof (gasLimit_fetches_nothing data from to n) as Hlimit.
  destruct (gasLimit_or_estimate web3 config_gasLimit data from to n)
    as [[[gasLimit|e|] n1] tr1]; unfold trace in *; cbn in *;
    [|rewrite Hlimit; apply prefix_nil..].
  destruct (eth_getTransactionCount web3 from n1) as [[count|e] n2]; cbn.
  2: { rewrite List.filter_app, Hlimit. cbn. by exists [GasPrice]. }
  destruct (eth_gasPrice web3 n2) as [[gasprice|e] n3]; cbn.
  2: { by rewrite List.filter_app, Hlimit. }
  destruct (signing_error _ _) as [e|]; cbn.
  { by rewrite List.filter_app, Hlimit. }
  destruct (eth_sendRawTransaction web3 _ n3) as [[h|e] n4]; cbn;
    by rewrite List.filter_app, Hlimit.
Qed.

End Fetches.

(** C10 (fails on the code).  The two elements of the array given to
    [Promise.all] are values by the time it is called: the count has been
    asked for and answered before the price is asked for.  In every run
    the reads appear in this order, the price never without the count;
    and on a node that raises on the count the price is not asked for at
    all. *)
Theorem count_and_price_are_fetched_in_turn :
  (∀ (N : Type) (web3 : Web3 N) config_gasLimit signing_error self
     data from privatekey to attempt n,
     List.filter is_fetch
       (trace (makeTransaction web3 config_gasLimit signing_error self
                 data from privatekey to attempt n))
     `prefix_of` [GetTransactionCount from; GasPrice])
  ∧ let run := makeTransaction mute_node no_gasLimit signs_all willing
                 "0xdata" "0xfrom" "key" JNull 0 boot in
    outcome run = Throw (Error "Invalid JSON RPC response")
    ∧ List.filter is_fetch (trace run) = [GetTransactionCount "0xfrom"].
Proof.
  split; [|by vm_compute].
  intros N web3 config_gasLimit signing_error self data from privatekey to attempt n.
  unfold makeTransaction, try_catch.
  pose proof (try_block_fetches web3 config_gasLimit signing_error
                data from privatekey to attempt n) as Htry.
  destruct (makeTransaction_try _ _ _ _ _ _ _ _ _) as [[[h|e|] n1] tr];
    [done| |done].
  rewrite catch_always_throws. unfold trace in *. cbn [fst snd] in *.
  rewrite List.filter_app. cbn. by rewrite app_nil_r.
Qed.

(** ** More on the receipt tracker *)

Section TrackerSchedule.
Context {N : Type}.
Variable web3 : Web3 N.

(** The receipt queries of a run follow the schedule, none skipped. *)
Lemma polls_on_schedule fuel txhash : ∀ time n now,
  calls_from is_poll now
    (trace (waitForTransactionReceipt_fuel web3 fuel txhash time n))
  `prefix_of` ticks time fuel.
Proof.
  induction fuel as [|fuel IH]; intros time n now; [apply prefix_nil|].
  rewrite wait_cycle. cbv zeta. cbn [ticks].
  destruct (eth_getTransactionReceipt web3 txhash n) as [[receipt|e] n1];
    [|apply prefix_cons, prefix_nil].
  destruct (time >? 3600000); [apply prefix_cons, prefix_nil|].
  destruct (in_window time).
  - destruct (eth_getTransaction web3 txhash n1) as [[[tx|]|e] n2];
      [|apply prefix_cons, prefix_nil..].
    unfold settle. destruct receipt as [r|]; [apply prefix_cons, prefix_nil|].
    specialize (IH (time + 5000) (elapse web3 5000 n2) time).
    destruct (waitForTransactionReceipt_fuel _ _ _ _ _) as [[res n'] tr].
    cbn in *. by apply prefix_cons.
  - unfold settle. destruct receipt as [r|]; [apply prefix_cons, prefix_nil|].
    specialize (IH (time + 5000) (elapse web3 5000 n1) time).
    destruct (waitForTransactionReceipt_fuel _ _ _ _ _) as [[res n'] tr].
    cbn in *. by apply prefix_cons.
Qed.

Lemma slept_app (l1 l2 : list Event) : slept (l1 ++ l2) = slept l1 + slept l2.
Proof.
  induction l1 as [|ev l1 IH]; cbn; [done|].
  unfold slept in *. cbn. rewrite IH. destruct ev; lia.
Qed.

(** A run sleeps 5,000 ms between two cycles and not otherwise. *)
Lemma slept_at_most fuel txhash : ∀ time n,
  (polls_left time ≤ fuel)%nat →
  0 ≤ slept (trace (waitForTransactionReceipt_fuel web3 fuel txhash time n))
    ≤ 5000 * (Z.of_nat (polls_left time) - 1).
Proof.
  induction fuel as [|fuel IH]; intros time n Hfuel.
  { pose proof (polls_left_pos time). lia. }
  pose proof (polls_left_pos time) as Hpos.
  rewrite wait_cycle. cbv zeta.
  destruct (eth_getTransactionReceipt web3 txhash n) as [[receipt|e] n1];
    [|cbn; lia].
  destruct (Z.gtb_spec time 3600000) as [Hgt|Hle]; [cbn; lia|].
  assert (∀ n2 pre, slept pre = 0 →
    0 ≤ slept (trace (settle web3 fuel txhash time receipt n2 pre))
      ≤ 5000 * (Z.of_nat (polls_left time) - 1)) as Hsettle.
  { intros n2 pre Hpre. unfold settle. destruct receipt as [r|].
    - cbn. rewrite slept_app, Hpre. cbn. lia.
    - rewrite (polls_left_next time) in * by done.
      specialize (IH (time + 5000) (elapse web3 5000 n2)).
      destruct (waitForTransactionReceipt_fuel _ _ _ _ _) as [[res n'] tr].
      unfold trace in *. cbn [snd] in *. rewrite slept_app, Hpre.
      change (slept (Sleep 5000 :: tr)) with (5000 + slept tr).
      assert (polls_left (time + 5000) ≤ fuel)%nat by lia. lia. }
  destruct (in_window time); [|by apply Hsettle].
  destruct (eth_getTransaction web3 txhash n1) as [[[tx|]|e] n2];
    [by apply Hsettle|cbn; lia..].
Qed.

Lemma polls_left_at_most time : 0 ≤ time → (polls_left time ≤ 722)%nat.
Proof.
  intros Htime. unfold polls_left. destruct (time >? 3600000); [lia|].
  assert ((3600000 - time) / 5000 ≤ 3600000 / 5000) by (apply Z.div_le_mono; lia).
  change (3600000 / 5000) with 720 in *. lia.
Qed.

End TrackerSchedule.

(** X1.  Whatever the node answers, a run of [waitForTransactionReceipt]
    entered at [time] asks for the receipt at [time], [time] + 5,000,
    [time] + 10,000, ... in this order, without a gap, up to the place
    where it stops; entered at a [time] that is not negative it asks at
    most 722 times and sleeps at most 3,605,000 ms in total. *)
Theorem receipt_queries_follow_the_schedule {N} (web3 : Web3 N)
    (txhash : string) (time : Z) (n : N) :
  let run := waitForTransactionReceipt web3 txhash time n in
  let polls := calls_from is_poll time (trace run) in
  polls `prefix_of` ticks time (polls_left time)
  ∧ (0 ≤ time → (length polls ≤ 722)%nat ∧ 0 ≤ slept (trace run) ≤ 3605000).
Proof.
  intros run polls. subst run polls. unfold waitForTransactionReceipt.
  pose proof (polls_on_schedule web3 (polls_left time) txhash time n time)
    as Hprefix.
  split; [done|]. intros Htime.
  pose proof (polls_left_at_most time Htime) as Hmax. split.
  - apply prefix_length in Hprefix. rewrite ticks_length in Hprefix. lia.
  - pose proof (slept_at_most web3 (polls_left time) txhash time n (Nat.le_refl _))
      as Hslept.
    pose proof (polls_left_pos time). lia.
Qed.

(** The run from 0 on a node that never has the receipt. *)
Lemma receipt_queries_follow_the_schedule_witness :
  (length (calls_from is_poll 0
             (trace (waitForTransactionReceipt pending_node "0xh" 0 boot))) ≤ 722)%nat
  ∧ 0 ≤ slept (trace (waitForTransactionReceipt pending_node "0xh" 0 boot)) ≤ 3605000.
Proof.
  apply (proj2 (receipt_queries_follow_the_schedule pending_node "0xh" 0 boot)).
  lia.
Defined.

(** Every receipt query and every lookup of the transaction answers null. *)
Section GivenUp.
Context {N : Type}.
Variable web3 : Web3 N.
Variable txhash : string.
Hypothesis no_receipt :
  ∀ n, ∃ n', eth_getTransactionReceipt web3 txhash n = (Value None, n').
Hypothesis no_record :
  ∀ n, ∃ n', eth_getTransaction web3 txhash n = (Value None, n').

Lemma unknown_until_the_window k : ∀ fuel n now,
  (k < fuel)%nat →
  ∃ n' tr,
    waitForTransactionReceipt_fuel web3 fuel txhash (65000 - 5000 * Z.of_nat k) n
      = (Throw not_reached_error, n', tr)
    ∧ calls_from is_poll now tr = ticks (65000 - 5000 * Z.of_nat k) (S k)
    ∧ calls_from is_probe now tr = [65000]
    ∧ slept tr = 5000 * Z.of_nat k.
Proof.
  induction k as [|k IH]; intros fuel n now Hfuel;
    (destruct fuel as [|fuel]; [lia|]);
    rewrite wait_cycle; cbv zeta;
    destruct (no_receipt n) as [n1 ->].
  - cbn. destruct (no_record n1) as [n2 ->]. by exists n2; eexists.
  - set (time := 65000 - 5000 * Z.of_nat (S k)).
    assert (time ≤ 60000) as Hbefore by (subst time; lia).
    destruct (Z.gtb_spec time 3600000); [lia|].
    unfold in_window. destruct (Z.gtb_spec time 60000); [lia|]. cbn [andb].
    unfold settle.
    destruct (IH fuel (elapse web3 5000 n1) time) as (n' & tr & Hrun & Hpolls & Hprobes & Hslept);
      [lia|].
    replace (time + 5000) with (65000 - 5000 * Z.of_nat k) by (subst time; lia).
    rewrite Hrun. exists n'. eexists. split; [done|].
    cbn. rewrite Hpolls, Hprobes.
    replace (time + 5000) with (65000 - 5000 * Z.of_nat k) by (subst time; lia).
    repeat split; try done.
    fold (slept tr). lia.
Qed.

End GivenUp.

(** X2.  A transaction that the node never hears of is given up after
    65 seconds: when every receipt query answers null and every lookup of
    the transaction answers null, the run from 0 queries the receipt 14
    times (0, 5,000, ..., 65,000 ms), sleeps 65,000 ms in all, probes
    once, at 65,000 ms, and throws the propagation error there. *)
Theorem unknown_transaction_is_given_up {N} (web3 : Web3 N)
    (txhash : string) (n : N) :
  (∀ n, ∃ n', eth_getTransactionReceipt web3 txhash n = (Value None, n')) →
  (∀ n, ∃ n', eth_getTransaction web3 txhash n = (Value None, n')) →
  ∃ n' tr,
    waitForTransactionReceipt web3 txhash 0 n = (Throw not_reached_error, n', tr)
    ∧ poll_times tr = ticks 0 14
    ∧ probe_times tr = [65000]
    ∧ slept tr = 65000.
Proof.
  intros Hreceipt Hrecord.
  destruct (unknown_until_the_window web3 txhash Hreceipt Hrecord 13
              (polls_left 0) n 0) as (n' & tr & Hrun & Hpolls & Hprobes & Hslept).
  { assert (polls_left 0 = 722%nat) as -> by (by vm_compute). lia. }
  exists n', tr. by repeat split.
Qed.

(** A node that knows neither the receipt nor the transaction. *)
Lemma unknown_transaction_is_given_up_witness :
  ∃ n' tr,
    waitForTransactionReceipt colliding_node "0xh" 0 boot
      = (Throw not_reached_error, n', tr)
    ∧ poll_times tr = ticks 0 14
    ∧ probe_times tr = [65000]
    ∧ slept tr = 65000.
Proof.
  apply (unknown_transaction_is_given_up colliding_node "0xh" boot).
  - intros n. exists n. reflexivity.
  - intros n. exists n. reflexivity.
Defined.

(** ** More on the submitter *)

Section SubmitsOnce.
Context {N : Type}.
Variable web3 : Web3 N.
Variable config_gasLimit : option Z.
Variable signing_error : TxFields → string → option JsError.

(** Resolving the gas limit asks the node at most once, and only for an
    estimate. *)
Lemma gasLimit_trace data from to (n : N) :
  let limit := gasLimit_or_estimate web3 config_gasLimit data from to n in
  sent (trace limit) = []
  ∧ (length (List.filter is_node_call (trace limit)) ≤ 1)%nat.
Proof.
  unfold gasLimit_or_estimate, rpc, ret.
  destruct config_gasLimit as [g|]; [destruct (g =? 0)|];
    try (destruct (eth_estimateGas web3 data from to n) as [[?|?] ?]);
    cbn; split; (done || lia).
Qed.

(** Closes the cases in which the [try] block ends without a hash. *)
Ltac ends_without_hash Hsent :=
  unfold sent, trace, outcome, final in *; cbn;
  rewrite ?omap_app, ?Hsent, ?List.filter_app, ?length_app; cbn;
  split; [lia|split; [lia|by intros ? [=]]].

(** What the [try] block has asked the node when it ends. *)
Lemma try_block_calls data from privatekey to attempt (n : N) :
  let run := makeTransaction_try web3 config_gasLimit signing_error
               data from privatekey to attempt n in
  (length (sent (trace run)) ≤ 1)%nat
  ∧ (length (List.filter is_node_call (trace run)) ≤ 4)%nat
  ∧ (∀ txhash, outcome run = Ok txhash →
       ∃ raw n1,
         sent (trace run) = [raw]
         ∧ raw_key raw = privatekey
         ∧ tx_to (raw_fields raw) = to
         ∧ tx_data (raw_fields raw) = data
         ∧ eth_sendRawTransaction web3 raw n1 = (Value txhash, final run)).
Proof.
  unfold makeTransaction_try, bind, rpc, sign, ret.
  pose proof (gasLimit_trace data from to n) as [Hsent Hcalls].
  destruct (gasLimit_or_estimate web3 config_gasLimit data from to n)
    as [[[gasLimit|e|] n1] tr1]; cbn in Hsent, Hcalls;
    [|ends_without_hash Hsent..].
  destruct (eth_getTransactionCount web3 from n1) as [[count|e] n2];
    [|ends_without_hash Hsent].
  destruct (eth_gasPrice web3 n2) as [[gasprice|e] n3]; [|ends_without_hash Hsent].
  destruct (signing_error _ _) as [e|]; [ends_without_hash Hsent|].
  destruct (eth_sendRawTransaction web3 _ n3) as [[h|e] n4] eqn:Hsend;
    [|ends_without_hash Hsent].
  unfold sent, trace, outcome, final in *. cbn.
  rewrite omap_app, Hsent, List.filter_app, !length_app. cbn.
  split; [lia|split; [lia|]].
  intros txhash [= ->]. eexists _, n3. by repeat split.
Qed.

End SubmitsOnce.

(** X3.  Whatever the node answers, one call of [makeTransaction] sends at
    most one raw transaction and makes at most four calls to the node in
    all (estimate, count, price, submission); the [catch] block adds none.
    When the call returns a hash, it is the node's answer to that one
    submission, which carries the caller's [to], [data] and key. *)
Theorem makeTransaction_submits_at_most_once {N} (web3 : Web3 N)
    (config_gasLimit : option Z)
    (signing_error : TxFields → string → option JsError)
    (self : list JsVal → M N string)
    (data from privatekey : string) (to : JsVal) (attempt : Z) (n : N) :
  let run := makeTransaction web3 config_gasLimit signing_error self
               data from privatekey to attempt n in
  (length (sent (trace run)) ≤ 1)%nat
  ∧ (length (List.filter is_node_call (trace run)) ≤ 4)%nat
  ∧ (∀ txhash, outcome run = Ok txhash →
       ∃ raw n1,
         sent (trace run) = [raw]
         ∧ raw_key raw = privatekey
         ∧ tx_to (raw_fields raw) = to
         ∧ tx_data (raw_fields raw) = data
         ∧ eth_sendRawTransaction web3 raw n1 = (Value txhash, final run)).
Proof.
  intros run. subst run. unfold makeTransaction, try_catch.
  pose proof (try_block_calls web3 config_gasLimit signing_error
                data from privatekey to attempt n) as (Hsent & Hcalls & Hok).
  destruct (makeTransaction_try _ _ _ _ _ _ _ _ _) as [[[h|e|] n1] tr];
    [done| |done].
  rewrite catch_always_throws.
  unfold sent, trace, outcome in *. cbn [fst snd] in *.
  rewrite omap_app, List.filter_app, length_app. cbn.
  rewrite app_nil_r, Nat.add_0_r. by repeat split.
Qed.

(** A submission that the node accepts. *)
Lemma makeTransaction_submits_at_most_once_witness :
  ∃ raw n1,
    sent (trace (makeTransaction ready_node no_gasLimit signs_all willing
                   "0xdata" "0xfrom" "key" JNull 0 boot)) = [raw]
    ∧ raw_key raw = "key"
    ∧ tx_to (raw_fields raw) = JNull
    ∧ tx_data (raw_fields raw) = "0xdata"
    ∧ eth_sendRawTransaction ready_node raw n1
      = (Value "0xh",
         final (makeTransaction ready_node no_gasLimit signs_all willing
                  "0xdata" "0xfrom" "key" JNull 0 boot)).
Proof.
  apply (proj2 (proj2 (makeTransaction_submits_at_most_once ready_node no_gasLimit
                         signs_all willing "0xdata" "0xfrom" "key" JNull 0 boot))
           "0xh").
  reflexivity.
Defined.

(** ** Deployment *)

Section Deploy.
Context {N : Type}.
Variable web3 : Web3 N.
Variable config_gasLimit : option Z.
Variable signing_error : TxFields → string → option JsError.
Variable contracts : gmap string LoadedContract.
Variable inherited : list string.
Variable new_getData : LoadedContract → list Arg → string → Reply string.

(** The tracker submits nothing. *)
Lemma wait_sends_nothing fuel txhash : ∀ time n,
  sent (trace (waitForTransactionReceipt_fuel web3 fuel txhash time n)) = [].
Proof.
  induction fuel as [|fuel IH]; intros time n; [done|].
  rewrite wait_cycle. cbv zeta.
  destruct (eth_getTransactionReceipt web3 txhash n) as [[receipt|e] n1]; [|done].
  destruct (time >? 3600000); [done|].
  assert (∀ n2 pre, sent pre = [] →
    sent (trace (settle web3 fuel txhash time receipt n2 pre)) = []) as Hsettle.
  { intros n2 pre Hpre. unfold settle. destruct receipt as [r|].
    - unfold sent, trace in *. cbn. by rewrite omap_app, Hpre.
    - specialize (IH (time + 5000) (elapse web3 5000 n2)).
      destruct (waitForTransactionReceipt_fuel _ _ _ _ _) as [[res n'] tr].
      unfold sent, trace in *. cbn in *. by rewrite omap_app, Hpre. }
  destruct (in_window time); [|by apply Hsettle].
  destruct (eth_getTransaction web3 txhash n1) as [[[tx|]|e] n2]; try done.
  by apply Hsettle.
Qed.

(** The three ways in which [_createDeployableContract] ends. *)
Lemma createDeployable_cases type args (n : N) :
  _createDeployableContract contracts inherited new_getData type args n
  = match contracts !! type with
    | Some c =>
        match new_getData c args ("0x" +:+ lc_bytecode c) with
        | Value data => (Ok data, n, [])
        | Raised e => (Throw e, n, [])
        end
    | None =>
        (Throw (if bool_decide (type ∈ inherited)
                then TypeError "Cannot read property 'new' of undefined"
                else Error "No Such Contract Found"), n, [])
    end.
Proof.
  unfold _createDeployableContract, library.
  destruct (contracts !! type) as [c|].
  - by destruct (new_getData _ _ _).
  - by case_bool_decide.
Qed.

End Deploy.

(** X4.  [deployContract] reaches the node only for a contract that is
    loaded under exactly the given [type] and whose deployment data the
    encoder produced: for a [type] that is not a key of [this.contracts],
    or when the encoder raises, the call is rejected with that error
    before any call to the node, and the node is left as it was. *)
Theorem deployContract_needs_a_loaded_contract {N} (web3 : Web3 N)
    (config_gasLimit : option Z)
    (signing_error : TxFields → string → option JsError)
    (contracts : gmap string LoadedContract) (inherited : list string)
    (new_getData : LoadedContract → list Arg → string → Reply string)
    (self : list JsVal → M N string)
    (type from privatekey : string) (gasLimit : JsVal) (args : list JsVal)
    (n : N) :
  let run := deployContract web3 config_gasLimit signing_error contracts
               inherited new_getData self type from privatekey gasLimit args n in
  (contracts !! type = None →
     run = (Throw (if bool_decide (type ∈ inherited)
                   then TypeError "Cannot read property 'new' of undefined"
                   else Error "No Such Contract Found"), n, []))
  ∧ (∀ c e, contracts !! type = Some c →
       new_getData c [Packed args] ("0x" +:+ lc_bytecode c) = Raised e →
       run = (Throw e, n, []))
  ∧ (trace run ≠ [] →
       ∃ c data, contracts !! type = Some c
                 ∧ new_getData c [Packed args] ("0x" +:+ lc_bytecode c)
                   = Value data).
Proof.
  intros run. subst run. unfold deployContract, bind.
  rewrite createDeployable_cases.
  destruct (contracts !! type) as [c|]; [|by repeat split].
  destruct (new_getData c _ _) as [data|e] eqn:Hdata.
  - split; [done|]. split; [|intros _; by exists c, data].
    intros c0 e [= <-] He. congruence.
  - split; [done|]. split; [|done].
    intros c0 e' [= <-] He. congruence.
Qed.

(** A name in another capitalisation than the key it was loaded under. *)
Lemma deployContract_needs_a_loaded_contract_witness :
  deployContract ready_node no_gasLimit signs_all one_contract some_inherited
    toy_getData willing "Escrow" "0xfrom" "key" (JNum 4000000) [] boot
  = (Throw (Error "No Such Contract Found"), boot, []).
Proof.
  apply (proj1 (deployContract_needs_a_loaded_contract ready_node no_gasLimit
                  signs_all one_contract some_inherited toy_getData willing
                  "Escrow" "0xfrom" "key" (JNum 4000000) [] boot)).
  reflexivity.
Defined.

(** X5.  When [deployContract] returns a receipt, it has sent exactly one
    raw transaction: its data is what the encoder made of the constructor
    arguments, passed as one array, and of '0x' + bytecode; its [to] field
    is the value the caller gave as [gasLimit]; it is signed with the
    caller's key.  The receipt is the node's answer to a receipt query for
    the hash that the node returned for that submission. *)
Theorem deployContract_returns_the_receipt_of_its_submission {N}
    (web3 : Web3 N) (config_gasLimit : option Z)
    (signing_error : TxFields → string → option JsError)
    (contracts : gmap string LoadedContract) (inherited : list string)
    (new_getData : LoadedContract → list Arg → string → Reply string)
    (self : list JsVal → M N string)
    (type from privatekey : string) (gasLimit : JsVal) (args : list JsVal)
    (n : N) (receipt : Receipt) :
  let run := deployContract web3 config_gasLimit signing_error contracts
               inherited new_getData self type from privatekey gasLimit args n in
  outcome run = Ok receipt →
  ∃ c data raw txhash n1 n2,
    contracts !! type = Some c
    ∧ new_getData c [Packed args] ("0x" +:+ lc_bytecode c) = Value data
    ∧ sent (trace run) = [raw]
    ∧ tx_data (raw_fields raw) = data
    ∧ tx_to (raw_fields raw) = gasLimit
    ∧ raw_key raw = privatekey
    ∧ eth_sendRawTransaction web3 raw n1 = (Value txhash, n2)
    ∧ reported web3 txhash receipt.
Proof.
  intros run. subst run. unfold deployContract, bind.
  rewrite createDeployable_cases.
  destruct (contracts !! type) as [c|]; [|done].
  destruct (new_getData c _ _) as [data|e] eqn:Hdata; [|done].
  unfold makeTransaction, try_catch.
  pose proof (try_block_calls web3 config_gasLimit signing_error
                data from privatekey gasLimit 0 n) as (_ & _ & Hok).
  destruct (makeTransaction_try _ _ _ _ _ _ _ _ _) as [[[txhash|e|] n1] tr];
    [| |done].
  2: { rewrite catch_always_throws. done. }
  destruct (Hok txhash eq_refl) as (raw & n0 & Hsent & Hkey & Hto & Hdat & Hsend).
  pose proof (wait_ends_well web3 (polls_left 0) txhash 0 n1 (Nat.le_refl _)) as Hend.
  pose proof (wait_sends_nothing web3 (polls_left 0) txhash 0 n1) as Hnone.
  unfold waitForTransactionReceipt.
  destruct (waitForTransactionReceipt_fuel _ _ _ _ _) as [[res n2] tr2].
  unfold outcome, trace, final, sent in *. cbn in *.
  intros ->. exists c, data, raw, txhash, n0, n1.
  rewrite omap_app, Hsent, Hnone. by repeat split.
Qed.

(** The loaded contract, deployed on a node that mines it at once. *)
Lemma deployContract_returns_the_receipt_of_its_submission_witness :
  ∃ c data raw txhash n1 n2,
    one_contract !! "escrow" = Some c
    ∧ toy_getData c [Packed [JNum 99; JNum 3600]] ("0x" +:+ lc_bytecode c) = Value data
    ∧ sent (trace (deployContract ready_node no_gasLimit signs_all one_contract
                     some_inherited toy_getData willing "escrow" "0xfrom" "key"
                     (JNum 4000000) [JNum 99; JNum 3600] boot)) = [raw]
    ∧ tx_data (raw_fields raw) = data
    ∧ tx_to (raw_fields raw) = JNum 4000000
    ∧ raw_key raw = "key"
    ∧ eth_sendRawTransaction ready_node raw n1 = (Value txhash, n2)
    ∧ reported ready_node txhash mined.
Proof.
  apply (deployContract_returns_the_receipt_of_its_submission ready_node no_gasLimit
           signs_all one_contract some_inherited toy_getData willing
           "escrow" "0xfrom" "key" (JNum 4000000) [JNum 99; JNum 3600] boot mined).
  reflexivity.
Defined.

(** ** The status query *)

Section StatusQuery.
Context {N : Type}.
Variable web3 : Web3 N.

(** What the handler would answer if the exported object had a
    [getTransaction] method that asks the node: the table of the
    specification. *)
Lemma status_table_with_getTransaction txhash n receipt n1 tx n2 body :
  eth_getTransactionReceipt web3 txhash n = (Value receipt, n1) →
  eth_getTransaction web3 txhash n1 = (Value tx, n2) →
  classify_spec receipt tx = Some body →
  outcome
    (getTransactionStatus
       (mkModule (Some (getTransactionReceipt web3))
          (Some (λ h, rpc (GetTransaction h) (eth_getTransaction web3 h))))
       txhash n)
  = Ok (Responder_success body).
Proof.
  intros Hreceipt Htx Hspec.
  unfold getTransactionStatus, try_catch, bind, call_member; cbn.
  unfold getTransactionReceipt, rpc. rewrite Hreceipt.
  destruct receipt as [r|]; cbn in *.
  - destruct (loose_eq_0x0 (r_status r)); cbn.
    + rewrite Htx. destruct tx as [t|]; [|done]. cbn.
      destruct (r_gasUsed r =? t_gas t); cbn; congruence.
    + congruence.
  - rewrite Htx. destruct tx; cbn; congruence.
Qed.

End StatusQuery.

(** C1 (fails on the code).  The first four rows of the table are not what
    the status query answers: with no receipt, or with a receipt whose
    status is '0x0', it answers operationFailed with the TypeError of the
    missing method, whatever the transaction record.  Only the last row,
    SUCCESS, is answered as the table says. *)
Theorem status_rows_on_the_code :
  let failed used := Some (mkReceipt (JStr "0x0") used) in
  let query receipt tx :=
    outcome (getTransactionStatus (Ethereum (fixed_node receipt tx)) "0xh" boot) in
  classify_spec None None = Some status.NOT_REACHED
  ∧ query None None = Ok (Responder_operationFailed no_getTransaction)
  ∧ classify_spec None (Some known) = Some status.PENDING
  ∧ query None (Some known) = Ok (Responder_operationFailed no_getTransaction)
  ∧ classify_spec (failed 21000) (Some (mkTxRecord 21000)) = Some status.OUTOFGAS
  ∧ query (failed 21000) (Some (mkTxRecord 21000))
    = Ok (Responder_operationFailed no_getTransaction)
  ∧ classify_spec (failed 21000) (Some (mkTxRecord 50000)) = Some status.REVERTED
  ∧ query (failed 21000) (Some (mkTxRecord 50000))
    = Ok (Responder_operationFailed no_getTransaction)
  ∧ query (Some mined) (Some known) = Ok (Responder_success status.SUCCESS).
Proof. by vm_compute. Qed.

(** C4.  The exported object has no member called getTransaction.  So
    whenever the receipt is absent, or present with a status equal to
    '0x0', the status query answers operationFailed with the TypeError of
    the call of the missing method, and the node is never asked for the
    transaction.  In every case the answer is SUCCESS or operationFailed:
    NOT_REACHED, PENDING, OUT_OF_GAS and REVERTED are never answered. *)
Theorem status_query_without_getTransaction {N} (web3 : Web3 N)
    (txhash : string) (n : N) :
  let run := getTransactionStatus (Ethereum web3) txhash n in
  ("getTransaction" ∉ Ethereum_members)
  ∧ (∀ reciept n1,
       eth_getTransactionReceipt web3 txhash n = (Value reciept, n1) →
       (reciept = None ∨ ∃ r, reciept = Some r ∧ loose_eq_0x0 (r_status r) = true) →
       run = (Ok (Responder_operationFailed no_getTransaction), n1,
              [GetTransactionReceipt txhash]))
  ∧ (outcome run = Ok (Responder_success status.SUCCESS)
     ∨ ∃ err, outcome run = Ok (Responder_operationFailed err)).
Proof.
  intros run. subst run.
  unfold getTransactionStatus, try_catch, bind, call_member; cbn.
  unfold getTransactionReceipt, rpc.
  split; [|split].
  - apply (bool_decide_unpack _). by vm_compute.
  - intros reciept n1 -> [->|(r & -> & Hfailed)]; cbn; [done|].
    by rewrite Hfailed.
  - destruct (eth_getTransactionReceipt web3 txhash n) as [[[r|]|e] n1]; cbn.
    + destruct (loose_eq_0x0 (r_status r)); cbn; [right|left]; eauto.
    + right. eauto.
    + right. eauto.
Qed.

(** A node that has no receipt for the transaction yet, and knows it. *)
Lemma status_query_without_getTransaction_witness :
  getTransactionStatus (Ethereum (fixed_node None (Some known))) "0xh" boot
  = (Ok (Responder_operationFailed no_getTransaction), boot,
     [GetTransactionReceipt "0xh"]).
Proof.
  apply (proj1 (proj2 (status_query_without_getTransaction
                         (fixed_node None (Some known)) "0xh" boot)) None boot).
  - reflexivity.
  - left. reflexivity.
Defined.

(** ** The escrow contract *)

(** The innermost thing a term branches on. *)
Ltac branch_of x :=
  lazymatch x with
  | context [match ?y with _ => _ end] => branch_of y
  | _ => x
  end.

(** Takes the premise [call w = Returns _] of the goal apart, choice by
    choice, dropping the choices that revert. *)
Ltac take_apart :=
  repeat first
    [ match goal with
      | |- context [bool_decide ?P] => destruct (bool_decide_reflect P)
      | |- context [Z.eqb ?a ?b] => destruct (Z.eqb_spec a b)
      | |- context [negb ?b] => destruct b eqn:?
      | |- context [match ?x with _ => _ end] =>
          let y := branch_of x in destruct y eqn:?
      end; cbn; try (intros; discriminate) ].

Section Verdicts.
Context {T : Type}.
Import Escrow.

(** Runs the statements of a call up to the next choice. *)
Ltac run_call :=
  unfold andthen, sload, require, emit_event, ERC20_transfer, lift; cbn.

(** A verdict of the first listing returns exactly when the job is in
    Arbitration, the sender is its arbiter, and the transfer it ends with
    answers true; it writes to the log and then hands the world to the
    token, and what the token leaves is what the call leaves. *)
Lemma first_positiveVerdict_returns (outside : Outside First.Job First.Ev T)
    msg_sender _nonce (w w' : World First.Job First.Ev T) :
  First.positiveVerdict outside msg_sender _nonce w = Returns (tt, w') ↔
  First.status (First.job (storage w) _nonce) = Arbitration
  ∧ First.arbiter (First.job (storage w) _nonce) = msg_sender
  ∧ transfer_of outside (token (storage w))
      (First.vodeer (First.job (storage w) _nonce))
      (First.vodiantTokensStaked (First.job (storage w) _nonce))
      (mkWorld (storage w) (chain w)
         (logs w ++ [First.VodeerPaid _nonce
                       (First.vodeer (First.job (storage w) _nonce))
                       (First.vodiantTokensStaked (First.job (storage w) _nonce))]))
    = Returns (true, w').
Proof.
  unfold First.positiveVerdict, First.isArbiter, First.checkStatus,
    First.hasTransferred. run_call.
  destruct (Z.eqb_spec (First.arbiter (First.job (storage w) _nonce)) msg_sender);
    [|split; [done|tauto]].
  case_bool_decide; [|split; [done|tauto]]. cbn.
  destruct (transfer_of outside _ _ _ _) as [[[] w1]|]; cbn.
  - split; [intros [= <-]; done|]. by intros (_ & _ & [= <-]).
  - split; [done|]. by intros (_ & _ & ?).
  - split; [done|]. by intros (_ & _ & ?).
Qed.

Lemma first_negativeVerdict_returns (outside : Outside First.Job First.Ev T)
    msg_sender _nonce (w w' : World First.Job First.Ev T) :
  First.negativeVerdict outside msg_sender _nonce w = Returns (tt, w') ↔
  First.status (First.job (storage w) _nonce) = Arbitration
  ∧ First.arbiter (First.job (storage w) _nonce) = msg_sender
  ∧ transfer_of outside (token (storage w))
      (First.vodiant (First.job (storage w) _nonce))
      (First.vodiantTokensStaked (First.job (storage w) _nonce))
      (mkWorld (storage w) (chain w)
         (logs w ++ [First.TokensRefunded _nonce
                       (First.vodiant (First.job (storage w) _nonce))
                       (First.vodeer (First.job (storage w) _nonce))
                       (First.vodiantTokensStaked (First.job (storage w) _nonce))]))
    = Returns (true, w').
Proof.
  unfold First.negativeVerdict, First.isArbiter, First.checkStatus,
    First.hasTransferred. run_call.
  destruct (Z.eqb_spec (First.arbiter (First.job (storage w) _nonce)) msg_sender);
    [|split; [done|tauto]].
  case_bool_decide; [|split; [done|tauto]]. cbn.
  destruct (transfer_of outside _ _ _ _) as [[[] w1]|]; cbn.
  - split; [intros [= <-]; done|]. by intros (_ & _ & [= <-]).
  - split; [done|]. by intros (_ & _ & ?).
  - split; [done|]. by intros (_ & _ & ?).
Qed.

(** The verdicts of the second listing: the checks, then the transfers,
    then the log; the storage a verdict leaves is the one the last
    transfer left. *)
Lemma second_positiveVerdict_returns (outside : Outside Second.Job Second.Ev T)
    msg_sender _nonce (w w' : World Second.Job Second.Ev T) :
  Second.positiveVerdict outside msg_sender _nonce w = Returns (tt, w') →
  Second.status (Second.job (storage w) _nonce) = Arbitration
  ∧ Second.arbiter (Second.job (storage w) _nonce) = msg_sender
  ∧ ∃ tokens w1,
      transfer_of outside (token (storage w))
        (Second.vodeer (Second.job (storage w) _nonce)) tokens w
      = Returns (true, w1)
      ∧ storage w' = storage w1.
Proof.
  unfold Second.positiveVerdict. run_call.
  case_bool_decide; [|done]. cbn.
  destruct (Z.eqb_spec (Second.arbiter (Second.job (storage w) _nonce)) msg_sender);
    [|done].
  cbn. destruct (SafeMath_add _ _) as [tokens|]; [|done].
  destruct (transfer_of outside _ _ _ _) as [[[] w1]|] eqn:Hpaid; cbn; [|done..].
  intros [= <-]. repeat split; try done. by exists tokens, w1.
Qed.

Lemma second_negativeVerdict_returns (outside : Outside Second.Job Second.Ev T)
    msg_sender _nonce (w w' : World Second.Job Second.Ev T) :
  Second.negativeVerdict outside msg_sender _nonce w = Returns (tt, w') →
  Second.status (Second.job (storage w) _nonce) = Arbitration
  ∧ Second.arbiter (Second.job (storage w) _nonce) = msg_sender
  ∧ ∃ w1 w2,
      transfer_of outside (token (storage w))
        (Second.vodeer (Second.job (storage w) _nonce))
        (Second.vodeerTokensStaked (Second.job (storage w) _nonce)) w
      = Returns (true, w1)
      ∧ transfer_of outside (token (storage w1))
          (Second.vodiant (Second.job (storage w) _nonce))
          (Second.vodiantTokensStaked (Second.job (storage w) _nonce)) w1
        = Returns (true, w2)
      ∧ storage w' = storage w2.
Proof.
  unfold Second.negativeVerdict. run_call.
  case_bool_decide; [|done]. cbn.
  destruct (Z.eqb_spec (Second.arbiter (Second.job (storage w) _nonce)) msg_sender);
    [|done].
  cbn.
  destruct (transfer_of outside _ _ _ w) as [[[] w1]|] eqn:Hfirst; cbn; [|done..].
  destruct (transfer_of outside _ _ _ w1) as [[[] w2]|] eqn:Hsecond; cbn; [|done..].
  intros [= <-]. repeat split; try done. by exists w1, w2.
Qed.


End Verdicts.


Lemma second_transact_eq {T}
    (erc20 : Escrow.ERC20 (Escrow.World Escrow.Second.Job Escrow.Second.Ev T) T
               SecondListing.Call)
    this depth msg_sender call :
  SecondListing.transact erc20 this depth msg_sender call
  = SecondListing.perform (SecondListing.calls_at erc20 this depth)
      this msg_sender call.
Proof. by destruct depth. Qed.




(** ** SafeMath *)

(** X6.  On 256-bit operands the four operations of SafeMath never wrap:
    [add] and [mul] return the exact sum and product when it fits in 256
    bits and fail their assertion otherwise, [sub] returns the exact
    difference when it is not negative and fails otherwise, [div] returns
    the quotient unless the divisor is 0; what they return is again a
    256-bit value. *)
Theorem SafeMath_is_exact (a b : Z) :
  Sol.uint256 a → Sol.uint256 b →
  Escrow.SafeMath_add a b
    = (if a + b <? 2 ^ 256 then Escrow.Returns (a + b) else Escrow.Reverts "assert")
  ∧ Sol.SafeMath_mul a b
    = (if a * b <? 2 ^ 256 then Escrow.Returns (a * b) else Escrow.Reverts "assert")
  ∧ Sol.SafeMath_sub a b
    = (if b <=? a then Escrow.Returns (a - b) else Escrow.Reverts "assert")
  ∧ Sol.SafeMath_div a b
    = (if b =? 0 then Escrow.Reverts "division by zero" else Escrow.Returns (a / b))
  ∧ (∀ op c, op ∈ [Escrow.SafeMath_add; Sol.SafeMath_mul; Sol.SafeMath_sub;
                    Sol.SafeMath_div] →
             op a b = Escrow.Returns c → Sol.uint256 c).
Proof.
  unfold Sol.uint256. intros Ha Hb.
  assert (0 < 2 ^ 256) as Hpos by done.
  assert (Escrow.SafeMath_add a b
    = (if a + b <? 2 ^ 256 then Escrow.Returns (a + b) else Escrow.Reverts "assert"))
    as Hadd.
  { unfold Escrow.SafeMath_add. cbv zeta.
    destruct (Z.ltb_spec (a + b) (2 ^ 256)) as [Hfits|Hover].
    - rewrite Z.mod_small by lia. destruct (Z.geb_spec (a + b) a); [done|lia].
    - replace ((a + b) mod 2 ^ 256) with (a + b - 2 ^ 256).
      + destruct (Z.geb_spec (a + b - 2 ^ 256) a); [lia|done].
      + apply Z.mod_unique with 1; lia. }
  assert (Sol.SafeMath_mul a b
    = (if a * b <? 2 ^ 256 then Escrow.Returns (a * b) else Escrow.Reverts "assert"))
    as Hmul.
  { unfold Sol.SafeMath_mul. destruct (Z.eqb_spec a 0) as [->|Hnz]; [done|].
    cbv zeta. destruct (Z.ltb_spec (a * b) (2 ^ 256)) as [Hfits|Hover].
    - rewrite Z.mod_small by nia.
      rewrite (Z.mul_comm a b), Z.div_mul by done. by rewrite Z.eqb_refl.
    - destruct (Z.eqb_spec ((a * b) mod 2 ^ 256 / a) b) as [Heq|]; [|done].
      exfalso.
      pose proof (Z.mod_pos_bound (a * b) (2 ^ 256) Hpos) as Hmod.
      pose proof (Z.mul_div_le ((a * b) mod 2 ^ 256) a) as Hle.
      rewrite Heq in Hle. lia. }
  split; [done|]. split; [done|]. split; [done|]. split; [done|].
  intros op c Hop Hret.
  rewrite !elem_of_cons, elem_of_nil in Hop.
  destruct Hop as [->|[->|[->|[->|[]]]]].
  - rewrite Hadd in Hret. destruct (Z.ltb_spec (a + b) (2 ^ 256)); [|done].
    injection Hret as <-. lia.
  - rewrite Hmul in Hret. destruct (Z.ltb_spec (a * b) (2 ^ 256)); [|done].
    injection Hret as <-. nia.
  - unfold Sol.SafeMath_sub in Hret. destruct (Z.leb_spec b a); [|done].
    injection Hret as <-. lia.
  - unfold Sol.SafeMath_div in Hret. destruct (Z.eqb_spec b 0); [done|].
    injection Hret as <-. split; [apply Z.div_pos; lia|].
    apply Z.div_lt_upper_bound; nia.
Qed.

(** The largest operand, doubled and squared. *)
Lemma SafeMath_is_exact_witness :
  Escrow.SafeMath_add (2 ^ 256 - 1) (2 ^ 256 - 1) = Escrow.Reverts "assert"
  ∧ Sol.SafeMath_mul (2 ^ 256 - 1) (2 ^ 256 - 1) = Escrow.Reverts "assert".
Proof.
  destruct (SafeMath_is_exact (2 ^ 256 - 1) (2 ^ 256 - 1)) as (Hadd & Hmul & _);
    [by vm_compute..|].
  split; [exact Hadd|exact Hmul].
Defined.

(** ** Governable *)

Section GovernableFacts.
Import Escrow Sol.

(** The loop of [isAdmin] finds the last occurrence. *)
Lemma isAdmin_loop_spec (_addr : address) : ∀ rest i found pos,
  (_addr ∉ rest → Governable.isAdmin_loop rest _addr i found pos = (found, pos))
  ∧ (_addr ∈ rest →
       ∃ k, Governable.isAdmin_loop rest _addr i found pos = (true, i + Z.of_nat k)
            ∧ rest !! k = Some _addr
            ∧ ∀ j, (k < j)%nat → rest !! j ≠ Some _addr).
Proof.
  induction rest as [|a rest IH]; intros i found pos.
  { split; [done|]. by intros ?%elem_of_nil. }
  cbn [Governable.isAdmin_loop].
  destruct (Z.eqb_spec _addr a) as [<-|Hne].
  - split; [intros []; left|]. intros _.
    destruct (decide (_addr ∈ rest)) as [Hin|Hout].
    + destruct (proj2 (IH (i + 1) true i) Hin) as (k & -> & Hk & Hlast).
      exists (S k). split; [f_equal; lia|]. split; [done|].
      intros [|j] Hj; [lia|]. apply Hlast. lia.
    + rewrite (proj1 (IH (i + 1) true i) Hout).
      exists 0%nat. split; [f_equal; lia|]. split; [done|].
      intros [|j] Hj; [lia|]. cbn. intros Hat.
      apply Hout. by eapply list_elem_of_lookup_2.
  - split.
    + intros Hout. apply IH. intros Hin. apply Hout. by right.
    + intros Hin. apply elem_of_cons in Hin as [->|Hin]; [done|].
      destruct (proj2 (IH (i + 1) found pos) Hin) as (k & -> & Hk & Hlast).
      exists (S k). split; [f_equal; lia|]. split; [done|].
      intros [|j] Hj; [lia|]. apply Hlast. lia.
Qed.

Lemma isAdmin_finds_members (l : list address) (x : address) :
  ((Governable.isAdmin l x).1 = true ↔ x ∈ l)
  ∧ (x ∉ l → Governable.isAdmin l x = (false, 0)).
Proof.
  unfold Governable.isAdmin.
  pose proof (isAdmin_loop_spec x l 0 false 0) as [Hout Hin].
  split; [|done]. split.
  - intros Hfound. destruct (decide (x ∈ l)) as [|Hno]; [done|].
    by rewrite (Hout Hno) in Hfound.
  - intros Hyes. by destruct (Hin Hyes) as (k & -> & _).
Qed.

(** Removing position [k]: the last admin takes the place, the array gets
    one shorter; nobody else leaves. *)
Lemma cut_out_perm (l : list address) (k : nat) (a : address) :
  l !! k = Some a → a :: Governable.cut_out l (Z.of_nat k) ≡ₚ l.
Proof.
  intros Hk. pose proof (lookup_lt_Some _ _ _ Hk) as Hlt.
  pose proof (take_drop_middle l k a Hk) as Hl.
  assert (length (take k l) = k) as Hlen by (rewrite length_take; lia).
  revert Hl Hlen. generalize (take k l) as l1. generalize (drop (S k) l) as l2.
  intros l2 l1 <- Hlen. clear Hk Hlt. unfold Governable.cut_out. cbv zeta.
  destruct l2 as [|t l2 _] using rev_ind.
  - rewrite length_app. cbn [length].
    destruct (Z.ltb_spec (Z.of_nat k) (Z.of_nat (length l1 + 1) - 1)); [lia|].
    replace (length l1 + 1 - 1)%nat with (length l1) by lia.
    rewrite take_app_length. apply Permutation_cons_append.
  - rewrite !length_app. cbn [length]. rewrite length_app. cbn [length].
    destruct (Z.ltb_spec (Z.of_nat k)
                (Z.of_nat (length l1 + S (length l2 + 1)) - 1)); [|lia].
    replace (l1 ++ a :: l2 ++ [t]) with ((l1 ++ a :: l2) ++ [t])
      by (by rewrite <- app_assoc).
    rewrite last_snoc. rewrite <- app_assoc. cbn [app].
    rewrite Nat2Z.id. subst k.
    rewrite insert_app_r_alt, Nat.sub_diag by lia. cbn [insert list_insert].
    replace (length l1 + S (length l2 + 1) - 1)%nat
      with (length l1 + S (length l2))%nat by lia.
    rewrite take_app_add. cbn [take]. rewrite take_app_length.
    rewrite <- (Permutation_middle l1 (l2 ++ [t]) a).
    apply Permutation_skip, Permutation_app_head, Permutation_cons_append.
Qed.

Context {Job Ev T : Type}.
Variables AdminAdded AdminRemoved : address → address → Ev.

(** When [addAdmin] returns. *)
Lemma addAdmin_returns msg_sender _admin (w w' : World Job Ev T) :
  Governable.addAdmin AdminAdded msg_sender _admin w = Returns (tt, w') ↔
  msg_sender ∈ admins (storage w)
  ∧ (_admin ∉ admins (storage w))
  ∧ (length (admins (storage w)) < 10)%nat
  ∧ w' = mkWorld (set_admins (admins (storage w) ++ [_admin]) (storage w))
           (chain w) (logs w ++ [AdminAdded _admin msg_sender]).
Proof.
  unfold Governable.addAdmin, Governable.onlyAdmins, Governable.isAdmin,
    andthen, sload, sstore, require, emit_event. cbn.
  pose proof (isAdmin_loop_spec msg_sender (admins (storage w)) 0 false 0)
    as [Hout Hin].
  pose proof (isAdmin_loop_spec _admin (admins (storage w)) 0 false 0)
    as [Hout' Hin'].
  destruct (decide (msg_sender ∈ admins (storage w))) as [Hs|Hs].
  2: { rewrite (Hout Hs). cbn. split; [done|]. by intros [? _]. }
  destruct (Hin Hs) as (k & -> & _). cbn.
  destruct (decide (_admin ∈ admins (storage w))) as [Ha|Ha].
  { destruct (Hin' Ha) as (k' & -> & _). cbn. split; [done|]. by intros (_ & ? & _). }
  rewrite (Hout' Ha). cbn.
  destruct (Nat.leb_spec (length (admins (storage w))) 9); cbn.
  - split; [intros [= <-]; repeat split; (done || lia)|]. by intros (_ & _ & _ & ->).
  - split; [done|]. intros (_ & _ & ? & _). lia.
Qed.

(** When [removeAdmin] returns. *)
Lemma removeAdmin_returns msg_sender _admin (w w' : World Job Ev T) :
  Governable.removeAdmin AdminRemoved msg_sender _admin w = Returns (tt, w') ↔
  msg_sender ∈ admins (storage w)
  ∧ ∃ k, admins (storage w) !! k = Some _admin
         ∧ (∀ j, (k < j)%nat → admins (storage w) !! j ≠ Some _admin)
         ∧ w' = mkWorld
                  (set_admins (Governable.cut_out (admins (storage w)) (Z.of_nat k))
                     (storage w))
                  (chain w) (logs w ++ [AdminRemoved _admin msg_sender]).
Proof.
  unfold Governable.removeAdmin, Governable.onlyAdmins, Governable.isAdmin,
    andthen, sload, sstore, require, emit_event. cbn.
  pose proof (isAdmin_loop_spec msg_sender (admins (storage w)) 0 false 0)
    as [Hout Hin].
  pose proof (isAdmin_loop_spec _admin (admins (storage w)) 0 false 0)
    as [Hout' Hin'].
  destruct (decide (msg_sender ∈ admins (storage w))) as [Hs|Hs].
  2: { rewrite (Hout Hs). cbn. split; [done|]. by intros [? _]. }
  destruct (Hin Hs) as (k & -> & _). cbn.
  destruct (decide (_admin ∈ admins (storage w))) as [Ha|Ha].
  - destruct (Hin' Ha) as (k' & -> & Hk' & Hlast). cbn.
    split.
    + intros [= <-]. split; [done|]. by exists k'.
    + intros (_ & j & Hj & Hlastj & ->).
      assert (j = k') as ->; [|done].
      destruct (Nat.lt_trichotomy j k') as [?|[?|?]]; [|done|].
      * by destruct (Hlastj k').
      * by destruct (Hlast j).
  - rewrite (Hout' Ha). cbn. split; [done|].
    intros (_ & j & Hj & _). destruct Ha. by eapply list_elem_of_lookup_2.
Qed.

End GovernableFacts.

(** X16.  [addAdmin] returns exactly when its sender is an admin, the new
    address is not one yet, and there are fewer than ten admins; it then
    appends the address to the array and logs AdminAdded, and changes
    nothing else. *)
Theorem addAdmin_appends_a_new_admin {Job Ev T}
    (AdminAdded : Escrow.address → Escrow.address → Ev)
    (msg_sender _admin : Escrow.address) (w w' : Escrow.World Job Ev T) :
  Governable.addAdmin AdminAdded msg_sender _admin w = Escrow.Returns (tt, w') ↔
  msg_sender ∈ Escrow.admins (Escrow.storage w)
  ∧ (_admin ∉ Escrow.admins (Escrow.storage w))
  ∧ (length (Escrow.admins (Escrow.storage w)) < 10)%nat
  ∧ w' = Escrow.mkWorld
           (Sol.set_admins (Escrow.admins (Escrow.storage w) ++ [_admin])
              (Escrow.storage w))
           (Escrow.chain w) (Escrow.logs w ++ [AdminAdded _admin msg_sender]).
Proof. apply addAdmin_returns. Qed.

(** X7.  [isAdmin] answers true exactly for the addresses in the array,
    and then with the position of the last entry that holds the address;
    for any other address it answers (false, 0). *)
Theorem isAdmin_finds_the_last_entry (admins : list Escrow.address)
    (_addr : Escrow.address) :
  ((Governable.isAdmin admins _addr).1 = true ↔ _addr ∈ admins)
  ∧ (_addr ∉ admins → Governable.isAdmin admins _addr = (false, 0))
  ∧ (_addr ∈ admins →
       ∃ k, Governable.isAdmin admins _addr = (true, Z.of_nat k)
            ∧ admins !! k = Some _addr
            ∧ ∀ j, (k < j)%nat → admins !! j ≠ Some _addr).
Proof.
  unfold Governable.isAdmin.
  pose proof (isAdmin_loop_spec _addr admins 0 false 0) as [Hout Hin].
  split; [|split; [done|]].
  - split.
    + intros Hfound. destruct (decide (_addr ∈ admins)) as [|Hno]; [done|].
      by rewrite (Hout Hno) in Hfound.
    + intros Hyes. by destruct (Hin Hyes) as (k & -> & _).
  - intros Hyes. destruct (Hin Hyes) as (k & -> & ? & ?). by exists k.
Qed.

(** X8.  On an array without repetitions, a [removeAdmin] that returns
    was sent by an admin and removes exactly the given admin: the array
    gets one shorter and stays without repetitions, the removed address is
    no admin any more, and every other admin still is one. *)
Theorem removeAdmin_removes_exactly_one {Job Ev T}
    (AdminRemoved : Escrow.address → Escrow.address → Ev)
    (msg_sender _admin : Escrow.address) (w w' : Escrow.World Job Ev T) :
  NoDup (Escrow.admins (Escrow.storage w)) →
  Governable.removeAdmin AdminRemoved msg_sender _admin w = Escrow.Returns (tt, w') →
  msg_sender ∈ Escrow.admins (Escrow.storage w)
  ∧ _admin ∈ Escrow.admins (Escrow.storage w)
  ∧ NoDup (Escrow.admins (Escrow.storage w'))
  ∧ S (length (Escrow.admins (Escrow.storage w')))
    = length (Escrow.admins (Escrow.storage w))
  ∧ (Governable.isAdmin (Escrow.admins (Escrow.storage w')) _admin).1 = false
  ∧ (∀ x, x ≠ _admin →
       (Governable.isAdmin (Escrow.admins (Escrow.storage w')) x).1
       = (Governable.isAdmin (Escrow.admins (Escrow.storage w)) x).1).
Proof.
  intros Hnodup Hcall.
  apply removeAdmin_returns in Hcall as (Hsender & k & Hk & _ & ->).
  unfold Sol.set_admins. cbn [Escrow.storage Escrow.admins].
  pose proof (cut_out_perm _ _ _ Hk) as Hperm.
  remember (Governable.cut_out (Escrow.admins (Escrow.storage w)) (Z.of_nat k))
    as rest eqn:Hrest_def. clear Hrest_def.
  pose proof (Permutation_length Hperm) as Hlen.
  assert (∀ x, x ∈ Escrow.admins (Escrow.storage w) ↔ x = _admin ∨ x ∈ rest)
    as Hmem by (intros x; rewrite <- Hperm, elem_of_cons; tauto).
  rewrite <- Hperm in Hnodup. apply NoDup_cons in Hnodup as [Hgone Hrest].
  split; [done|]. split; [by eapply list_elem_of_lookup_2|]. split; [done|].
  split; [done|].
  assert (∀ l x, (Governable.isAdmin l x).1 = bool_decide (x ∈ l)) as Hdec.
  { intros l x. pose proof (isAdmin_finds_members l x) as [Hiff _].
    case_bool_decide as Hx.
    - by apply Hiff.
    - destruct (Governable.isAdmin l x).1 eqn:Hb; [|done]. destruct Hx. by apply Hiff. }
  split.
  - rewrite Hdec. by apply bool_decide_eq_false.
  - intros x Hx. rewrite !Hdec. apply bool_decide_ext.
    rewrite Hmem. split; [by right|by intros [?|?]].
Qed.

(** Of the admins 1, 2 and 3, admin 3 removes admin 1. *)
Lemma removeAdmin_removes_exactly_one_witness :
  3 ∈ [1; 2; 3]
  ∧ 1 ∈ [1; 2; 3]
  ∧ NoDup (Escrow.admins (Escrow.storage two_admins))
  ∧ S (length (Escrow.admins (Escrow.storage two_admins))) = 3%nat
  ∧ (Governable.isAdmin (Escrow.admins (Escrow.storage two_admins)) 1).1 = false
  ∧ (∀ x, x ≠ 1 →
       (Governable.isAdmin (Escrow.admins (Escrow.storage two_admins)) x).1
       = (Governable.isAdmin [1; 2; 3] x).1).
Proof.
  apply (removeAdmin_removes_exactly_one Escrow.Second.AdminRemoved 3 1
           three_admins two_admins).
  - apply (bool_decide_unpack _). vm_compute. exact I.
  - reflexivity.
Defined.


(** ** The second listing *)

Section SecondListingFacts.
Import Escrow Sol.
Context {T : Type}.
Variable this : address.

Implicit Types w : World Second.Job Second.Ev T.
Implicit Types outside : Outside Second.Job Second.Ev T.

Lemma job_set_same (s : Storage Second.Job) k j :
  Second.job (set_job k j s) k = j.
Proof. unfold Second.job, set_job. cbn. by rewrite lookup_insert_eq. Qed.

Lemma job_set_other (s : Storage Second.Job) k k' j :
  k ≠ k' → Second.job (set_job k j s) k' = Second.job s k'.
Proof. intros. unfold Second.job, set_job. cbn. by rewrite lookup_insert_ne. Qed.

Lemma not_settled (st : JobState) :
  st ∈ [Assigned; Completed; Arbitration] → st ≠ Paid ∧ st ≠ Unacceptable.
Proof.
  rewrite !elem_of_cons, elem_of_nil. by intros [->|[->|[->|[]]]].
Qed.

Lemma job_set_nonce (s : Storage Second.Job) c k :
  Second.job (set_nonce c s) k = Second.job s k.
Proof. done. Qed.

Lemma SafeMath_add_one (n c : Z) :
  uint256 n → SafeMath_add n 1 = Returns c → c = n + 1 ∧ uint256 c.
Proof.
  unfold uint256, SafeMath_add. intros Hn. cbv zeta.
  destruct (Z.lt_ge_cases (n + 1) (2 ^ 256)) as [Hfits|Hover].
  - rewrite Z.mod_small by lia. destruct (Z.geb_spec (n + 1) n); [|lia].
    intros [= <-]. lia.
  - replace (n + 1) with (2 ^ 256) by lia. rewrite Z.mod_same by done.
    destruct (Z.geb_spec 0 n); [|done]. intros [= <-]. lia.
Qed.

Lemma set_job_twice (s : Storage Second.Job) k j1 j2 :
  set_job k j2 (set_job k j1 s) = set_job k j2 s.
Proof. unfold set_job. cbn. by rewrite insert_insert_eq. Qed.

(** Unfolds the statements of a call of this listing. *)
Ltac open_call :=
  unfold SecondListing.assign, Governable.onlyAdmins, andthen, sload, sstore,
    emit_event, lift, require, pure, ERC20_transferFrom, ERC20_transfer;
  cbn.

(** What each call that returns has checked and written, and the call
    out that it has made after that. *)
Lemma setToken_returns _token w w' :
  SecondListing.setToken _token w = Returns (tt, w') →
  _token ≠ 0 ∧ storage w' = set_token _token (storage w).
Proof.
  unfold SecondListing.setToken. open_call. take_apart. by intros [= <-].
Qed.

Lemma addJob_returns outside msg_sender _description _tokens w w' :
  SecondListing.addJob outside this msg_sender _description _tokens w
    = Returns (tt, w') →
  ∃ c w0,
    SafeMath_add (nonce (storage w)) 1 = Returns c
    ∧ storage w0
      = set_nonce c
          (set_job (nonce (storage w))
             (SecondListing.set_status Created
                (SecondListing.set_vodiantTokensStaked _tokens
                   (SecondListing.set_vodiant msg_sender
                      (SecondListing.set_description _description
                         (Second.job (storage w) (nonce (storage w)))))))
             (storage w))
    ∧ transferFrom_of outside (token (storage w)) msg_sender this _tokens w0
      = Returns (true, w').
Proof.
  unfold SecondListing.addJob. open_call.
  destruct (SafeMath_add (nonce (storage w)) 1) as [c|] eqn:Hadd; [|done].
  cbn. rewrite ?job_set_same, ?set_job_twice.
  destruct (transferFrom_of outside _ _ _ _ _) as [[[] w1]|] eqn:Hout; cbn; [|done..].
  intros [= <-]. exists c. eexists. split; [done|]. split; [|exact Hout]. done.
Qed.

Lemma applyForJob_returns outside msg_sender _nonce _tokens w w' :
  SecondListing.applyForJob outside this msg_sender _nonce _tokens w
    = Returns (tt, w') →
  Second.status (Second.job (storage w) _nonce) = Created
  ∧ ∃ w0 w1,
      storage w0
      = set_job _nonce
          (SecondListing.set_status Assigned
             (SecondListing.set_vodeerTokensStaked _tokens
                (SecondListing.set_vodeer msg_sender (Second.job (storage w) _nonce))))
          (storage w)
      ∧ transferFrom_of outside (token (storage w)) msg_sender this _tokens w0
        = Returns (true, w1)
      ∧ storage w' = storage w1.
Proof.
  unfold SecondListing.applyForJob. open_call.
  case_bool_decide as Hst; [|done]. cbn.
  rewrite ?job_set_same, ?set_job_twice.
  destruct (transferFrom_of outside _ _ _ _ _) as [[[] w1]|] eqn:Hout; cbn; [|done..].
  intros [= <-]. split; [done|]. eexists _, w1. split; [|split; [exact Hout|done]].
  done.
Qed.

Lemma submitWork_returns msg_sender _nonce w w' :
  SecondListing.submitWork msg_sender _nonce w = Returns (tt, w') →
  Second.vodeer (Second.job (storage w) _nonce) = msg_sender
  ∧ Second.status (Second.job (storage w) _nonce) = Assigned
  ∧ storage w'
    = set_job _nonce (SecondListing.set_status Completed (Second.job (storage w) _nonce))
        (storage w).
Proof.
  unfold SecondListing.submitWork. open_call. take_apart. by intros [= <-].
Qed.

Lemma dissatisfactory_returns msg_sender _nonce w w' :
  SecondListing.dissatisfactoryWorkSubmitted msg_sender _nonce w = Returns (tt, w') →
  Second.vodiant (Second.job (storage w) _nonce) = msg_sender
  ∧ Second.status (Second.job (storage w) _nonce) = Completed
  ∧ Second.vodiantDissatisfied (Second.job (storage w) _nonce) = false
  ∧ storage w'
    = set_job _nonce
        (SecondListing.set_vodiantDissatisfied true (Second.job (storage w) _nonce))
        (storage w).
Proof.
  unfold SecondListing.dissatisfactoryWorkSubmitted. open_call.
  take_apart. by intros [= <-].
Qed.

Lemma raiseDispute_returns msg_sender _nonce w w' :
  SecondListing.raiseDispute msg_sender _nonce w = Returns (tt, w') →
  Second.vodeer (Second.job (storage w) _nonce) = msg_sender
  ∧ Second.status (Second.job (storage w) _nonce) = Completed
  ∧ Second.vodiantDissatisfied (Second.job (storage w) _nonce) = true
  ∧ storage w'
    = set_job _nonce
        (SecondListing.set_status Arbitration (Second.job (storage w) _nonce))
        (storage w).
Proof.
  unfold SecondListing.raiseDispute. open_call.
  take_apart. by intros [= <-].
Qed.

Lemma assignArbiter_returns msg_sender _nonce _arbiter w w' :
  SecondListing.assignArbiter msg_sender _nonce _arbiter w = Returns (tt, w') →
  (Governable.isAdmin (admins (storage w)) msg_sender).1 = true
  ∧ Second.status (Second.job (storage w) _nonce) = Arbitration
  ∧ Second.arbiter (Second.job (storage w) _nonce) = 0
  ∧ _arbiter ≠ 0
  ∧ storage w'
    = set_job _nonce (SecondListing.set_arbiter _arbiter (Second.job (storage w) _nonce))
        (storage w).
Proof.
  unfold SecondListing.assignArbiter. open_call.
  destruct (Governable.isAdmin (admins (storage w)) msg_sender).1; [|done].
  cbn. take_apart. by intros [= <-].
Qed.

(** A property of the storage that the statements of every frame keep,
    and that the calls out of a frame keep, is kept by the frame. *)
Lemma perform_keeps (P : Storage Second.Job → Prop) outside :
  (∀ s call s', P s → SecondFacts.effect s call s' → P s') →
  (∀ token _to _value w b w',
     P (storage w) → transfer_of outside token _to _value w = Returns (b, w') →
     P (storage w')) →
  (∀ token _from _to _value w b w',
     P (storage w) →
     transferFrom_of outside token _from _to _value w = Returns (b, w') →
     P (storage w')) →
  ∀ msg_sender call w w',
    P (storage w) →
    SecondListing.perform outside this msg_sender call w = Returns (tt, w') →
    P (storage w').
Proof.
  intros Hclosed Hpays Hpulls msg_sender call w w' HP Hcall.
  destruct call; cbn [SecondListing.perform] in Hcall.
  - apply addAdmin_returns in Hcall as (Hs & Ha & Hlen & ->). cbn.
    apply (Hclosed _ (SecondListing.AddAdmin _admin) _ HP).
    apply SecondFacts.effect_admins; [|rewrite length_app; cbn; lia|].
    + intros Hnodup. apply NoDup_app. split; [done|].
      split; [|apply NoDup_singleton].
      intros x Hx ->%list_elem_of_singleton. done.
    + intros Hnil. rewrite Hnil in Hs. by apply elem_of_nil in Hs.
  - apply removeAdmin_returns in Hcall as (Hs & k & Hk & _ & ->). cbn.
    pose proof (cut_out_perm _ _ _ Hk) as Hperm.
    pose proof (Permutation_length Hperm) as Hlen. cbn in Hlen.
    apply (Hclosed _ (SecondListing.RemoveAdmin _admin) _ HP).
    apply SecondFacts.effect_admins; [|lia|].
    + intros Hnodup. rewrite <- Hperm in Hnodup.
      by apply NoDup_cons in Hnodup as [_ ?].
    + intros Hnil. rewrite Hnil in Hs. by apply elem_of_nil in Hs.
  - apply setToken_returns in Hcall as [_ ->].
    apply (Hclosed _ (SecondListing.SetToken _token) _ HP).
    apply SecondFacts.effect_token.
  - apply addJob_returns in Hcall as (c & w0 & Hadd & Hw0 & Hout).
    eapply Hpulls; [|exact Hout]. rewrite Hw0.
    apply (Hclosed _ (SecondListing.AddJob _description _tokens) _ HP).
    by apply SecondFacts.effect_added.
  - apply applyForJob_returns in Hcall as (Hst & w0 & w1 & Hw0 & Hout & ->).
    eapply Hpulls; [|exact Hout]. rewrite Hw0.
    apply (Hclosed _ (SecondListing.ApplyForJob _nonce _tokens) _ HP).
    apply SecondFacts.effect_job; cbn; rewrite ?Hst;
      [done|by repeat constructor|done..].
  - apply submitWork_returns in Hcall as (_ & Hst & ->).
    apply (Hclosed _ (SecondListing.SubmitWork _nonce) _ HP).
    apply SecondFacts.effect_job; cbn; rewrite ?Hst;
      [done|by repeat constructor|done..].
  - apply dissatisfactory_returns in Hcall as (Hv & Hst & Hflag & ->).
    apply (Hclosed _ (SecondListing.DissatisfactoryWorkSubmitted _nonce) _ HP).
    apply SecondFacts.effect_job; cbn; rewrite ?Hst;
      [done|by repeat constructor|done..].
  - apply raiseDispute_returns in Hcall as (_ & Hst & Hflag & ->).
    apply (Hclosed _ (SecondListing.RaiseDispute _nonce) _ HP).
    apply SecondFacts.effect_job; cbn; rewrite ?Hst, ?Hflag;
      [done|by repeat constructor|done..].
  - apply assignArbiter_returns in Hcall as (Hadm & Hst & _ & _ & ->).
    apply (Hclosed _ (SecondListing.AssignArbiter _nonce _arbiter) _ HP).
    apply SecondFacts.effect_job; cbn; rewrite ?Hst;
      [done|by repeat constructor|done..].
  - apply second_positiveVerdict_returns
      in Hcall as (_ & _ & tokens & w1 & Hout & ->).
    by eapply Hpays.
  - apply second_negativeVerdict_returns
      in Hcall as (_ & _ & w1 & w2 & Hfirst & Hsecond & ->).
    eapply Hpays; [|exact Hsecond]. by eapply Hpays.
Qed.

(** The token's script keeps what the calls back keep. *)
Lemma call_out_keeps (P : Storage Second.Job → Prop)
    (callback : address → SecondListing.Call → Exec Second.Job Second.Ev T unit)
    (script : Script (World Second.Job Second.Ev T) T SecondListing.Call) :
  (∀ msg_sender call w w',
     P (storage w) → callback msg_sender call w = Returns (tt, w') → P (storage w')) →
  ∀ w b w', P (storage w) → call_out callback script w = Returns (b, w') →
            P (storage w').
Proof.
  intros Hback.
  induction script as [ok chain'| |chain' sender call k IH]; intros w b w' HP; cbn.
  - by intros [= <- <-].
  - done.
  - destruct (callback sender call _) as [[[] w1]|] eqn:Hcalled.
    + apply IH. eapply Hback; [|exact Hcalled]. exact HP.
    + apply IH. exact HP.
Qed.

(** So a property that the statements of every frame keep holds after
    every transaction that returns, whatever the token does. *)
Lemma transact_keeps (P : Storage Second.Job → Prop)
    (erc20 : ERC20 (World Second.Job Second.Ev T) T SecondListing.Call) :
  (∀ s call s', P s → SecondFacts.effect s call s' → P s') →
  ∀ depth msg_sender call w w',
    P (storage w) →
    SecondListing.transact erc20 this depth msg_sender call w = Returns (tt, w') →
    P (storage w').
Proof.
  intros Hclosed.
  induction depth as [|deeper IH]; intros msg_sender call w w' HP;
    rewrite second_transact_eq; apply perform_keeps; try done.
  - intros token _to _value u b u' HPu. cbn.
    by apply (call_out_keeps P).
  - intros token _from _to _value u b u' HPu. cbn.
    by apply (call_out_keeps P).
Qed.

Lemma effect_healthy s call s' :
  SecondFacts.healthy s → SecondFacts.effect s call s' → SecondFacts.healthy s'.
Proof.
  intros (Hnodup & Hlen & Hnonce & Hjobs) Heffect.
  destruct Heffect as [call l Hl Hlen' _|call t|d t j c Hadd Hj
                      |call k j Hwritten Hj _ _ _|call].
  1, 2, 5: by (split; [|split; [|split]]; cbn; auto).
  - apply SafeMath_add_one in Hadd as [-> Hnext]; [|done].
    split; [done|]. split; [done|]. split; [done|]. intros k.
    rewrite job_set_nonce.
    destruct (decide (nonce s = k)) as [<-|Hk].
    + rewrite job_set_same, Hj. cbn. repeat split; try done.
      unfold uint256 in *. lia.
    + rewrite job_set_other by done. destruct (Hjobs k) as (? & ? & Hout). cbn.
      repeat split; try done. intros Hrange. apply Hout. lia.
  - split; [done|]. split; [done|]. split; [done|]. intros k'.
    destruct (decide (k = k')) as [<-|Hk].
    + rewrite job_set_same. destruct (Hjobs k) as (_ & _ & Hout).
      repeat split.
      * by apply not_settled in Hj as [? _].
      * by apply not_settled in Hj as [_ ?].
      * intros Hrange. destruct Hwritten. by rewrite (Hout Hrange).
    + rewrite job_set_other by done. apply Hjobs.
Qed.

(** The storage the constructor leaves. *)
Lemma constructor_returns deployer _token chain0 w :
  SecondListing.constructor deployer _token (mkWorld empty_storage chain0 [])
    = Returns (tt, w) →
  storage w = mkStorage [deployer] 0 _token 0 ∅.
Proof.
  unfold SecondListing.constructor, Governable.constructor, SecondListing.setToken.
  open_call. take_apart. by intros [= <-].
Qed.

Lemma constructor_healthy deployer _token chain0 w :
  SecondListing.constructor deployer _token (mkWorld empty_storage chain0 [])
    = Returns (tt, w) →
  SecondFacts.healthy (storage w).
Proof.
  intros ->%constructor_returns. split; [apply NoDup_singleton|].
  split; [cbn; lia|]. split; [done|]. intros k. unfold Second.job. cbn.
  by rewrite lookup_empty.
Qed.

(** Without an admin no frame writes the admins. *)
Lemma effect_without_admins s call s' :
  admins s = [] → SecondFacts.effect s call s' → admins s' = [].
Proof. intros Hnil [call' l _ _ Hsome| | | |]; by cbn. Qed.

Lemma without_admins_reverts {A} msg_sender
    (body : Exec Second.Job Second.Ev T A) w :
  admins (storage w) = [] →
  Governable.onlyAdmins msg_sender body w = Reverts "Not an admin".
Proof.
  intros Hnil. unfold Governable.onlyAdmins, andthen, sload, require. cbn.
  by rewrite Hnil.
Qed.

Lemma steps_without_admins
    (erc20 : ERC20 (World Second.Job Second.Ev T) T SecondListing.Call) w w' :
  rtc (SecondFacts.step erc20 this) w w' →
  admins (storage w) = [] → admins (storage w') = [].
Proof.
  induction 1 as [|u v z (depth & msg_sender & call & Hcall) _ IH]; [done|].
  intros Hnil. apply IH.
  by apply (transact_keeps (λ s, admins s = []) erc20 effect_without_admins
              depth msg_sender call u v).
Qed.

(** While the vodiant of a Completed job has not declared the work
    dissatisfactory, the statements of a frame leave the job as it is or
    set the flag. *)
Lemma effect_waits_for_the_vodiant (k : Z) (j0 : Second.Job) :
  Second.status j0 = Completed → Second.vodiantDissatisfied j0 = false →
  ∀ s call s',
  SecondFacts.healthy s
  ∧ (Second.job s k = j0 ∨ Second.vodiantDissatisfied (Second.job s k) = true) →
  SecondFacts.effect s call s' →
  SecondFacts.healthy s'
  ∧ (Second.job s' k = j0 ∨ Second.vodiantDissatisfied (Second.job s' k) = true).
Proof.
  intros Hdone Hunset s call s' [Hhealthy Hjob] Heffect.
  split; [by eapply effect_healthy|].
  destruct Hhealthy as (_ & _ & Hnonce & Hjobs).
  destruct Heffect as [call l _ _ _|call t|d t j c Hadd Hj
                      |call k' j Hwritten _ _ Hkeeps Hsets|call]; try done.
  - rewrite job_set_nonce.
    destruct (decide (nonce s = k)) as [<-|Hk]; [|by rewrite job_set_other].
    destruct (Hjobs (nonce s)) as (_ & _ & Hout).
    rewrite Hout in Hjob by lia. destruct Hjob as [<-|?]; done.
  - destruct (decide (k' = k)) as [->|Hk]; [|by rewrite job_set_other].
    rewrite job_set_same. right.
    destruct Hjob as [Hsame|Hset]; [|by apply Hkeeps].
    apply Hsets; by rewrite Hsame.
Qed.

End SecondListingFacts.

(** X9.  Every world the deployed second listing can reach is healthy:
    its admins are pairwise different and at most ten, the job counter is
    a 256-bit value, only the slots below the counter have been written,
    and no job is Paid or Unacceptable, whatever transactions returned. *)
Theorem deployed_contract_stays_healthy {T}
    (erc20 : Escrow.ERC20 (Escrow.World Escrow.Second.Job Escrow.Second.Ev T) T
               SecondListing.Call)
    (this : Escrow.address)
    (w : Escrow.World Escrow.Second.Job Escrow.Second.Ev T) :
  SecondListing.reachable erc20 this w →
  SecondFacts.healthy (Escrow.storage w).
Proof.
  induction 1 as [deployer _token chain0 w Hnew
                 |w depth msg_sender call w' _ IH Hcall].
  - by eapply constructor_healthy.
  - by apply (transact_keeps this SecondFacts.healthy erc20 effect_healthy
                depth msg_sender call w w').
Qed.

(** Deployed by 1, then 10 adds a job. *)
Lemma deployed_contract_stays_healthy_witness :
  SecondFacts.healthy (Escrow.storage second_with_job).
Proof.
  apply (deployed_contract_stays_healthy paying_token 5).
  apply (SecondListing.transacted _ _ second_deployed 1%nat 10
           (SecondListing.AddJob "job" 300)).
  - by apply (SecondListing.deployed _ _ 1 99 []).
  - reflexivity.
Defined.

(** X10.  In the second listing a Completed job whose vodiant has not
    declared the work dissatisfactory comes out of every transaction that
    returns, whatever the token does during it, either exactly as it was
    or with vodiantDissatisfied set: while the flag is unset nothing
    rewrites the job, moves it to Arbitration or gives a verdict on it. *)
Theorem completed_job_waits_for_its_vodiant {T}
    (erc20 : Escrow.ERC20 (Escrow.World Escrow.Second.Job Escrow.Second.Ev T) T
               SecondListing.Call)
    (this msg_sender : Escrow.address) (depth : nat)
    (call : SecondListing.Call) (k : Z)
    (w w' : Escrow.World Escrow.Second.Job Escrow.Second.Ev T) :
  SecondFacts.healthy (Escrow.storage w) →
  Escrow.Second.status (Escrow.Second.job (Escrow.storage w) k) = Escrow.Completed →
  Escrow.Second.vodiantDissatisfied (Escrow.Second.job (Escrow.storage w) k) = false →
  SecondListing.transact erc20 this depth msg_sender call w
    = Escrow.Returns (tt, w') →
  Escrow.Second.job (Escrow.storage w') k = Escrow.Second.job (Escrow.storage w) k
  ∨ Escrow.Second.vodiantDissatisfied (Escrow.Second.job (Escrow.storage w') k)
    = true.
Proof.
  intros Hhealthy Hdone Hunset Hcall.
  apply (transact_keeps this _ erc20
           (effect_waits_for_the_vodiant k _ Hdone Hunset)
           depth msg_sender call w w'); [|done].
  split; [done|by left].
Qed.

(** The vodiant 10 of job 0 declares the work of 20 dissatisfactory. *)
Lemma completed_job_waits_for_its_vodiant_witness :
  Escrow.Second.job (Escrow.storage second_contested) 0
  = Escrow.Second.job (Escrow.storage second_completed) 0
  ∨ Escrow.Second.vodiantDissatisfied
      (Escrow.Second.job (Escrow.storage second_contested) 0) = true.
Proof.
  apply (completed_job_waits_for_its_vodiant paying_token 5 10 1%nat
           (SecondListing.DissatisfactoryWorkSubmitted 0) 0
           second_completed second_contested).
  - split; [apply NoDup_singleton|]. split; [cbn; lia|]. split; [done|].
    intros k. unfold Escrow.Second.job. cbn.
    destruct (decide (k = 0)) as [->|Hk].
    + rewrite lookup_singleton_eq. cbn. repeat split; try done.
      intros Hout. destruct Hout. lia.
    + rewrite lookup_singleton_ne by done. cbn. repeat split; try done.
  - reflexivity.
  - reflexivity.
  - reflexivity.
Defined.

(** X11.  The last admin can remove itself, and then the contract has no
    admin for good: after any further transactions that return the array
    is still empty, and every [addAdmin], [removeAdmin] and [assignArbiter]
    reverts with "Not an admin", whoever sends it. *)
Theorem last_admin_can_leave_for_good {T}
    (erc20 : Escrow.ERC20 (Escrow.World Escrow.Second.Job Escrow.Second.Ev T) T
               SecondListing.Call)
    (this a : Escrow.address) (depth : nat)
    (w : Escrow.World Escrow.Second.Job Escrow.Second.Ev T) :
  Escrow.admins (Escrow.storage w) = [a] →
  ∃ w1,
    SecondListing.transact erc20 this depth a (SecondListing.RemoveAdmin a) w
      = Escrow.Returns (tt, w1)
    ∧ ∀ w2, rtc (SecondFacts.step erc20 this) w1 w2 →
        Escrow.admins (Escrow.storage w2) = []
        ∧ ∀ later msg_sender x k,
            SecondListing.transact erc20 this later msg_sender
              (SecondListing.AddAdmin x) w2 = Escrow.Reverts "Not an admin"
            ∧ SecondListing.transact erc20 this later msg_sender
                (SecondListing.RemoveAdmin x) w2 = Escrow.Reverts "Not an admin"
            ∧ SecondListing.transact erc20 this later msg_sender
                (SecondListing.AssignArbiter k x) w2 = Escrow.Reverts "Not an admin".
Proof.
  intros Hone.
  set (w1 := Escrow.mkWorld (Sol.set_admins [] (Escrow.storage w)) (Escrow.chain w)
               (Escrow.logs w ++ [Escrow.Second.AdminRemoved a a])).
  exists w1. split.
  - rewrite second_transact_eq. cbn [SecondListing.perform].
    apply removeAdmin_returns.
    rewrite Hone. split; [apply list_elem_of_here|]. exists 0%nat.
    split; [done|]. split; [|done]. intros [|j] ?; [lia|]. by cbn.
  - intros w2 Hsteps.
    assert (Escrow.admins (Escrow.storage w2) = []) as Hnil
      by (by eapply steps_without_admins).
    split; [done|]. intros later msg_sender x k.
    rewrite !second_transact_eq. cbn [SecondListing.perform].
    unfold Governable.addAdmin, Governable.removeAdmin, SecondListing.assignArbiter.
    by rewrite !without_admins_reverts.
Qed.

(** The deployer 1, the only admin, removes itself. *)
Lemma last_admin_can_leave_for_good_witness :
  ∃ w1,
    SecondListing.transact paying_token 5 1 1 (SecondListing.RemoveAdmin 1)
      second_deployed = Escrow.Returns (tt, w1)
    ∧ ∀ w2, rtc (SecondFacts.step paying_token 5) w1 w2 →
        Escrow.admins (Escrow.storage w2) = []
        ∧ ∀ later msg_sender x k,
            SecondListing.transact paying_token 5 later msg_sender
              (SecondListing.AddAdmin x) w2 = Escrow.Reverts "Not an admin"
            ∧ SecondListing.transact paying_token 5 later msg_sender
                (SecondListing.RemoveAdmin x) w2 = Escrow.Reverts "Not an admin"
            ∧ SecondListing.transact paying_token 5 later msg_sender
                (SecondListing.AssignArbiter k x) w2 = Escrow.Reverts "Not an admin".
Proof.
  apply (last_admin_can_leave_for_good paying_token 5 1 1%nat second_deployed).
  reflexivity.
Defined.

(** ** The first listing *)

Section FirstListingFacts.
Import Escrow Sol.
Context {T : Type}.
Variable outside : Outside First.Job First.Ev T.

Implicit Types w : World First.Job First.Ev T.

Ltac open_first :=
  unfold First.hasTransferred, FirstListing.overdue, FirstListing.assign,
    First.checkStatus, FirstListing.isVodeer, FirstListing.isVodiant,
    FirstListing.isVodiantSatisfied, FirstListing.isValidAddress,
    andthen, sload, sstore, emit_event, lift, require, pure, ERC20_transfer,
    SafeMath_sub;
  cbn.

Lemma first_job_set_same (s : Storage First.Job) k j :
  First.job (set_job k j s) k = j.
Proof. unfold First.job, set_job. cbn. by rewrite lookup_insert_eq. Qed.

(** Writing Paid into a job that is Paid changes nothing. *)
Lemma paid_again_writes_nothing w k :
  First.status (First.job (storage w) k) = Paid →
  mkWorld
    (set_job k (FirstListing.set_status Paid (First.job (storage w) k)) (storage w))
    (chain w) (logs w)
  = w.
Proof.
  destruct w as [[admins nonce token period jobs] chain logs].
  unfold First.job, set_job. cbn. intros Hpaid. do 2 f_equal.
  destruct (jobs !! k) as [j|] eqn:Hslot; [|done].
  apply insert_id. rewrite Hslot. f_equal. cbn in Hpaid.
  destruct j. cbn in *. by subst.
Qed.

(** What a [claimPayout] that returns has checked and written before it
    handed the world to the token. *)
Lemma claimPayout_returns msg_sender now k w w' :
  FirstListing.claimPayout outside msg_sender now k w = Returns (tt, w') →
  ∃ w0,
    storage w0
    = set_job k (FirstListing.set_status Paid (First.job (storage w) k)) (storage w)
    ∧ chain w0 = chain w
    ∧ transfer_of outside (token (storage w)) msg_sender
        (First.vodiantTokensStaked (First.job (storage w) k)) w0
      = Returns (true, w')
    ∧ (First.status (First.job (storage w) k) = Completed →
         First.payoutStartTime (First.job (storage w) k) ≤ now
         ∧ (payoutPeriod (storage w)
              < now - First.payoutStartTime (First.job (storage w) k) →
            msg_sender = First.vodeer (First.job (storage w) k)
            ∧ logs w0
              = logs w ++ [First.PayoutClaimed msg_sender
                             (First.vodiantTokensStaked (First.job (storage w) k))
                             false]))
    ∧ (First.status (First.job (storage w) k) = Arbitration →
         First.arbitrationTime (First.job (storage w) k) ≤ now
         ∧ (payoutPeriod (storage w)
              < now - First.arbitrationTime (First.job (storage w) k) →
            msg_sender = First.vodiant (First.job (storage w) k)
            ∧ logs w0
              = logs w ++ [First.PayoutClaimed msg_sender
                             (First.vodiantTokensStaked (First.job (storage w) k))
                             true])).
Proof.
  unfold FirstListing.claimPayout. open_first.
  take_apart.
  all: intros [= <-]; cbn.
  all: repeat match goal with
       | H : (_ <=? _) = true |- _ => apply Z.leb_le in H
       | H : (_ >? _) = true |- _ => apply Z.gtb_lt in H
       | H : (_ >? _) = false |- _ => rewrite Z.gtb_ltb, Z.ltb_ge in H
       end.
  all: eexists (mkWorld _ _ _); cbn.
  all: split; [reflexivity|]; split; [reflexivity|]; split; [eassumption|].
  all: split; intros Hst; try congruence; (split; [lia|]); intros; try lia; try done.
Qed.

Lemma claimPayout_unchecked msg_sender now k w w' :
  (First.status (First.job (storage w) k) = Completed →
     First.payoutStartTime (First.job (storage w) k) ≤ now
     ≤ First.payoutStartTime (First.job (storage w) k) + payoutPeriod (storage w)) →
  (First.status (First.job (storage w) k) = Arbitration →
     First.arbitrationTime (First.job (storage w) k) ≤ now
     ≤ First.arbitrationTime (First.job (storage w) k) + payoutPeriod (storage w)) →
  transfer_of outside (token (storage w)) msg_sender
    (First.vodiantTokensStaked (First.job (storage w) k))
    (mkWorld
       (set_job k (FirstListing.set_status Paid (First.job (storage w) k))
          (storage w))
       (chain w) (logs w))
  = Returns (true, w') →
  FirstListing.claimPayout outside msg_sender now k w = Returns (tt, w').
Proof.
  intros Hdone Hdisputed Hpaid. unfold FirstListing.claimPayout. open_first.
  destruct (bool_decide_reflect
              (First.status (First.job (storage w) k) = Completed)) as [Hst|Hst].
  - destruct (Hdone Hst) as [Hlo Hhi].
    destruct (Z.leb_spec (First.payoutStartTime (First.job (storage w) k)) now);
      [|lia].
    cbn. rewrite Z.gtb_ltb.
    destruct (Z.ltb_spec (payoutPeriod (storage w))
                (now - First.payoutStartTime (First.job (storage w) k))); [lia|].
    cbn. rewrite bool_decide_eq_false_2 by congruence. cbn. by rewrite Hpaid.
  - cbn.
    destruct (bool_decide_reflect
                (First.status (First.job (storage w) k) = Arbitration)) as [Harb|Harb].
    + destruct (Hdisputed Harb) as [Hlo Hhi].
      destruct (Z.leb_spec (First.arbitrationTime (First.job (storage w) k)) now);
        [|lia].
      cbn. rewrite Z.gtb_ltb.
      destruct (Z.ltb_spec (payoutPeriod (storage w))
                  (now - First.arbitrationTime (First.job (storage w) k))); [lia|].
      cbn. by rewrite Hpaid.
    + cbn. by rewrite Hpaid.
Qed.

End FirstListingFacts.

(** X12.  A [claimPayout] of the first listing that returns has set the
    job to Paid and then had the token contract transfer the job's stake
    to the caller; what the token left is what the call leaves.  The
    caller was checked only if the job was overdue: a Completed job whose
    payout period has passed is claimed by its vodeer, a job in
    Arbitration whose period has passed by its vodiant, and the claim is
    logged in these two cases. *)
Theorem claimPayout_checks_the_caller_only_when_overdue {T}
    (outside : Escrow.Outside Escrow.First.Job Escrow.First.Ev T)
    (msg_sender : Escrow.address) (now k : Z)
    (w w' : Escrow.World Escrow.First.Job Escrow.First.Ev T) :
  FirstListing.claimPayout outside msg_sender now k w = Escrow.Returns (tt, w') →
  ∃ w0,
    Escrow.storage w0
    = Sol.set_job k
        (FirstListing.set_status Escrow.Paid (Escrow.First.job (Escrow.storage w) k))
        (Escrow.storage w)
    ∧ Escrow.chain w0 = Escrow.chain w
    ∧ Escrow.transfer_of outside (Escrow.token (Escrow.storage w)) msg_sender
        (Escrow.First.vodiantTokensStaked (Escrow.First.job (Escrow.storage w) k)) w0
      = Escrow.Returns (true, w')
    ∧ (Escrow.First.status (Escrow.First.job (Escrow.storage w) k)
       = Escrow.Completed →
         Escrow.First.payoutStartTime (Escrow.First.job (Escrow.storage w) k) ≤ now
         ∧ (Escrow.payoutPeriod (Escrow.storage w)
              < now
                - Escrow.First.payoutStartTime (Escrow.First.job (Escrow.storage w) k) →
            msg_sender = Escrow.First.vodeer (Escrow.First.job (Escrow.storage w) k)
            ∧ Escrow.logs w0
              = Escrow.logs w
                ++ [Escrow.First.PayoutClaimed msg_sender
                      (Escrow.First.vodiantTokensStaked
                         (Escrow.First.job (Escrow.storage w) k))
                      false]))
    ∧ (Escrow.First.status (Escrow.First.job (Escrow.storage w) k)
       = Escrow.Arbitration →
         Escrow.First.arbitrationTime (Escrow.First.job (Escrow.storage w) k) ≤ now
         ∧ (Escrow.payoutPeriod (Escrow.storage w)
              < now
                - Escrow.First.arbitrationTime (Escrow.First.job (Escrow.storage w) k) →
            msg_sender = Escrow.First.vodiant (Escrow.First.job (Escrow.storage w) k)
            ∧ Escrow.logs w0
              = Escrow.logs w
                ++ [Escrow.First.PayoutClaimed msg_sender
                      (Escrow.First.vodiantTokensStaked
                         (Escrow.First.job (Escrow.storage w) k))
                      true])).
Proof. apply claimPayout_returns. Qed.

(** Job 3 was completed at 1000 and the period is 3600: at 9000 its
    vodeer 20 claims the payout, and the claim is logged. *)
Lemma claimPayout_checks_the_caller_only_when_overdue_witness :
  Escrow.First.status (Escrow.First.job (Escrow.storage first_done) 3)
  = Escrow.Completed
  ∧ Escrow.payoutPeriod (Escrow.storage first_done) < 9000 - 1000
  ∧ ∃ w0,
      Escrow.transfer_of (FirstListing.calls_at paying_token 5 9000 1) 99 20 300 w0
      = Escrow.Returns (true, first_paid_out)
      ∧ 20 = Escrow.First.vodeer (Escrow.First.job (Escrow.storage first_done) 3)
      ∧ Escrow.logs w0 = [Escrow.First.PayoutClaimed 20 300 false].
Proof.
  split; [reflexivity|]. split; [reflexivity|].
  destruct (claimPayout_checks_the_caller_only_when_overdue
              (FirstListing.calls_at paying_token 5 9000 1) 20 9000 3
              first_done first_paid_out)
    as (w0 & _ & _ & Hpaid & Hdone & _).
  - reflexivity.
  - exists w0. split; [exact Hpaid|]. apply Hdone; reflexivity.
Defined.

(** X13.  Outside the two overdue cases [claimPayout] of the first listing
    checks nothing: whatever the state of the job (Absent, Created,
    Assigned, Paid, Unacceptable, or Completed or in Arbitration with the
    period not yet passed) and whoever calls, it sets the job to Paid,
    logs nothing, and asks the token to transfer the job's stake to the
    caller; if the token answers true the call returns, with the world as
    the token left it. *)
Theorem claimPayout_pays_any_caller {T}
    (outside : Escrow.Outside Escrow.First.Job Escrow.First.Ev T)
    (msg_sender : Escrow.address) (now k : Z)
    (w w' : Escrow.World Escrow.First.Job Escrow.First.Ev T) :
  (Escrow.First.status (Escrow.First.job (Escrow.storage w) k) = Escrow.Completed →
     Escrow.First.payoutStartTime (Escrow.First.job (Escrow.storage w) k) ≤ now
     ≤ Escrow.First.payoutStartTime (Escrow.First.job (Escrow.storage w) k)
       + Escrow.payoutPeriod (Escrow.storage w)) →
  (Escrow.First.status (Escrow.First.job (Escrow.storage w) k) = Escrow.Arbitration →
     Escrow.First.arbitrationTime (Escrow.First.job (Escrow.storage w) k) ≤ now
     ≤ Escrow.First.arbitrationTime (Escrow.First.job (Escrow.storage w) k)
       + Escrow.payoutPeriod (Escrow.storage w)) →
  Escrow.transfer_of outside (Escrow.token (Escrow.storage w)) msg_sender
    (Escrow.First.vodiantTokensStaked (Escrow.First.job (Escrow.storage w) k))
    (Escrow.mkWorld
       (Sol.set_job k
          (FirstListing.set_status Escrow.Paid
             (Escrow.First.job (Escrow.storage w) k))
          (Escrow.storage w))
       (Escrow.chain w) (Escrow.logs w))
  = Escrow.Returns (true, w') →
  FirstListing.claimPayout outside msg_sender now k w = Escrow.Returns (tt, w').
Proof. apply claimPayout_unchecked. Qed.

(** 77, who has no part in job 3, claims it while it is still open. *)
Lemma claimPayout_pays_any_caller_witness :
  FirstListing.claimPayout (FirstListing.calls_at paying_token 5 5000 1) 77 5000 3
    first_open
  = Escrow.Returns (tt, first_claimed).
Proof.
  apply (claimPayout_pays_any_caller (FirstListing.calls_at paying_token 5 5000 1)
           77 5000 3 first_open first_claimed).
  - intros Hst. vm_compute in Hst. discriminate Hst.
  - intros Hst. vm_compute in Hst. discriminate Hst.
  - reflexivity.
Defined.

(** X14.  [claimPayout] does not look whether the job is Paid already: on
    a job that is Paid it writes nothing new and logs nothing, whoever
    calls and whenever, and asks the token to transfer the stake to the
    caller once more; if the token answers true the call returns. *)
Theorem paid_job_is_paid_again {T}
    (outside : Escrow.Outside Escrow.First.Job Escrow.First.Ev T)
    (msg_sender : Escrow.address) (now k : Z)
    (w w' : Escrow.World Escrow.First.Job Escrow.First.Ev T) :
  Escrow.First.status (Escrow.First.job (Escrow.storage w) k) = Escrow.Paid →
  Escrow.transfer_of outside (Escrow.token (Escrow.storage w)) msg_sender
    (Escrow.First.vodiantTokensStaked (Escrow.First.job (Escrow.storage w) k)) w
  = Escrow.Returns (true, w') →
  FirstListing.claimPayout outside msg_sender now k w = Escrow.Returns (tt, w').
Proof.
  intros Hpaid Hagain. apply claimPayout_unchecked.
  - rewrite Hpaid. by intros [=].
  - rewrite Hpaid. by intros [=].
  - by rewrite paid_again_writes_nothing.
Qed.

(** After 77, also 88 claims job 3. *)
Lemma paid_job_is_paid_again_witness :
  FirstListing.claimPayout (FirstListing.calls_at paying_token 5 9000 1) 88 9000 3
    first_claimed
  = Escrow.Returns
      (tt, Escrow.mkWorld (Escrow.storage first_claimed) [(77, 300); (88, 300)] []).
Proof.
  apply (paid_job_is_paid_again (FirstListing.calls_at paying_token 5 9000 1)
           88 9000 3 first_claimed).
  - reflexivity.
  - reflexivity.
Defined.

(** X15.  A verdict of the first listing does not close the job.  When the
    job is as it was after a [positiveVerdict] that returned (as it is
    when the token has not called back), the same arbiter's
    [negativeVerdict] on it returns as well if the token answers its
    transfer with true, refunding the vodiant the stake the vodeer was
    just paid; and so does a second [positiveVerdict], paying the vodeer
    again. *)
Theorem verdict_can_be_given_again {T}
    (outside : Escrow.Outside Escrow.First.Job Escrow.First.Ev T)
    (msg_sender : Escrow.address) (_nonce : Z)
    (w w1 : Escrow.World Escrow.First.Job Escrow.First.Ev T) :
  Escrow.First.positiveVerdict outside msg_sender _nonce w
    = Escrow.Returns (tt, w1) →
  Escrow.First.job (Escrow.storage w1) _nonce
  = Escrow.First.job (Escrow.storage w) _nonce →
  ∀ w2,
    (Escrow.transfer_of outside (Escrow.token (Escrow.storage w1))
       (Escrow.First.vodiant (Escrow.First.job (Escrow.storage w) _nonce))
       (Escrow.First.vodiantTokensStaked (Escrow.First.job (Escrow.storage w) _nonce))
       (Escrow.mkWorld (Escrow.storage w1) (Escrow.chain w1)
          (Escrow.logs w1
           ++ [Escrow.First.TokensRefunded _nonce
                 (Escrow.First.vodiant (Escrow.First.job (Escrow.storage w) _nonce))
                 (Escrow.First.vodeer (Escrow.First.job (Escrow.storage w) _nonce))
                 (Escrow.First.vodiantTokensStaked
                    (Escrow.First.job (Escrow.storage w) _nonce))]))
     = Escrow.Returns (true, w2) →
     Escrow.First.negativeVerdict outside msg_sender _nonce w1
     = Escrow.Returns (tt, w2))
    ∧ (Escrow.transfer_of outside (Escrow.token (Escrow.storage w1))
         (Escrow.First.vodeer (Escrow.First.job (Escrow.storage w) _nonce))
         (Escrow.First.vodiantTokensStaked (Escrow.First.job (Escrow.storage w) _nonce))
         (Escrow.mkWorld (Escrow.storage w1) (Escrow.chain w1)
            (Escrow.logs w1
             ++ [Escrow.First.VodeerPaid _nonce
                   (Escrow.First.vodeer (Escrow.First.job (Escrow.storage w) _nonce))
                   (Escrow.First.vodiantTokensStaked
                      (Escrow.First.job (Escrow.storage w) _nonce))]))
       = Escrow.Returns (true, w2) →
       Escrow.First.positiveVerdict outside msg_sender _nonce w1
       = Escrow.Returns (tt, w2)).
Proof.
  intros (Hst & Harbiter & _)%first_positiveVerdict_returns Hsame w2.
  split; intros Hpaid.
  - apply first_negativeVerdict_returns. by rewrite !Hsame.
  - apply first_positiveVerdict_returns. by rewrite !Hsame.
Qed.

(** The arbiter 30 of job 7 gives the positive and then the negative
    verdict, the token paying without calling back. *)
Lemma verdict_can_be_given_again_witness :
  Escrow.First.negativeVerdict (FirstListing.calls_at paying_token 1 3000 1) 30 7
    after_first
  = Escrow.Returns (tt, judged_twice_first).
Proof.
  destruct (verdict_can_be_given_again (FirstListing.calls_at paying_token 1 3000 1)
              30 7 before_first after_first)
    with (w2 := judged_twice_first) as [Hnegative _].
  - reflexivity.
  - reflexivity.
  - apply Hnegative. reflexivity.
Defined.
